(** * Calorie tracker: the record store (data_manager.py) and the charts
    of the chart builder (visualizer.py), embedded in Rocq.

    The store keeps one pandas DataFrame in a spreadsheet file and reloads
    and rewrites it on every call.  The embedding follows the Python text:

    - a DataFrame is its column header and its list of rows; a row is the
      cell of the [Date] column and a finite map from the names of the
      numeric columns to their values, a missing key being pandas' NaN;
    - numbers are exact rationals ([Qc]); rounding of floats is not modelled;
    - a method runs in a small state-and-exception monad over a [world]
      that holds the file, whether it can be written, the clock and the log;
      [try ... except Exception] is [try_except];
    - the pandas and datetime functions the code calls are modelled next to
      the code that calls them; what depends on the platform or on the
      files around the data file is a parameter of the development:
      [pd.to_datetime], the rendering of a float by [astype(str)],
      [date.strftime], the working directory and the name of the data
      file, and what a destination of [shutil.copy2] is. *)

From Stdlib Require Import ZArith QArith Qcanon String Ascii List.
From stdpp Require Import base numbers strings pretty list sorting gmap.

Local Open Scope string_scope.
Local Open Scope Z_scope.

(** ** Outcomes of Python calls *)

Inductive outcome (A : Type) : Type :=
  | Return (a : A)
  | Raise (e : string).
Arguments Return {A} a.
Arguments Raise {A} e.

Definition outcome_bind {A B} (o : outcome A) (k : A → outcome B) : outcome B :=
  match o with
  | Return a => k a
  | Raise e => Raise e
  end.

(** [[f(x) for x in l]], stopping at the first exception. *)
Fixpoint outcome_map {A B} (f : A → outcome B) (l : list A) : outcome (list B) :=
  match l with
  | [] => Return []
  | x :: l' =>
      outcome_bind (f x) (λ y,
      outcome_bind (outcome_map f l') (λ ys, Return (y :: ys)))
  end.

(** ** The calendar (datetime.date, pandas Timestamp) *)

Module Calendar.

(** Nanoseconds in a day: a pandas Timestamp counts nanoseconds from
    1970-01-01. *)
Definition ns_per_day : Z := 86400000000000.

(** Days from 1970-01-01 of the proleptic Gregorian date y-m-d. *)
Definition days_from_civil (y m d : Z) : Z :=
  let y' := if m <=? 2 then y - 1 else y in
  let era := y' / 400 in
  let yoe := y' - era * 400 in
  let mp := if 2 <? m then m - 3 else m + 9 in
  let doy := (153 * mp + 2) / 5 + d - 1 in
  let doe := yoe * 365 + yoe / 4 - yoe / 100 + doy in
  era * 146097 + doe - 719468.

(** The date (year, month, day) of a day count from 1970-01-01. *)
Definition civil_from_days (z : Z) : Z * Z * Z :=
  let z' := z + 719468 in
  let era := z' / 146097 in
  let doe := z' - era * 146097 in
  let yoe := (doe - doe / 1460 + doe / 36524 - doe / 146096) / 365 in
  let doy := doe - (365 * yoe + yoe / 4 - yoe / 100) in
  let mp := (5 * doy + 2) / 153 in
  let d := doy - (153 * mp + 2) / 5 + 1 in
  let m := if mp <? 10 then mp + 3 else mp - 9 in
  let y := yoe + era * 400 in
  (if m <=? 2 then y + 1 else y, m, d).

Definition is_leap (y : Z) : bool :=
  ((y mod 4 =? 0) && negb (y mod 100 =? 0)) || (y mod 400 =? 0).

Definition days_in_month (y m : Z) : Z :=
  if m =? 2 then (if is_leap y then 29 else 28)
  else if (m =? 4) || (m =? 6) || (m =? 9) || (m =? 11) then 30
  else 31.

(** [date.toordinal()]: 0001-01-01 is day 1, 1970-01-01 is day 719163. *)
Definition epoch_ordinal : Z := 719163.
Definition min_ordinal : Z := 1.
Definition max_ordinal : Z := 3652059.

(** ISO weekday, Monday = 1 ... Sunday = 7; 1970-01-01 was a Thursday. *)
Definition isoweekday (days : Z) : Z := (days + 3) mod 7 + 1.

Definition year_of_days (days : Z) : Z := (civil_from_days days).1.1.

Definition day_of_year (days : Z) : Z :=
  days - days_from_civil (year_of_days days) 1 1 + 1.

(** Number of ISO weeks (52 or 53) of a year. *)
Definition iso_weeks_in_year (y : Z) : Z :=
  let p := λ y, (y + y / 4 - y / 100 + y / 400) mod 7 in
  if (p y =? 4) || (p (y - 1) =? 3) then 53 else 52.

(** [isocalendar()]: the ISO year and the ISO week number of a day. *)
Definition isocalendar (days : Z) : Z * Z :=
  let y := year_of_days days in
  let w := (day_of_year days - isoweekday days + 10) / 7 in
  if w <? 1 then (y - 1, iso_weeks_in_year (y - 1))
  else if iso_weeks_in_year y <? w then (y + 1, 1)
  else (y, w).

(** Accessors of a Timestamp (nanoseconds): [.dt.year] and
    [.dt.isocalendar().week]. *)
Definition days_of_timestamp (t : Z) : Z := t / ns_per_day.
Definition dt_year (t : Z) : Z := year_of_days (days_of_timestamp t).
Definition dt_isocalendar_week (t : Z) : Z :=
  (isocalendar (days_of_timestamp t)).2.
Definition dt_isocalendar_year (t : Z) : Z :=
  (isocalendar (days_of_timestamp t)).1.

(** Decimal rendering with zero padding to [width] digits (%Y, %m, %d). *)
Definition zero_pad (width : nat) (n : Z) : string :=
  let s := pretty (Z.to_N n) in
  String.concat "" (replicate (width - String.length s) "0") +:+ s.


(** [date.strftime('%Y-%m-%d')] of a date given by its ordinal, on a
    platform that writes the year with four digits.  [date.strftime] is a
    parameter of the development, of which this is the instance of the
    examples: the C library formats the year, and glibc writes a year
    below 1000 without the leading zeros. *)
Definition strftime_ymd (ordinal : Z) : string :=
  let '(y, m, d) := civil_from_days (ordinal - epoch_ordinal) in
  zero_pad 4 y +:+ "-" +:+ zero_pad 2 m +:+ "-" +:+ zero_pad 2 d.

(** [timestamp.strftime('%m/%d')] of a Timestamp (nanoseconds). *)
Definition strftime_md (t : Z) : string :=
  let '(_, m, d) := civil_from_days (t / ns_per_day) in
  zero_pad 2 m +:+ "/" +:+ zero_pad 2 d.

(** [date - timedelta(days=n)]: OverflowError outside timedelta's or
    date's range. *)
Definition date_minus_days (ordinal n : Z) : outcome Z :=
  if 999999999 <? Z.abs n then
    Raise ("days=" +:+ pretty n +:+ "; must have magnitude <= 999999999")
  else if (min_ordinal <=? ordinal - n) && (ordinal - n <=? max_ordinal) then
    Return (ordinal - n)
  else Raise "date value out of range".

End Calendar.

(** ** DataFrames *)

(** A cell of the [Date] column as pandas holds it: a string after
    [astype(str)], but a spreadsheet read by [pd.read_excel] may hold an
    empty cell (NaN), an integer or a float there, and [df[col] = None]
    puts None. *)
Inductive cell : Type :=
  | NaN
  | PyNone
  | Int (z : Z)
  | Num (q : Qc)
  | Str (s : string).

Global Instance cell_eq_dec : EqDecision cell.
Proof. solve_decision. Defined.

(** A row: the [Date] cell and the numeric cells by column name.  A column
    name without a key is a NaN cell ([pd.isna] holds of it). *)
Record row : Type := Row {
  Date : cell;
  nums : gmap string Qc;
}.

Global Instance row_eq_dec : EqDecision row.
Proof. solve_decision. Defined.

Record DataFrame : Type := Frame {
  df_columns : list string;
  df_rows : list row;
}.

Global Instance DataFrame_eq_dec : EqDecision DataFrame.
Proof. solve_decision. Defined.

(** [self.columns] *)
Definition columns : list string :=
  ["Date"; "Calories"; "Protein"; "Carbs"; "Fat"; "Weight"; "Calorie_Goal"].

(** [pd.DataFrame(columns=cols)] and [pd.DataFrame()] *)
Definition DataFrame_of_columns (cols : list string) : DataFrame := Frame cols [].
Definition DataFrame_empty : DataFrame := Frame [] [].

(** [df.empty]: some axis has length 0. *)
Definition empty (df : DataFrame) : bool :=
  match df_rows df, df_columns df with
  | [], _ | _, [] => true
  | _, _ => false
  end.

(** [len(df)] *)
Definition len (df : DataFrame) : nat := length (df_rows df).

(** [df[col] = None]: the column is added to the header when new, and every
    cell of it becomes None. *)
Definition set_column_None (col : string) (df : DataFrame) : DataFrame :=
  Frame (if bool_decide (col ∈ df_columns df) then df_columns df
         else df_columns df ++ [col])
        ((λ r, if bool_decide (col = "Date") then Row PyNone (nums r)
               else Row (Date r) (delete col (nums r))) <$> df_rows df).

(** [df.drop(col, axis=1)] *)
Definition drop_column (col : string) (df : DataFrame) : DataFrame :=
  Frame (filter (λ c, c ≠ col) (df_columns df))
        ((λ r, Row (Date r) (delete col (nums r))) <$> df_rows df).

(** [df[mask]] for a mask computed row by row. *)
Definition select (mask : row → bool) (df : DataFrame) : DataFrame :=
  Frame (df_columns df) (filter (λ r, mask r) (df_rows df)).

(** [df.at[i, col]] for a numeric column: [None] is NaN. *)
Definition at_get (df : DataFrame) (i : nat) (col : string) : option Qc :=
  df_rows df !! i ≫= λ r, nums r !! col.

(** [df.at[i, col] = v] *)
Definition at_set (df : DataFrame) (i : nat) (col : string) (v : Qc) : DataFrame :=
  Frame (df_columns df)
        (alter (λ r, Row (Date r) (<[col := v]> (nums r))) i (df_rows df)).

(** [pd.concat([df, pd.DataFrame([new_row])], ignore_index=True)] for a
    row whose keys are [keys]: the header is the union, first [df]'s
    columns, and the rows are renumbered 0..n. *)
Definition concat_row (df : DataFrame) (keys : list string) (r : row) : DataFrame :=
  Frame (df_columns df ++ filter (λ c, c ∉ df_columns df) keys)
        (df_rows df ++ [r]).

(** [df.dropna(subset=cols)]: rows with a NaN in one of [cols] go. *)
Definition dropna (cols : list string) (df : DataFrame) : DataFrame :=
  select (λ r, forallb (λ c, bool_decide (is_Some (nums r !! c))) cols) df.

(** [df[col].isna().all()] *)
Definition isna_all (col : string) (df : DataFrame) : bool :=
  forallb (λ r, bool_decide (nums r !! col = None)) (df_rows df).

(** Comparison of rationals as a boolean. *)
Definition Qc_leb (x y : Qc) : bool := bool_decide (x ≤ y)%Qc.
Definition Qc_ltb (x y : Qc) : bool := bool_decide (x < y)%Qc.

Definition Qc_of_nat (n : nat) : Qc := Qc_of_Z (Z.of_nat n).

Definition Qc_sum (l : list Qc) : Qc := foldr Qcplus 0%Qc l.

(** [series.mean()]: NaN cells are skipped in the sum and in the count;
    the mean of no value at all is NaN. *)
Definition mean (cells : list (option Qc)) : option Qc :=
  match omap id cells with
  | [] => None
  | vs => Some (Qc_sum vs / Qc_of_nat (length vs))%Qc
  end.

(** [df[col]] for a numeric column. *)
Definition column (col : string) (df : DataFrame) : list (option Qc) :=
  (λ r, nums r !! col) <$> df_rows df.

(** [df['Date'].astype(str)] on one cell: [str] of the value.  An
    integer is written in decimal; the rendering of a float is the
    parameter [str_of_num]. *)
Definition astype_str_cell (str_of_num : Qc → string) (c : cell) : cell :=
  match c with
  | Str s => Str s
  | NaN => Str "nan"
  | PyNone => Str "None"
  | Int z => Str (pretty z)
  | Num q => Str (str_of_num q)
  end.

(** The strings of a [Date] column, or TypeError when some cell is not a
    string (sorting a column of mixed types). *)
Definition str_of_cell (c : cell) : outcome string :=
  match c with
  | Str s => Return s
  | _ => Raise "'<' not supported between instances of 'str' and 'float'"
  end.

Definition Date_le (r1 r2 : row) : Prop :=
  match Date r1, Date r2 with
  | Str s1, Str s2 => String.le s1 s2
  | _, _ => True
  end.

Global Instance Date_le_dec : RelDecision Date_le.
Proof.
  intros r1 r2. unfold Date_le.
  destruct (Date r1), (Date r2); apply _.
Defined.

(** [df.sort_values('Date')]: ascending in the order of Python strings
    (code points, lexicographic). *)
Definition sort_values_Date (df : DataFrame) : outcome DataFrame :=
  outcome_bind (outcome_map str_of_cell (Date <$> df_rows df)) (λ _,
  Return (Frame (df_columns df) (merge_sort Date_le (df_rows df)))).

(** ** The world of a call and the monad of Python methods *)

(** The data file: absent, present but not readable as a spreadsheet
    ([pd.read_excel] raises with the given message), or a sheet.  The
    spreadsheet codec itself is taken to be lossless: a sheet holds the
    DataFrame that [to_excel] was given. *)
Inductive file_state : Type :=
  | Absent
  | Corrupt (e : string)
  | Sheet (df : DataFrame).

Global Instance file_state_eq_dec : EqDecision file_state.
Proof. solve_decision. Defined.

Inductive level : Type := INFO | ERROR.

Global Instance level_eq_dec : EqDecision level.
Proof. solve_decision. Defined.

Record world : Type := World {
  file : file_state;                     (* the file at self.filepath *)
  writable : bool;                       (* can the directory be written *)
  today : Z;                             (* datetime.now().date().toordinal() *)
  stamp : string;                        (* datetime.now().strftime("%Y%m%d_%H%M%S") *)
  copies : list (string * file_state);   (* files written by backup_data *)
  log : list (level * string);           (* what the logger received *)
}.

Definition Py (A : Type) : Type := world → outcome A * world.

Global Instance Py_ret : MRet Py := λ A a w, (Return a, w).
Global Instance Py_bind : MBind Py := λ A B k m w,
  match m w with
  | (Return a, w') => k a w'
  | (Raise e, w') => (Raise e, w')
  end.

(** [raise] and [try: body except Exception as e: handler(str(e))] *)
Definition raise {A} (e : string) : Py A := λ w, (Raise e, w).

Definition try_except {A} (body : Py A) (handler : string → Py A) : Py A := λ w,
  match body w with
  | (Return a, w') => (Return a, w')
  | (Raise e, w') => handler e w'
  end.

(** A pandas or datetime call that computes a value or raises. *)
Definition lift {A} (o : outcome A) : Py A := λ w, (o, w).

(** The world after one more line of log. *)
Definition logged (lvl : level) (msg : string) (w : world) : world :=
  World (file w) (writable w) (today w) (stamp w) (copies w)
        (log w ++ [(lvl, msg)]).

Definition logger_info (msg : string) : Py unit := λ w,
  (Return (), logged INFO msg w).

Definition logger_error (msg : string) : Py unit := λ w,
  (Return (), logged ERROR msg w).

(** [os.path.exists(self.filepath)] *)
Definition os_path_exists : Py bool := λ w,
  (Return (bool_decide (file w ≠ Absent)), w).

(** [pd.read_excel(self.filepath)] *)
Definition read_excel : Py DataFrame := λ w,
  match file w with
  | Sheet df => (Return df, w)
  | Corrupt e => (Raise e, w)
  | Absent => (Raise "[Errno 2] No such file or directory", w)
  end.

(** [df.to_excel(self.filepath, index=False)]: the whole file is replaced. *)
Definition to_excel (df : DataFrame) : Py unit := λ w,
  if writable w then
    (Return (), World (Sheet df) true (today w) (stamp w) (copies w) (log w))
  else (Raise "[Errno 13] Permission denied", w).

(** What a destination of [shutil.copy2] is on the file system around the
    data file: the data file itself ([os.path.samefile]); a path that
    cannot be opened for writing, with the message of the error (no such
    directory, a permission, ...); or a file that can be written, whose
    path completes a destination that is a directory with the name of the
    data file. *)
Inductive destination : Type :=
  | Same_file
  | Cannot_open (e : string)
  | File (path : string).

(** [shutil.copy2(self.filepath, backup_path)], the file system being
    given by [destination_of]: the source is opened after the test for
    the same file, which is false of a source that does not exist. *)
Definition copy2 (destination_of : string → destination) (backup_path : string)
    : Py unit := λ w,
  match file w with
  | Absent => (Raise "[Errno 2] No such file or directory", w)
  | f =>
      match destination_of backup_path with
      | Same_file => (Raise "source and destination are the same file", w)
      | Cannot_open e => (Raise e, w)
      | File path =>
          (Return (), World (file w) (writable w) (today w) (stamp w)
                            ((path, f) :: copies w) (log w))
      end
  end.

(** [os.path.join(a, b)] of posixpath: an absolute [b] replaces [a]. *)
Fixpoint ends_with_slash (s : string) : bool :=
  match s with
  | EmptyString => false
  | String c EmptyString => Ascii.eqb c "/"
  | String _ s' => ends_with_slash s'
  end.

Definition os_path_join (a b : string) : string :=
  if String.prefix "/" b then b
  else if bool_decide (a = "") || ends_with_slash a then a +:+ b
  else a +:+ "/" +:+ b.

(** [datetime.now().date()] as an ordinal, and the timestamp of a backup. *)
Definition datetime_now_date : Py Z := λ w, (Return (today w), w).
Definition datetime_now_stamp : Py string := λ w, (Return (stamp w), w).

(** ** An instance of [pd.to_datetime]

    [pd.to_datetime] is a parameter of the development.  To run the store
    on examples, this instance reads the dates the GUI lets through
    ([datetime.strptime(s, "%Y-%m-%d")], which accepts one-digit months and
    days): numerals year-month-day separated by dashes, inside the range of
    a Timestamp; the strings pandas reads as NaT; anything else raises. *)
Module Pandas.

Fixpoint split_dash (s : string) : list string :=
  match s with
  | EmptyString => [EmptyString]
  | String c s' =>
      if Ascii.eqb c "-" then EmptyString :: split_dash s'
      else match split_dash s' with
           | x :: xs => String c x :: xs
           | [] => [String c EmptyString]
           end
  end.

Fixpoint numeral_go (acc : Z) (s : string) : option Z :=
  match s with
  | EmptyString => Some acc
  | String c s' =>
      match Ascii.is_nat c with
      | Some d => numeral_go (10 * acc + Z.of_nat d) s'
      | None => None
      end
  end.

Definition numeral (s : string) : option Z :=
  match s with
  | EmptyString => None
  | _ => numeral_go 0 s
  end.

Definition nat_strings : list string := ["NaT"; "nat"; "nan"; "NaN"; ""].

Definition to_datetime_ymd (c : cell) : outcome (option Z) :=
  match c with
  | NaN | PyNone => Return None
  | Int _ | Num _ => Raise "numbers are outside this instance of to_datetime"
  | Str s =>
      if bool_decide (s ∈ nat_strings) then Return None
      else
        match numeral <$> split_dash s with
        | [Some y; Some m; Some d] =>
            if (1678 <=? y) && (y <=? 2261) && (1 <=? m) && (m <=? 12)
               && (1 <=? d) && (d <=? Calendar.days_in_month y m)
            then Return (Some (Calendar.days_from_civil y m d * Calendar.ns_per_day))
            else Raise ("Out of bounds or invalid date: " +:+ s)
        | _ => Raise ("Unknown datetime string format, unable to parse: " +:+ s)
        end
  end.

(** The least [k] from [k0] on, below [k0 + fuel], such that [d] divides
    10^k. *)
Fixpoint decimal_places (fuel : nat) (d : Z) (k0 : nat) : option nat :=
  match fuel with
  | O => None
  | S fuel' =>
      if (10 ^ Z.of_nat k0) mod d =? 0 then Some k0
      else decimal_places fuel' d (S k0)
  end.

(** [str(x)] of a float that is a short decimal, between 0.0001 and 10^16
    in magnitude: an integral value as n.0, a value with a finite decimal
    expansion as that expansion (an instance of the parameter
    [str_of_num]).  The digits of another float depend on rounding, which
    is not modelled; it is written here as a fraction, which no float
    prints as. *)
Definition str_of_num (q : Qc) : string :=
  let n := Qnum (this q) in
  let d := Zpos (Qden (this q)) in
  match decimal_places 17 d 0 with
  | Some O => pretty n +:+ ".0"
  | Some k =>
      let digits := Z.abs n * (10 ^ Z.of_nat k / d) in
      (if n <? 0 then "-" else "")
      +:+ pretty (digits / 10 ^ Z.of_nat k) +:+ "."
      +:+ Calendar.zero_pad k (digits mod 10 ^ Z.of_nat k)
  | None => pretty n +:+ "/" +:+ pretty d
  end.

End Pandas.

(** ** Worlds for the examples *)

Module Example.

Definition cwd : string := "/home/user".
Definition filename : string := "calorie_data.xlsx".

(** 2025-01-01 as an ordinal: a Wednesday, in ISO week 1 of 2025. *)
Definition new_year : Z := 739252.

(** The file system of the examples: the directory [cwd] exists, can be
    written and has no subdirectory; it holds the data file, and no other
    directory can be reached.  A destination is the data file itself (by
    its path, or by the path of the directory, which [shutil.copy2]
    completes with the file's name), a file name in [cwd], or a path
    that cannot be opened. *)
Definition destination_of (path : string) : destination :=
  let dir := cwd +:+ "/" in
  let name := String.substring (String.length dir)
                (String.length path - String.length dir) path in
  if negb (String.prefix dir path) then
    Cannot_open ("[Errno 2] No such file or directory: '" +:+ path +:+ "'")
  else if bool_decide (name = filename) || bool_decide (name = "") then Same_file
  else if bool_decide (String.index 0 "/" name = None) then File path
  else Cannot_open ("[Errno 2] No such file or directory: '" +:+ path +:+ "'").

(** No data file yet, in a directory that can be written. *)
Definition fresh : world :=
  World Absent true new_year "20250101_120000" [] [].

(** No data file, in a directory that cannot be written. *)
Definition read_only : world :=
  World Absent false new_year "20250101_120000" [] [].

Definition row_of (date_str : string) (cells : list (string * Z)) : row :=
  Row (Str date_str) (list_to_map (prod_map id Qc_of_Z <$> cells)).

(** A table of two days with a weight, four days apart. *)
Definition two_weights : world :=
  World (Sheet (Frame columns [row_of "2024-12-28" [("Weight", 150)];
                               row_of "2025-01-01" [("Weight", 145)]]))
        true new_year "20250101_120000" [] [].

(** A data file that is not a spreadsheet. *)
Definition corrupt : world :=
  World (Corrupt "File is not a zip file") true new_year "20250101_120000" [] [].


(** A table of three days with every cell recorded. *)
Definition three_days : world :=
  World (Sheet (Frame columns
           [row_of "2024-12-30" [("Calories", 1000); ("Protein", 50);
                                 ("Carbs", 100); ("Fat", 20); ("Weight", 150);
                                 ("Calorie_Goal", 1800)];
            row_of "2024-12-31" [("Calories", 2000); ("Protein", 80);
                                 ("Carbs", 250); ("Fat", 60); ("Weight", 149);
                                 ("Calorie_Goal", 1800)];
            row_of "2025-01-01" [("Calories", 3000); ("Protein", 100);
                                 ("Carbs", 400); ("Fat", 90); ("Weight", 151);
                                 ("Calorie_Goal", 2500)]]))
        true new_year "20250101_120000" [] [].

End Example.

(** ** data_manager.py: class DataManager *)

(** The value of [get_summary_stats]. *)
Record stats : Type := Stats {
  avg_calories : Qc;
  avg_protein : Qc;
  avg_carbs : Qc;
  avg_fat : Qc;
  avg_weight : Qc;
  weight_change : option Qc;
  goal_achievement_rate : Qc;
  days_with_data : nat;
}.

(** A row of [weekly_data] in [create_weekly_summary_chart]. *)
Record weekly_row : Type := WeeklyRow {
  Year : Z;
  Week : Z;
  week_Calories : option Qc;
  week_Weight : option Qc;
  week_Protein : option Qc;
  week_Carbs : option Qc;
  week_Fat : option Qc;
}.

(** The colours that the charts give to their bars. *)
Inductive colour : Type := Red | Orange | Green | Blue.

Global Instance colour_eq_dec : EqDecision colour.
Proof. solve_decision. Defined.

(** What [create_weight_chart] draws: the points of the line, and the
    values of the trend line when there is one. *)
Record weight_chart : Type := WeightChart {
  weight_dates : list (option Z);
  weight_values : list (option Qc);
  weight_trend : option (list Qc);
}.

(** What [create_calorie_chart] draws: the bars and their colours, and the
    level of the average line. *)
Record calorie_chart : Type := CalorieChart {
  calorie_dates : list (option Z);
  calorie_values : list (option Qc);
  calorie_average : option Qc;
  calorie_colours : list colour;
}.

(** What [create_macro_chart] draws: the upper edges of the three bands. *)
Record macro_chart : Type := MacroChart {
  macro_dates : list (option Z);
  macro_protein : list (option Qc);
  macro_protein_carbs : list (option Qc);
  macro_protein_carbs_fat : list (option Qc);
}.

(** What [create_goal_comparison_chart] draws: the labels of the days,
    the pairs of bars with their colours, and the rate that is written. *)
Record goal_chart : Type := GoalChart {
  goal_labels : list string;
  goal_actual : list (option Qc);
  goal_goals : list (option Qc);
  goal_colours : list (colour * colour);
  goal_success_rate : option Qc;
}.

(** Comparison of Timestamps: false when a side is NaT. *)
Definition timestamp_le (a b : option Z) : bool :=
  match a, b with
  | Some x, Some y => x <=? y
  | _, _ => false
  end.

(** The order of the group keys (Year, Week) of [groupby]. *)
Definition key_le (k1 k2 : Z * Z) : Prop :=
  k1.1 < k2.1 ∨ (k1.1 = k2.1 ∧ k1.2 ≤ k2.2).

Global Instance key_le_dec : RelDecision key_le.
Proof. intros k1 k2. unfold key_le. apply _. Defined.

Section DataManager.

Set Default Proof Using "Type".

(** [os.getcwd()] and the [filename] given to [__init__]. *)
Variable cwd filename : string.
(** [str(x)] of a float, as [astype(str)] renders it. *)
Variable str_of_num : Qc → string.
(** [pd.to_datetime] on one value: a Timestamp in nanoseconds, NaT
    ([None]) or an exception.  On a column it is applied cell by cell. *)
Variable to_datetime : cell → outcome (option Z).

(** [date.strftime('%Y-%m-%d')] of a date given by its ordinal, as the
    platform formats it. *)
Variable strftime_ymd : Z → string.
(** What a destination of [shutil.copy2] is on the file system around the
    data file. *)
Variable destination_of : string → destination.

(** [self.filepath = os.path.join(os.getcwd(), self.filename)] *)
Definition filepath : string := os_path_join cwd filename.

(** [df['Date'] = df['Date'].astype(str)], under its guard
    [if 'Date' in df.columns]. *)
Definition astype_str_Date (df : DataFrame) : DataFrame :=
  if bool_decide ("Date" ∈ df_columns df) then
    Frame (df_columns df)
          ((λ r, Row (astype_str_cell str_of_num (Date r)) (nums r)) <$> df_rows df)
  else df.

(** [for col in self.columns: if col not in df.columns: df[col] = None] *)
Definition ensure_columns (df : DataFrame) : DataFrame :=
  foldl (λ df col, if bool_decide (col ∉ df_columns df)
                   then set_column_None col df else df)
        df columns.

Definition ensure_data_file_exists : Py unit :=
  ex ← os_path_exists;
  if negb ex then
    try_except
      (let df := DataFrame_of_columns columns in
       to_excel df;;
       logger_info ("Created new data file: " +:+ filepath))
      (λ e, logger_error ("Failed to create data file: " +:+ e);;
            raise e)
  else mret ().

Definition load_data : Py DataFrame :=
  try_except
    (ex ← os_path_exists;
     if (ex : bool) then
       df ← read_excel;
       let df := ensure_columns df in
       let df := astype_str_Date df in
       mret df
     else mret (DataFrame_of_columns columns))
    (λ e, logger_error ("Failed to load data: " +:+ e);;
          mret (DataFrame_of_columns columns)).

Definition save_data (df : DataFrame) : Py bool :=
  try_except
    (let df := astype_str_Date df in
     to_excel df;;
     logger_info ("Data saved successfully to " +:+ filepath);;
     mret true)
    (λ e, logger_error ("Failed to save data: " +:+ e);;
          mret false).

Definition get_all_data : Py DataFrame := load_data.

Definition get_day_data (date_str : string) : Py (option row) :=
  try_except
    (df ← load_data;
     if empty df then mret None
     else
       let day_data := select (λ r, bool_decide (Date r = Str date_str)) df in
       if empty day_data then mret None
       else mret (head (df_rows day_data)))
    (λ e, logger_error ("Failed to get day data: " +:+ e);;
          mret None).

(** [{col: 0 if col != 'Date' else date_str for col in self.columns}],
    then [new_row['Date'] = date_str]. *)
Definition new_row (date_str : string) : row :=
  let r := foldl (λ r col, if bool_decide (col ≠ "Date")
                           then Row (Date r) (<[col := 0%Qc]> (nums r))
                           else Row (Str date_str) (nums r))
                 (Row NaN ∅) columns in
  Row (Str date_str) (nums r).

(** One turn of [for field, value in updates.items()]. *)
Definition apply_update (row_index : nat) (df : DataFrame)
    (update : string * Qc) : DataFrame :=
  let '(field, value) := update in
  let add col :=
    let current := default 0%Qc (at_get df row_index col) in
    at_set df row_index col (current + value)%Qc in
  if bool_decide (field = "calories") then add "Calories"
  else if bool_decide (field = "protein") then add "Protein"
  else if bool_decide (field = "carbs") then add "Carbs"
  else if bool_decide (field = "fat") then add "Fat"
  else if bool_decide (field = "weight") then at_set df row_index "Weight" value
  else if bool_decide (field = "goal") then at_set df row_index "Calorie_Goal" value
  else df.

(** The frame and the index of the row that the updates go to: the first
    row of the date, or a new last row. *)
Definition locate_row (date_str : string) (df : DataFrame) : DataFrame * nat :=
  match list_find (λ r, Date r = Str date_str) (df_rows df) with
  | None =>
      let df := concat_row df columns (new_row date_str) in
      (df, (len df - 1)%nat)
  | Some (i, _) => (df, i)
  end.

(** [updates] is a dict: its items in insertion order. *)
Definition update_day_data (date_str : string) (updates : list (string * Qc))
    : Py bool :=
  try_except
    (df ← load_data;
     let '(df, row_index) := locate_row date_str df in
     let df := foldl (apply_update row_index) df updates in
     save_data df)
    (λ e, logger_error ("Failed to update day data: " +:+ e);;
          mret false).

Definition get_date_range_data (start_date end_date : string) : Py DataFrame :=
  try_except
    (df ← load_data;
     if empty df then mret DataFrame_empty
     else
       Date_dt ← lift (outcome_map to_datetime (Date <$> df_rows df));
       start_dt ← lift (to_datetime (Str start_date));
       end_dt ← lift (to_datetime (Str end_date));
       let df := Frame (if bool_decide ("Date_dt" ∈ df_columns df)
                        then df_columns df else df_columns df ++ ["Date_dt"])
                       (df_rows df) in
       let filtered_df :=
         Frame (df_columns df)
               ((filter (λ rd, timestamp_le start_dt rd.2
                               && timestamp_le rd.2 end_dt)
                        (zip (df_rows df) Date_dt)).*1) in
       let filtered_df := drop_column "Date_dt" filtered_df in
       lift (sort_values_Date filtered_df))
    (λ e, logger_error ("Failed to get date range data: " +:+ e);;
          mret DataFrame_empty).

Definition get_recent_data (days : Z) : Py DataFrame :=
  try_except
    (end_date ← datetime_now_date;
     start_date ← lift (Calendar.date_minus_days end_date (days - 1));
     get_date_range_data (strftime_ymd start_date)
                         (strftime_ymd end_date))
    (λ e, logger_error ("Failed to get recent data: " +:+ e);;
          mret DataFrame_empty).

Definition delete_day_data (date_str : string) : Py bool :=
  try_except
    (df ← load_data;
     let df := select (λ r, bool_decide (Date r ≠ Str date_str)) df in
     save_data df)
    (λ e, logger_error ("Failed to delete day data: " +:+ e);;
          mret false).

(** [df[col].mean() if not df[col].isna().all() else 0] *)
Definition mean_or_0 (col : string) (df : DataFrame) : Qc :=
  if negb (isna_all col df) then default 0%Qc (mean (column col df)) else 0%Qc.

(** The body of [get_summary_stats] from [stats = {...}] on. *)
Definition summary_of (df : DataFrame) : stats :=
  let weight_data := dropna ["Weight"] df in
  let goal_data := dropna ["Calories"; "Calorie_Goal"] df in
  Stats
    (mean_or_0 "Calories" df)
    (mean_or_0 "Protein" df)
    (mean_or_0 "Carbs" df)
    (mean_or_0 "Fat" df)
    (mean_or_0 "Weight" df)
    (if bool_decide (2 ≤ len weight_data)%nat then
       first_weight ← head (df_rows weight_data) ≫= λ r, nums r !! "Weight";
       last_weight ← last (df_rows weight_data) ≫= λ r, nums r !! "Weight";
       Some (last_weight - first_weight)%Qc
     else None)
    (if negb (empty goal_data) then
       let goals_met :=
         len (select (λ r, match nums r !! "Calories", nums r !! "Calorie_Goal" with
                           | Some c, Some g => Qc_leb g c
                           | _, _ => false
                           end) goal_data) in
       (Qc_of_nat goals_met / Qc_of_nat (len goal_data) * Qc_of_Z 100)%Qc
     else 0%Qc)
    (len (select (λ r, match nums r !! "Calories" with
                       | Some c => Qc_ltb 0 c
                       | None => false
                       end) df)).

Definition get_summary_stats (days : Z) : Py (option stats) :=
  try_except
    (df ← get_recent_data days;
     if empty df then mret None
     else mret (Some (summary_of df)))
    (λ e, logger_error ("Failed to get summary stats: " +:+ e);;
          mret None).

Definition backup_data (backup_filename : option string) : Py (option string) :=
  try_except
    (backup_filename ←
       match backup_filename with
       | None =>
           timestamp ← datetime_now_stamp;
           mret ("calorie_data_backup_" +:+ timestamp +:+ ".xlsx")
       | Some name => mret name
       end;
     let backup_path := os_path_join cwd backup_filename in
     copy2 destination_of backup_path;;
     logger_info ("Backup created: " +:+ backup_path);;
     mret (Some backup_path))
    (λ e, logger_error ("Failed to create backup: " +:+ e);;
          mret None).

(** ** visualizer.py: Visualizer.create_weekly_summary_chart

    The figure is modelled by [weekly_data], the table that is drawn. *)

(** [df.groupby(['Year', 'Week']).agg({... 'mean'}).reset_index()]: one
    row per key, keys ascending, rows with a missing key left out. *)
Definition groupby_Year_Week_mean
    (df : list (row * (option Z * option Z))) : list weekly_row :=
  let key_of (yw : option Z * option Z) : option (Z * Z) :=
    y ← yw.1; w ← yw.2; Some (y, w) in
  let keys := merge_sort key_le (remove_dups (omap (λ rk, key_of rk.2) df)) in
  (λ k,
     let group :=
       Frame [] ((filter (λ rk, key_of rk.2 = Some k) df).*1) in
     WeeklyRow k.1 k.2
       (mean (column "Calories" group))
       (mean (column "Weight" group))
       (mean (column "Protein" group))
       (mean (column "Carbs" group))
       (mean (column "Fat" group))) <$> keys.

Definition create_weekly_summary_chart (weeks : Z) : Py (option (list weekly_row)) :=
  try_except
    (let days := weeks * 7 in
     df ← get_recent_data days;
     if empty df then mret None
     else
       Date_col ← lift (outcome_map to_datetime (Date <$> df_rows df));
       let Week_col :=
         (λ t : option Z, Calendar.dt_isocalendar_week <$> t) <$> Date_col in
       let Year_col :=
         (λ t : option Z, Calendar.dt_year <$> t) <$> Date_col in
       let weekly_data :=
         groupby_Year_Week_mean (zip (df_rows df) (zip Year_col Week_col)) in
       match weekly_data with
       | [] => mret None
       | _ => mret (Some weekly_data)
       end)
    (λ e, logger_error ("Failed to create weekly summary chart: " +:+ e);;
          mret None).

(** ** visualizer.py: the other charts of Visualizer

    A figure is modelled by the data that its drawing calls receive: the
    series that are plotted, the colours that are set and the numbers that
    are written.  Titles, axes and layout are left out, and a drawing call
    is taken to return, except [ax.pie], which refuses a negative size.

    As in the store, a numeric cell is a number or NaN.  That is what
    [pd.read_excel] gives for every file the store wrote; a column that
    [load_data] had to add to a file without it holds None, which is read
    here as NaN. *)

(** Comparisons and sums of cells of numeric Series: a comparison with
    NaN is False, a sum with NaN is NaN. *)
Definition nan_ltb (a b : option Qc) : bool :=
  match a, b with
  | Some x, Some y => Qc_ltb x y
  | _, _ => false
  end.

Definition nan_leb (a b : option Qc) : bool :=
  match a, b with
  | Some x, Some y => Qc_leb x y
  | _, _ => false
  end.

Definition nan_add (a b : option Qc) : option Qc :=
  x ← a; y ← b; Some (x + y)%Qc.

(** [series.sum()]: NaN cells are skipped. *)
Definition series_sum (cells : list (option Qc)) : Qc := Qc_sum (omap id cells).

(** [df.dropna(subset=cols, how='all')]: rows with a NaN in every one of
    [cols] go. *)
Definition dropna_all (cols : list string) (df : DataFrame) : DataFrame :=
  select (λ r, existsb (λ c, bool_decide (is_Some (nums r !! c))) cols) df.

(** [np.arange(n)] *)
Definition arange (n : nat) : list Qc := Qc_of_nat <$> seq 0 n.

(** [np.polyfit(x, y, 1)]: the coefficients (slope, intercept) of the
    least-squares line through the points, in exact arithmetic, for
    abscissas that are not all equal; a NaN among [y] makes the solver
    raise LinAlgError. *)
Definition polyfit_1 (x : list Qc) (y : list (option Qc)) : outcome (Qc * Qc) :=
  match mapM id y with
  | None => Raise "SVD did not converge in Linear Least Squares"
  | Some y =>
      let n := Qc_of_nat (length x) in
      let sx := Qc_sum x in
      let sy := Qc_sum y in
      let sxx := Qc_sum (zip_with Qcmult x x) in
      let sxy := Qc_sum (zip_with Qcmult x y) in
      let slope := ((n * sxy - sx * sy) / (n * sxx - sx * sx))%Qc in
      Return (slope, ((sy - slope * sx) / n)%Qc)
  end.

(** [np.poly1d(z)(x)] for the two coefficients of a line. *)
Definition poly1d (z : Qc * Qc) (x : Qc) : Qc := (z.1 * x + z.2)%Qc.

Definition create_weight_chart (days : Z) : Py (option weight_chart) :=
  try_except
    (df ← get_recent_data days;
     if empty df then mret None
     else
       let weight_data := dropna ["Weight"] df in
       if empty weight_data then mret None
       else
         dates ← lift (outcome_map to_datetime (Date <$> df_rows weight_data));
         let weights := column "Weight" weight_data in
         trend ←
           (if bool_decide (3 ≤ len weight_data)%nat then
              let x_numeric := arange (length dates) in
              z ← lift (polyfit_1 x_numeric weights);
              mret (Some (poly1d z <$> x_numeric))
            else mret None);
         mret (Some (WeightChart dates weights trend)))
    (λ e, logger_error ("Failed to create weight chart: " +:+ e);;
          mret None).

(** The colour of a bar of the calorie chart. *)
Definition calorie_colour (cal_value : option Qc) : colour :=
  if nan_ltb cal_value (Some (Qc_of_Z 1200)) then Red
  else if nan_ltb (Some (Qc_of_Z 2500)) cal_value then Orange
  else Green.

Definition create_calorie_chart (days : Z) : Py (option calorie_chart) :=
  try_except
    (df ← get_recent_data days;
     if empty df then mret None
     else
       let calorie_data :=
         select (λ r, nan_ltb (Some 0%Qc) (nums r !! "Calories")) df in
       if empty calorie_data then mret None
       else
         dates ← lift (outcome_map to_datetime (Date <$> df_rows calorie_data));
         let calories := column "Calories" calorie_data in
         let avg_calories := mean calories in
         mret (Some (CalorieChart dates calories avg_calories
                       (calorie_colour <$> calories))))
    (λ e, logger_error ("Failed to create calorie chart: " +:+ e);;
          mret None).

Definition create_macro_chart (days : Z) : Py (option macro_chart) :=
  try_except
    (df ← get_recent_data days;
     if empty df then mret None
     else
       let macro_data := dropna_all ["Protein"; "Carbs"; "Fat"] df in
       let macro_data :=
         select (λ r, nan_ltb (Some 0%Qc) (nums r !! "Protein")
                      || nan_ltb (Some 0%Qc) (nums r !! "Carbs")
                      || nan_ltb (Some 0%Qc) (nums r !! "Fat")) macro_data in
       if empty macro_data then mret None
       else
         dates ← lift (outcome_map to_datetime (Date <$> df_rows macro_data));
         let Protein := column "Protein" macro_data in
         let Carbs := column "Carbs" macro_data in
         let Fat := column "Fat" macro_data in
         mret (Some (MacroChart dates Protein
                       (zip_with nan_add Protein Carbs)
                       (zip_with nan_add (zip_with nan_add Protein Carbs) Fat))))
    (λ e, logger_error ("Failed to create macro chart: " +:+ e);;
          mret None).

(** [date.strftime('%m/%d')] of an element of [dates]: NaT has no
    [strftime]. *)
Definition strftime_label (date : option Z) : outcome string :=
  match date with
  | Some t => Return (Calendar.strftime_md t)
  | None => Raise "NaTType does not support strftime"
  end.

Definition create_goal_comparison_chart (days : Z) : Py (option goal_chart) :=
  try_except
    (df ← get_recent_data days;
     if empty df then mret None
     else
       let goal_data := dropna ["Calories"; "Calorie_Goal"] df in
       let goal_data :=
         select (λ r, nan_ltb (Some 0%Qc) (nums r !! "Calories")
                      && nan_ltb (Some 0%Qc) (nums r !! "Calorie_Goal"))
                goal_data in
       if empty goal_data then mret None
       else
         dates ← lift (outcome_map to_datetime (Date <$> df_rows goal_data));
         let actual := column "Calories" goal_data in
         let goals := column "Calorie_Goal" goal_data in
         let met := zip_with (λ a g, nan_leb g a) actual goals in
         let colours := (λ b : bool, (if b then Green else Red, Blue)) <$> met in
         date_labels ← lift (outcome_map strftime_label dates);
         let success_rate :=
           (λ m, m * Qc_of_Z 100)%Qc
             <$> mean ((λ b : bool, Some (if b then 1 else 0)%Qc) <$> met) in
         mret (Some (GoalChart date_labels actual goals colours success_rate)))
    (λ e, logger_error ("Failed to create goal comparison chart: " +:+ e);;
          mret None).

(** [ax.pie(sizes, ...)]: ValueError on a negative size. *)
Definition ax_pie (sizes : list Qc) : outcome unit :=
  if existsb (λ x, Qc_ltb x 0) sizes then
    Raise "Wedge sizes 'x' must be non negative values"
  else Return ().

(** The figure is modelled by [sizes], the three wedges. *)
Definition create_macro_pie_chart (days : Z) : Py (option (list Qc)) :=
  try_except
    (df ← get_recent_data days;
     if empty df then mret None
     else
       let total_protein := series_sum (column "Protein" df) in
       let total_carbs := series_sum (column "Carbs" df) in
       let total_fat := series_sum (column "Fat" df) in
       if bool_decide (total_protein + total_carbs + total_fat = 0)%Qc
       then mret None
       else
         let sizes := [total_protein; total_carbs; total_fat] in
         lift (ax_pie sizes);;
         mret (Some sizes))
    (λ e, logger_error ("Failed to create macro pie chart: " +:+ e);;
          mret None).

(** ** The charts as a machine: which chart, and whether a figure came back *)

Inductive chart : Type :=
  | Chart_weight
  | Chart_calorie
  | Chart_macro
  | Chart_goal_comparison
  | Chart_weekly_summary
  | Chart_macro_pie.

(** The days of the window of a chart called with [n]: the weekly summary
    counts [n] in weeks. *)
Definition window_days (k : chart) (n : Z) : Z :=
  match k with
  | Chart_weekly_summary => n * 7
  | _ => n
  end.

(** The call of a chart, and whether it returned a figure. *)
Definition figure (k : chart) (n : Z) : Py bool :=
  match k with
  | Chart_weight =>
      fig ← create_weight_chart n; mret (bool_decide (is_Some fig))
  | Chart_calorie =>
      fig ← create_calorie_chart n; mret (bool_decide (is_Some fig))
  | Chart_macro =>
      fig ← create_macro_chart n; mret (bool_decide (is_Some fig))
  | Chart_goal_comparison =>
      fig ← create_goal_comparison_chart n; mret (bool_decide (is_Some fig))
  | Chart_weekly_summary =>
      fig ← create_weekly_summary_chart n; mret (bool_decide (is_Some fig))
  | Chart_macro_pie =>
      fig ← create_macro_pie_chart n; mret (bool_decide (is_Some fig))
  end.

(** ** Vocabulary of the charts *)

(** "Row [r] has a positive value in column [col]." *)
Definition has_positive (col : string) (r : row) : Prop :=
  ∃ v, nums r !! col = Some v ∧ (0 < v)%Qc.

Global Instance has_positive_dec col r : Decision (has_positive col r).
Proof.
  unfold has_positive. destruct (nums r !! col) as [v|].
  - destruct (decide (0 < v)%Qc) as [Hv|Hv].
    + left. by exists v.
    + right. intros (v' & [= <-] & ?). done.
  - right. by intros (v' & [=] & _).
Defined.

(** The defined values of a column among rows, in the order of the rows. *)
Definition values_of (col : string) (rs : list row) : list Qc :=
  omap (λ r, nums r !! col) rs.

(** The sum of the squared distances between the line of slope [a] and
    intercept [b] over the positions 0, 1, 2, ... and the values [vs]. *)
Definition squared_error (a b : Qc) (vs : list Qc) : Qc :=
  Qc_sum (zip_with (λ x y, (a * x + b - y) * (a * x + b - y))%Qc
            (arange (length vs)) vs).

(** The group key (Year, Week) that [create_weekly_summary_chart] gives a
    row: the calendar year and the ISO week number of its date. *)
Definition week_key (r : row) : option (Z * Z) :=
  match to_datetime (Date r) with
  | Return (Some t) =>
      Some (Calendar.dt_year t, Calendar.dt_isocalendar_week t)
  | _ => None
  end.

(** ** The store as a machine: its public methods and their values *)

Inductive method : Type :=
  | Load_data
  | Save_data (df : DataFrame)
  | Get_all_data
  | Get_day_data (date_str : string)
  | Update_day_data (date_str : string) (updates : list (string * Qc))
  | Get_date_range_data (start_date end_date : string)
  | Get_recent_data (days : Z)
  | Delete_day_data (date_str : string)
  | Get_summary_stats (days : Z)
  | Backup_data (backup_filename : option string).

Inductive value : Type :=
  | Table (df : DataFrame)
  | Bool (b : bool)
  | Record_ (r : option row)
  | Summary (s : option stats)
  | Path (p : option string).

Definition call (m : method) : Py value :=
  match m with
  | Load_data => df ← load_data; mret (Table df)
  | Save_data df => b ← save_data df; mret (Bool b)
  | Get_all_data => df ← get_all_data; mret (Table df)
  | Get_day_data d => r ← get_day_data d; mret (Record_ r)
  | Update_day_data d u => b ← update_day_data d u; mret (Bool b)
  | Get_date_range_data a b => df ← get_date_range_data a b; mret (Table df)
  | Get_recent_data n => df ← get_recent_data n; mret (Table df)
  | Delete_day_data d => b ← delete_day_data d; mret (Bool b)
  | Get_summary_stats n => s ← get_summary_stats n; mret (Summary s)
  | Backup_data name => p ← backup_data name; mret (Path p)
  end.

(** The table a caller observes in a world: what [load_data] returns. *)
Definition table (w : world) : DataFrame :=
  match (load_data w).1 with
  | Return df => df
  | Raise _ => DataFrame_of_columns columns
  end.

(** The dates of a table, and "at most one record per date". *)
Definition dates (df : DataFrame) : list cell := Date <$> df_rows df.
Definition unique_dates (w : world) : Prop := NoDup (dates (table w)).

(** The record of a date in a table: its first row of that date. *)
Definition record (date_str : string) (df : DataFrame) : option row :=
  snd <$> list_find (λ r, Date r = Str date_str) (df_rows df).

(** ** Vocabulary of the properties *)

(** What [load_data] guarantees of the frame it returns: the seven
    columns are there and the dates are strings. *)
Definition well_formed (df : DataFrame) : Prop :=
  columns ⊆ df_columns df ∧ Forall (λ r, ∃ s, Date r = Str s) (df_rows df).

(** The policy of a field of [updates] as the spec words it: the column it
    goes to, and whether its value is added ([true]) or replaces. *)
Definition field_policy (field : string) : option (string * bool) :=
  if bool_decide (field = "calories") then Some ("Calories", true)
  else if bool_decide (field = "protein") then Some ("Protein", true)
  else if bool_decide (field = "carbs") then Some ("Carbs", true)
  else if bool_decide (field = "fat") then Some ("Fat", true)
  else if bool_decide (field = "weight") then Some ("Weight", false)
  else if bool_decide (field = "goal") then Some ("Calorie_Goal", false)
  else None.

(** The world after a sequence of upserts on one date, each of one field:
    [update_day_data(date_str, {field: v})] for the values [v] in turn. *)
Definition upserts (date_str field : string) (values : list Qc) (w : world)
    : world :=
  foldl (λ w v, (update_day_data date_str [(field, v)] w).2) w values.

(** The stored value of a numeric column for a date: [None] when the
    date has no record or the cell is NaN. *)
Definition stored (w : world) (date_str col : string) : option Qc :=
  record date_str (table w) ≫= λ r, nums r !! col.

(** A computation that returns normally in every world. *)
Definition returns {A} (m : Py A) : Prop :=
  ∀ w, ∃ a w', m w = (Return a, w').

(** A computation that leaves the data file, its permissions and the
    clock as they are, and only adds to the log. *)
Definition keeps_file {A} (m : Py A) : Prop :=
  ∀ w, file (m w).2 = file w ∧ writable (m w).2 = writable w
       ∧ today (m w).2 = today w
       ∧ ∃ lines, log (m w).2 = (log w ++ lines)%list.

(** "The date of row [r] falls in [[start_date, end_date]]", by calendar
    value: the three strings parse to Timestamps t, s, e with s ≤ t ≤ e. *)
Definition in_range (start_date end_date : string) (r : row) : bool :=
  match to_datetime (Str start_date), to_datetime (Date r),
        to_datetime (Str end_date) with
  | Return s, Return t, Return e => timestamp_le s t && timestamp_le t e
  | _, _, _ => false
  end.

(** A row without the column that [get_date_range_data] uses and drops. *)
Definition drop_Date_dt (r : row) : row :=
  Row (Date r) (delete "Date_dt" (nums r)).

(** The shape of a frame that a range query returns: nothing at all, or a
    frame with its [Date] column, sorted by the date strings. *)
Definition range_shape (df : DataFrame) : Prop :=
  df = DataFrame_empty
  ∨ ("Date" ∈ df_columns df
     ∧ ∃ rs, df_rows df = merge_sort Date_le rs
             ∧ Forall (λ r, ∃ s, Date r = Str s) rs).

(** The defined weights of a frame, in the order of its rows. *)
Definition weights (df : DataFrame) : list Qc :=
  omap (λ r, nums r !! "Weight") (df_rows df).

(** "Ascending by calendar date value": the dates parse to Timestamps
    that ascend. *)
Definition calendar_sorted (df : DataFrame) : Prop :=
  ∃ ts, outcome_map to_datetime (dates df) = Return ts
        ∧ Sorted (λ a b, Is_true (timestamp_le a b)) ts.

(** "Two timestamps fall in the same ISO week": same ISO year and same
    ISO week number. *)
Definition same_iso_week (t1 t2 : Z) : Prop :=
  Calendar.isocalendar (Calendar.days_of_timestamp t1)
  = Calendar.isocalendar (Calendar.days_of_timestamp t2).





(** ** Loading and saving *)


Lemma ensure_columns_fold (cs : list string) (df : DataFrame) :
  let df' := foldl (λ df col, if bool_decide (col ∉ df_columns df)
                              then set_column_None col df else df) df cs in
  df_columns df ⊆ df_columns df' ∧ cs ⊆ df_columns df'.
Proof.
  revert df. induction cs as [|c cs IH]; intros df; simpl.
  - split; [done | apply list_subseteq_nil].
  - destruct (IH (if bool_decide (c ∉ df_columns df)
                  then set_column_None c df else df)) as [H1 H2].
    assert (Hc : df_columns df ⊆
                 df_columns (if bool_decide (c ∉ df_columns df)
                             then set_column_None c df else df)
               ∧ c ∈ df_columns (if bool_decide (c ∉ df_columns df)
                                 then set_column_None c df else df)).
    { destruct (decide (c ∈ df_columns df)) as [Hin|Hin].
      - rewrite bool_decide_eq_false_2 by auto. done.
      - rewrite bool_decide_eq_true_2 by done. simpl.
        rewrite bool_decide_eq_false_2 by done. split.
        * intros x Hx. apply elem_of_app. by left.
        * apply elem_of_app. right. apply list_elem_of_here. }
    destruct Hc as [Hsub Hin]. split.
    + by etrans.
    + intros x Hx. apply elem_of_cons in Hx as [->|Hx]; [by apply H1 | by apply H2].
Qed.

Lemma ensure_columns_columns df : columns ⊆ df_columns (ensure_columns df).
Proof. apply ensure_columns_fold. Qed.

Lemma ensure_columns_id df : columns ⊆ df_columns df → ensure_columns df = df.
Proof.
  unfold ensure_columns. generalize columns as cs.
  induction cs as [|c cs IH]; intros Hsub; simpl; [done|].
  rewrite bool_decide_eq_false_2.
  - apply IH. intros x Hx. apply Hsub. by right.
  - intros Hc. apply Hc, Hsub. by left.
Qed.

Lemma astype_str_Date_columns df :
  df_columns (astype_str_Date df) = df_columns df.
Proof. unfold astype_str_Date. by case_bool_decide. Qed.

Lemma astype_str_Date_Str df :
  "Date" ∈ df_columns df →
  Forall (λ r, ∃ s, Date r = Str s) (df_rows (astype_str_Date df)).
Proof.
  intros Hin. unfold astype_str_Date. rewrite bool_decide_eq_true_2 by done.
  simpl. apply Forall_fmap, Forall_forall. intros r _. simpl.
  destruct (Date r); simpl; eauto.
Qed.

Lemma astype_str_Date_id df :
  Forall (λ r, ∃ s, Date r = Str s) (df_rows df) → astype_str_Date df = df.
Proof.
  intros Hstr. unfold astype_str_Date. case_bool_decide; [|done].
  destruct df as [cs rs]. simpl in *. f_equal.
  induction Hstr as [|r rs [s Hs] _ IH]; [done|].
  rewrite fmap_cons, IH. f_equal. destruct r as [d n]. simpl in *. by subst.
Qed.

Lemma Date_in_columns : "Date" ∈ columns.
Proof. apply list_elem_of_here. Qed.

Lemma well_formed_normalize df :
  well_formed (astype_str_Date (ensure_columns df)).
Proof.
  split.
  - rewrite astype_str_Date_columns. apply ensure_columns_columns.
  - apply astype_str_Date_Str, ensure_columns_columns, Date_in_columns.
Qed.

Lemma normalize_id df :
  well_formed df → astype_str_Date (ensure_columns df) = df.
Proof.
  intros [Hc Hs]. rewrite ensure_columns_id by done. by apply astype_str_Date_id.
Qed.

Lemma well_formed_empty : well_formed (DataFrame_of_columns columns).
Proof. split; [done | constructor]. Qed.

Lemma load_data_eq w :
  load_data w =
    match file w with
    | Sheet df => (Return (astype_str_Date (ensure_columns df)), w)
    | Absent => (Return (DataFrame_of_columns columns), w)
    | Corrupt e => (Return (DataFrame_of_columns columns),
                    logged ERROR ("Failed to load data: " +:+ e) w)
    end.
Proof.
  unfold load_data, try_except, mbind, Py_bind, os_path_exists, read_excel,
    mret, Py_ret, logger_error.
  destruct (file w) eqn:Hf; simpl; rewrite ?Hf; reflexivity.
Qed.

Lemma table_eq w :
  table w = match file w with
            | Sheet df => astype_str_Date (ensure_columns df)
            | _ => DataFrame_of_columns columns
            end.
Proof. unfold table. rewrite load_data_eq. by destruct (file w). Qed.

Lemma well_formed_table w : well_formed (table w).
Proof.
  rewrite table_eq. destruct (file w);
    auto using well_formed_empty, well_formed_normalize.
Qed.

Lemma save_data_eq df w :
  save_data df w =
    if writable w then
      (Return true,
       logged INFO ("Data saved successfully to " +:+ filepath)
         (World (Sheet (astype_str_Date df)) true (today w) (stamp w)
                (copies w) (log w)))
    else (Return false,
          logged ERROR ("Failed to save data: [Errno 13] Permission denied") w).
Proof.
  unfold save_data, try_except, mbind, Py_bind, to_excel, mret, Py_ret,
    logger_error, logger_info.
  destruct (writable w); reflexivity.
Qed.

Lemma table_logged lvl msg w : table (logged lvl msg w) = table w.
Proof. by rewrite !table_eq. Qed.

Lemma table_save_data df w :
  writable w = true → well_formed df → table (save_data df w).2 = df.
Proof.
  intros Hw Hwf. rewrite save_data_eq, Hw. simpl. rewrite table_logged, table_eq.
  simpl. destruct Hwf as [Hc Hs].
  rewrite (astype_str_Date_id df) by done. by apply normalize_id.
Qed.
(** ** Upsert *)

Lemma at_set_columns df i col v : df_columns (at_set df i col v) = df_columns df.
Proof. done. Qed.

Lemma at_set_dates df i col v : dates (at_set df i col v) = dates df.
Proof.
  unfold dates, at_set. simpl.
  rewrite (list_fmap_alter Date _ id); [by rewrite list_alter_id|].
  by apply Forall_forall.
Qed.

Lemma at_get_at_set_eq df i col v :
  (i < len df)%nat → at_get (at_set df i col v) i col = Some v.
Proof.
  intros Hi. unfold at_get, at_set, len in *. simpl.
  rewrite list_lookup_alter_eq.
  destruct (lookup_lt_is_Some_2 (df_rows df) i Hi) as [r ->]. simpl.
  apply lookup_insert_eq.
Qed.

Lemma at_get_at_set_ne df i col col' v :
  col ≠ col' → at_get (at_set df i col v) i col' = at_get df i col'.
Proof.
  intros Hne. unfold at_get, at_set. simpl. rewrite list_lookup_alter_eq.
  destruct (df_rows df !! i) as [r|]; simpl; [|done].
  by apply lookup_insert_ne.
Qed.

Lemma len_at_set df i col v : len (at_set df i col v) = len df.
Proof. unfold len, at_set. simpl. apply length_alter. Qed.

Lemma apply_update_policy i df field value :
  apply_update i df (field, value) =
    match field_policy field with
    | Some (col, true) =>
        at_set df i col (default 0%Qc (at_get df i col) + value)%Qc
    | Some (col, false) => at_set df i col value
    | None => df
    end.
Proof.
  unfold apply_update, field_policy.
  repeat (case_bool_decide; [reflexivity|]). reflexivity.
Qed.

Lemma field_policy_inj f1 f2 col a1 a2 :
  field_policy f1 = Some (col, a1) → field_policy f2 = Some (col, a2) → f1 = f2.
Proof.
  unfold field_policy. intros H1 H2.
  repeat (case_bool_decide; simplify_eq); congruence.
Qed.

Lemma apply_update_dates i df u : dates (apply_update i df u) = dates df.
Proof.
  destruct u as [f v]. rewrite apply_update_policy.
  destruct (field_policy f) as [[col []]|]; auto using at_set_dates.
Qed.

Lemma apply_update_columns i df u :
  df_columns (apply_update i df u) = df_columns df.
Proof.
  destruct u as [f v]. rewrite apply_update_policy.
  by destruct (field_policy f) as [[col []]|].
Qed.

Lemma len_apply_update i df u : len (apply_update i df u) = len df.
Proof.
  destruct u as [f v]. rewrite apply_update_policy.
  destruct (field_policy f) as [[col []]|]; auto using len_at_set.
Qed.

Lemma foldl_apply_update_dates i u df :
  dates (foldl (apply_update i) df u) = dates df.
Proof.
  revert df. induction u as [|x u IH]; intros df; cbn [foldl]; [done|].
  by rewrite IH, apply_update_dates.
Qed.

Lemma foldl_apply_update_columns i u df :
  df_columns (foldl (apply_update i) df u) = df_columns df.
Proof.
  revert df. induction u as [|x u IH]; intros df; cbn [foldl]; [done|].
  by rewrite IH, apply_update_columns.
Qed.

(** A column that no field of the updates goes to keeps its cell. *)
Lemma foldl_apply_update_untouched i col u df :
  (∀ f v a, (f, v) ∈ u → field_policy f ≠ Some (col, a)) →
  at_get (foldl (apply_update i) df u) i col = at_get df i col.
Proof.
  revert df. induction u as [|[f v] u IH]; intros df Hno; cbn [foldl]; [done|].
  rewrite IH by (intros; eapply Hno; by right).
  rewrite apply_update_policy.
  destruct (field_policy f) as [[col' []]|] eqn:Hf; [| |done].
  - apply at_get_at_set_ne. intros ->. by eapply (Hno f v true); [left|].
  - apply at_get_at_set_ne. intros ->. by eapply (Hno f v false); [left|].
Qed.

(** The cell of the column of a field that the updates hold, once. *)
Lemma foldl_apply_update_touched i col add f v u df :
  (i < len df)%nat → NoDup u.*1 → (f, v) ∈ u →
  field_policy f = Some (col, add) →
  at_get (foldl (apply_update i) df u) i col =
    Some (if add then default 0%Qc (at_get df i col) + v else v)%Qc.
Proof.
  revert df. induction u as [|[f0 v0] u IH]; intros df Hi Hnd Hin Hpol.
  { by apply elem_of_nil in Hin. }
  cbn [foldl]. rewrite fmap_cons in Hnd. cbn [fst] in Hnd.
  apply NoDup_cons in Hnd as [Hf0 Hnd].
  apply elem_of_cons in Hin as [Heq|Hin].
  - simplify_eq. rewrite foldl_apply_update_untouched.
    + rewrite apply_update_policy, Hpol.
      destruct add; by apply at_get_at_set_eq.
    + intros f' v' a' Hin' Hpol'. apply Hf0.
      rewrite (field_policy_inj _ _ _ _ _ Hpol Hpol').
      apply list_elem_of_fmap. by exists (f', v').
  - assert (Hsame : at_get (apply_update i df (f0, v0)) i col = at_get df i col).
    { apply (foldl_apply_update_untouched i col [(f0, v0)] df).
      intros f' v' a' Hin' Hpol'.
      apply list_elem_of_singleton in Hin'. simplify_eq.
      apply Hf0. rewrite (field_policy_inj _ _ _ _ _ Hpol' Hpol).
      apply list_elem_of_fmap. by exists (f, v). }
    rewrite (IH (apply_update i df (f0, v0))); [| |done..].
    + by rewrite Hsame.
    + by rewrite len_apply_update.
Qed.

Lemma new_row_eq date_str :
  new_row date_str =
    Row (Str date_str)
        (<["Calorie_Goal" := 0%Qc]> (<["Weight" := 0%Qc]> (<["Fat" := 0%Qc]>
         (<["Carbs" := 0%Qc]> (<["Protein" := 0%Qc]> (<["Calories" := 0%Qc]> ∅)))))).
Proof. reflexivity. Qed.

(** The keys of [new_row]: every numeric column is there, with 0. *)
Lemma new_row_nums date_str col :
  nums (new_row date_str) !! col =
    if bool_decide (col ∈ ["Calories"; "Protein"; "Carbs"; "Fat"; "Weight";
                           "Calorie_Goal"])
    then Some 0%Qc else None.
Proof.
  rewrite new_row_eq. cbn [nums].
  repeat (rewrite lookup_insert; case_decide;
          [subst; rewrite bool_decide_eq_true_2;
           [done | repeat first [apply list_elem_of_here
                                | apply list_elem_of_further]]|]).
  rewrite lookup_empty, bool_decide_eq_false_2; [done|].
  intros Hin. repeat (apply elem_of_cons in Hin as [->|Hin]; [done|]).
  by apply elem_of_nil in Hin.
Qed.
Local Arguments new_row : simpl never.
Local Arguments apply_update : simpl never.

Lemma load_data_world w :
  ∃ df w', load_data w = (Return df, w') ∧ df = table w
           ∧ file w' = file w ∧ writable w' = writable w
           ∧ today w' = today w ∧ table w' = table w.
Proof.
  unfold table. rewrite load_data_eq.
  destruct (file w) eqn:Hf; eexists _, _; (split; [reflexivity|]);
    simpl; rewrite ?load_data_eq; simpl; rewrite ?Hf; done.
Qed.

(** Where the updates of a date go, in a frame that [load_data] gave. *)
Lemma locate_row_spec date_str df :
  well_formed df →
  ∃ df1 i r,
    locate_row date_str df = (df1, i)
    ∧ well_formed df1
    ∧ list_find (λ r, Date r = Str date_str) (df_rows df1) = Some (i, r)
    ∧ match record date_str df with
      | Some r0 => r = r0 ∧ df1 = df
      | None => r = new_row date_str
                ∧ df_rows df1 = (df_rows df ++ [new_row date_str])%list
      end.
Proof.
  intros [Hc Hs]. unfold locate_row, record.
  destruct (list_find _ (df_rows df)) as [[i r]|] eqn:Hfind; simpl.
  - by exists df, i, r.
  - eexists _, _, (new_row date_str). split; [reflexivity|]. split_and!.
    + split; simpl; [intros x Hx; apply elem_of_app; left; by apply Hc|].
      apply Forall_app. split; [done|]. constructor; [|done].
      rewrite new_row_eq. eauto.
    + unfold concat_row, len. simpl. rewrite list_find_app_r by done.
      simpl. rewrite decide_True by done.
      simpl. do 2 f_equal. rewrite length_app. simpl. lia.
    + done.
    + done.
Qed.

Lemma well_formed_foldl_apply_update i u df :
  well_formed df → well_formed (foldl (apply_update i) df u).
Proof.
  intros [Hc Hs]. split.
  - by rewrite foldl_apply_update_columns.
  - pose proof (foldl_apply_update_dates i u df) as Hd. unfold dates in Hd.
    apply Forall_forall. intros r Hr.
    assert (Hin : Date r ∈ Date <$> df_rows df).
    { rewrite <-Hd. apply list_elem_of_fmap. by exists r. }
    apply list_elem_of_fmap in Hin as (r0 & -> & Hr0).
    by apply (proj1 (Forall_forall _ _) Hs).
Qed.

(** Rows that differ in their numbers only are found at the same place. *)
Lemma list_find_dates date_str (l1 l2 : list row) i r1 :
  Date <$> l1 = Date <$> l2 →
  list_find (λ r, Date r = Str date_str) l1 = Some (i, r1) →
  ∃ r2, list_find (λ r, Date r = Str date_str) l2 = Some (i, r2)
        ∧ l2 !! i = Some r2.
Proof.
  intros Hd (Hi & HP & Hleast)%list_find_Some.
  assert (Hl : ∀ j, Date <$> (l1 !! j) = Date <$> (l2 !! j)).
  { intros j. by rewrite <-!list_lookup_fmap, Hd. }
  pose proof (Hl i) as Hli. rewrite Hi in Hli. simpl in Hli.
  destruct (l2 !! i) as [r2|] eqn:H2; [|done]. simpl in Hli.
  exists r2. split; [|done]. apply list_find_Some. split_and!; [done|congruence|].
  intros j y Hj Hlt. pose proof (Hl j) as Hlj. rewrite Hj in Hlj.
  destruct (l1 !! j) as [y1|] eqn:H1; [|done]. simpl in Hlj.
  specialize (Hleast j y1 H1 Hlt). congruence.
Qed.

Lemma update_day_data_eq date_str updates w :
  update_day_data date_str updates w =
    save_data (foldl (apply_update (locate_row date_str (table w)).2)
                     (locate_row date_str (table w)).1 updates)
              (load_data w).2.
Proof.
  unfold update_day_data, try_except, mbind, Py_bind.
  destruct (load_data_world w) as (df & w' & -> & -> & _). simpl.
  destruct (locate_row date_str (table w)) as [df1 i]. simpl.
  rewrite save_data_eq. by destruct (writable w').
Qed.

(** What an upsert does, seen from the next [load_data]. *)
Lemma update_day_data_spec date_str updates w :
  writable w = true →
  ∃ df1 i r w',
    locate_row date_str (table w) = (df1, i)
    ∧ list_find (λ r, Date r = Str date_str) (df_rows df1) = Some (i, r)
    ∧ update_day_data date_str updates w = (Return true, w')
    ∧ table w' = foldl (apply_update i) df1 updates
    ∧ (∀ col, stored w' date_str col
              = at_get (foldl (apply_update i) df1 updates) i col)
    ∧ (∀ col, at_get df1 i col
              = match record date_str (table w) with
                | Some r0 => nums r0 !! col
                | None => nums (new_row date_str) !! col
                end).
Proof.
  intros Hw.
  destruct (locate_row_spec date_str (table w) (well_formed_table w))
    as (df1 & i & r & Hloc & Hwf & Hfind & Hrec).
  destruct (load_data_world w) as (df & w0 & Hload & -> & _ & Hw0 & _).
  pose proof (update_day_data_eq date_str updates w) as Heq.
  rewrite Hloc, Hload in Heq. simpl in Heq.
  pose proof (table_save_data (foldl (apply_update i) df1 updates) w0) as Ht.
  rewrite <-Heq in Ht. rewrite Hw0 in Ht.
  specialize (Ht Hw (well_formed_foldl_apply_update _ _ _ Hwf)).
  rewrite save_data_eq, Hw0, Hw in Heq.
  eexists df1, i, r, _. split_and!; [done|done|exact Heq| | |].
  - by rewrite Heq in Ht.
  - intros col. unfold stored. rewrite Heq in Ht. simpl in Ht. rewrite Ht.
    destruct (list_find_dates date_str (df_rows df1)
                (df_rows (foldl (apply_update i) df1 updates)) i r)
      as (r2 & Hfind2 & Hi2); [|done|].
    { symmetry. apply foldl_apply_update_dates. }
    unfold record, at_get. by rewrite Hfind2, Hi2.
  - intros col. unfold at_get.
    apply list_find_Some in Hfind as (Hi & _). rewrite Hi. simpl.
    destruct (record date_str (table w)); by destruct Hrec as [-> _].
Qed.
Lemma at_get_located_default date_str w df1 i col :
  (∀ col, at_get df1 i col
          = match record date_str (table w) with
            | Some r0 => nums r0 !! col
            | None => nums (new_row date_str) !! col
            end) →
  default 0%Qc (at_get df1 i col) = default 0%Qc (stored w date_str col).
Proof.
  intros ->. unfold stored. destruct (record date_str (table w)); [done|].
  rewrite new_row_nums. by case_bool_decide.
Qed.

Lemma Qc_of_Z_plus (a b : Z) : (Qc_of_Z a + Qc_of_Z b)%Qc = Qc_of_Z (a + b).
Proof.
  apply Qc_is_canon. unfold Qc_of_Z. simpl.
  rewrite Qred_correct. unfold Qeq. simpl. lia.
Qed.

(** One upsert, field by field. *)
Lemma update_day_data_step date_str updates w :
  writable w = true → NoDup updates.*1 →
  ∃ w', update_day_data date_str updates w = (Return true, w')
    ∧ writable w' = true
    ∧ ∀ field col add value,
        field_policy field = Some (col, add) → (field, value) ∈ updates →
        stored w' date_str col
        = Some (if add then default 0%Qc (stored w date_str col) + value
                else value)%Qc.
Proof.
  intros Hw Hnd.
  destruct (update_day_data_spec date_str updates w Hw)
    as (df1 & i & r & w' & Hloc & Hfind & Hupd & Htab & Hst & Hat).
  exists w'. split; [done|]. split.
  { rewrite update_day_data_eq, save_data_eq in Hupd.
    destruct (load_data_world w) as (? & w0 & Hl & _ & _ & Hw0 & _).
    rewrite Hl in Hupd. simpl in Hupd. rewrite Hw0, Hw in Hupd.
    by simplify_eq. }
  intros field col add value Hpol Hin. rewrite Hst.
  assert (Hi : (i < len df1)%nat).
  { apply list_find_Some in Hfind as (Hi & _). by apply lookup_lt_Some in Hi. }
  rewrite (foldl_apply_update_touched i col add field value _ _ Hi Hnd Hin Hpol).
  destruct add; [|done].
  by rewrite (at_get_located_default date_str w).
Qed.

Lemma NoDup_one_field (field : string) (value : Qc) :
  NoDup [(field, value)].*1.
Proof. repeat constructor. by intros ?%elem_of_nil. Qed.

Lemma upserts_writable date_str field values w :
  writable w = true → writable (upserts date_str field values w) = true.
Proof.
  revert w. induction values as [|v vs IH]; intros w Hw; [done|].
  cbn [upserts foldl]. apply IH.
  destruct (update_day_data_step date_str [(field, v)] w Hw
              (NoDup_one_field field v)) as (w1 & -> & Hw1 & _).
  done.
Qed.

(** A run of upserts of one accumulator field adds up. *)
Lemma upserts_accumulate date_str field col v values w :
  writable w = true → field_policy field = Some (col, true) →
  stored (upserts date_str field (v :: values) w) date_str col
  = Some (default 0%Qc (stored w date_str col) + Qc_sum (v :: values))%Qc.
Proof.
  intros Hw Hpol. revert w v Hw.
  induction values as [|v' vs IH]; intros w v Hw;
    destruct (update_day_data_step date_str [(field, v)] w Hw
                (NoDup_one_field field v)) as (w1 & Hupd & Hw1 & Hstep);
    specialize (Hstep field col true v Hpol (list_elem_of_here _ _)).
  - cbn [upserts foldl]. rewrite Hupd. cbn [snd]. rewrite Hstep.
    cbn [Qc_sum foldr]. by rewrite Qcplus_0_r.
  - change (upserts date_str field (v :: v' :: vs) w)
      with (upserts date_str field (v' :: vs)
              (update_day_data date_str [(field, v)] w).2).
    rewrite Hupd. cbn [snd]. rewrite (IH w1 v' Hw1), Hstep.
    cbn [default Qc_sum foldr]. unfold id. by rewrite <-Qcplus_assoc.
Qed.

(** A run of upserts of one replace field keeps the last value. *)
Lemma upserts_replace date_str field col values v w :
  writable w = true → field_policy field = Some (col, false) →
  stored (upserts date_str field (values ++ [v]) w) date_str col = Some v.
Proof.
  intros Hw Hpol. unfold upserts. rewrite foldl_app. cbn [foldl].
  fold (upserts date_str field values w).
  destruct (update_day_data_step date_str [(field, v)]
              (upserts date_str field values w)
              (upserts_writable _ _ _ _ Hw) (NoDup_one_field field v))
    as (w1 & -> & _ & Hstep).
  exact (Hstep field col false v Hpol (list_elem_of_here _ _)).
Qed.

Lemma field_policy_accumulator field col :
  (field, col) ∈ [("calories", "Calories"); ("protein", "Protein");
                  ("carbs", "Carbs"); ("fat", "Fat")] →
  field_policy field = Some (col, true).
Proof.
  intros Hfc.
  repeat (apply elem_of_cons in Hfc as [Hfc|Hfc]; [by simplify_eq|]).
  by apply elem_of_nil in Hfc.
Qed.

Lemma field_policy_replace field col :
  (field, col) ∈ [("weight", "Weight"); ("goal", "Calorie_Goal")] →
  field_policy field = Some (col, false).
Proof.
  intros Hfc.
  repeat (apply elem_of_cons in Hfc as [Hfc|Hfc]; [by simplify_eq|]).
  by apply elem_of_nil in Hfc.
Qed.

(** C1.  An upsert applies each field of [updates] by its policy: the
    value of calories, protein, carbs and fat is added to the stored value
    of its column, a missing (NaN) or not yet recorded value counting as
    0; the value of weight and goal replaces the stored value.  Over a
    sequence of upserts on the date the values of an accumulator add up
    and the last value of weight or goal stays: calories=500 then
    calories=300 on a date without calories stores 800, and weight=150
    then weight=148 stores 148. *)
Theorem update_day_data_policy date_str updates w :
  writable w = true → NoDup updates.*1 →
  ∃ w', update_day_data date_str updates w = (Return true, w')
    ∧ (∀ field col value,
         (field, col) ∈ [("calories", "Calories"); ("protein", "Protein");
                         ("carbs", "Carbs"); ("fat", "Fat")] →
         (field, value) ∈ updates →
         stored w' date_str col
         = Some (default 0%Qc (stored w date_str col) + value)%Qc)
    ∧ (∀ field col value,
         (field, col) ∈ [("weight", "Weight"); ("goal", "Calorie_Goal")] →
         (field, value) ∈ updates →
         stored w' date_str col = Some value)
    ∧ (∀ field col value values,
         (field, col) ∈ [("calories", "Calories"); ("protein", "Protein");
                         ("carbs", "Carbs"); ("fat", "Fat")] →
         stored (upserts date_str field (value :: values) w) date_str col
         = Some (default 0%Qc (stored w date_str col)
                 + Qc_sum (value :: values))%Qc)
    ∧ (∀ field col values value,
         (field, col) ∈ [("weight", "Weight"); ("goal", "Calorie_Goal")] →
         stored (upserts date_str field (values ++ [value]) w) date_str col
         = Some value)
    ∧ (stored w date_str "Calories" = None →
       stored (upserts date_str "calories" [Qc_of_Z 500; Qc_of_Z 300] w)
              date_str "Calories" = Some (Qc_of_Z 800))
    ∧ stored (upserts date_str "weight" [Qc_of_Z 150; Qc_of_Z 148] w)
             date_str "Weight" = Some (Qc_of_Z 148).
Proof.
  intros Hw Hnd.
  destruct (update_day_data_step date_str updates w Hw Hnd)
    as (w' & Hupd & _ & Hpol).
  exists w'. split; [done|]. split_and!.
  - intros field col value Hfc Hin.
    by apply (Hpol field col true value); [apply field_policy_accumulator|].
  - intros field col value Hfc Hin.
    by apply (Hpol field col false value); [apply field_policy_replace|].
  - intros field col value values Hfc.
    by apply upserts_accumulate; [|apply field_policy_accumulator].
  - intros field col values value Hfc.
    by apply upserts_replace; [|apply field_policy_replace].
  - intros Hnone.
    rewrite (upserts_accumulate date_str "calories" "Calories") by done.
    rewrite Hnone. cbn [default Qc_sum foldr]. f_equal.
    by rewrite Qcplus_0_l, Qcplus_0_r, Qc_of_Z_plus.
  - by apply (upserts_replace date_str "weight" "Weight" [Qc_of_Z 150]).
Qed.
(** ** Frames: what a method leaves alone, and that it returns *)

Lemma returns_ret {A} (a : A) : returns (mret a).
Proof. intros w. by eexists _, _. Qed.

Lemma returns_logger_error msg : returns (logger_error msg).
Proof. intros w. by eexists _, _. Qed.

Lemma returns_bind {A B} (m : Py A) (k : A → Py B) :
  returns m → (∀ a, returns (k a)) → returns (m ≫= k).
Proof.
  intros Hm Hk w. destruct (Hm w) as (a & w' & Hmw).
  destruct (Hk a w') as (b & w'' & Hkw). exists b, w''.
  unfold mbind, Py_bind. by rewrite Hmw.
Qed.

Lemma returns_try_except {A} (body : Py A) handler :
  (∀ e, returns (handler e)) → returns (try_except body handler).
Proof.
  intros Hh w. unfold try_except. destruct (body w) as [[a|e] w'].
  - by eexists _, _.
  - apply Hh.
Qed.

Lemma keeps_file_ret {A} (a : A) : keeps_file (mret a).
Proof. intros w. split_and!; try done. exists []. by rewrite app_nil_r. Qed.

Lemma keeps_file_raise {A} e : keeps_file (@raise A e).
Proof. intros w. split_and!; try done. exists []. by rewrite app_nil_r. Qed.

Lemma keeps_file_lift {A} (o : outcome A) : keeps_file (lift o).
Proof. intros w. split_and!; try done. exists []. by rewrite app_nil_r. Qed.

Lemma keeps_file_logger_error msg : keeps_file (logger_error msg).
Proof. intros w. split_and!; try done. by eexists. Qed.

Lemma keeps_file_logger_info msg : keeps_file (logger_info msg).
Proof. intros w. split_and!; try done. by eexists. Qed.

Lemma keeps_file_os_path_exists : keeps_file os_path_exists.
Proof. intros w. split_and!; try done. exists []. by rewrite app_nil_r. Qed.

Lemma keeps_file_read_excel : keeps_file read_excel.
Proof.
  intros w. unfold read_excel.
  destruct (file w) eqn:Hf; simpl; split_and!; try done;
    exists []; by rewrite app_nil_r.
Qed.

Lemma keeps_file_datetime_now_date : keeps_file datetime_now_date.
Proof. intros w. split_and!; try done. exists []. by rewrite app_nil_r. Qed.

Lemma keeps_file_bind {A B} (m : Py A) (k : A → Py B) :
  keeps_file m → (∀ a, keeps_file (k a)) → keeps_file (m ≫= k).
Proof.
  intros Hm Hk w. unfold mbind, Py_bind.
  destruct (Hm w) as (Hf & Hw & Ht & l1 & Hl).
  destruct (m w) as [[a|e] w']; simpl in *.
  - destruct (Hk a w') as (Hf' & Hw' & Ht' & l2 & Hl').
    split_and!; [congruence..|]. exists (l1 ++ l2)%list.
    by rewrite Hl', Hl, app_assoc.
  - split_and!; [done..|]. by exists l1.
Qed.

Lemma keeps_file_try_except {A} (body : Py A) handler :
  keeps_file body → (∀ e, keeps_file (handler e)) →
  keeps_file (try_except body handler).
Proof.
  intros Hm Hk w. unfold try_except.
  destruct (Hm w) as (Hf & Hw & Ht & l1 & Hl).
  destruct (body w) as [[a|e] w']; simpl in *.
  - split_and!; [done..|]. by exists l1.
  - destruct (Hk e w') as (Hf' & Hw' & Ht' & l2 & Hl').
    split_and!; [congruence..|]. exists (l1 ++ l2)%list.
    by rewrite Hl', Hl, app_assoc.
Qed.

Lemma keeps_file_if {A} (b : bool) (m1 m2 : Py A) :
  keeps_file m1 → keeps_file m2 → keeps_file (if b then m1 else m2).
Proof. by destruct b. Qed.

Create HintDb frame discriminated.
Hint Resolve returns_ret returns_logger_error returns_bind returns_try_except
  keeps_file_ret keeps_file_raise keeps_file_lift keeps_file_logger_error
  keeps_file_logger_info keeps_file_os_path_exists keeps_file_read_excel
  keeps_file_datetime_now_date keeps_file_bind keeps_file_try_except
  keeps_file_if : frame.

Ltac frame := repeat (intros; first
  [ apply keeps_file_try_except | apply keeps_file_bind | apply keeps_file_if
  | apply returns_try_except | apply returns_bind
  | solve [eauto with frame]
  | match goal with |- keeps_file (match ?x with _ => _ end) => destruct x end ]).

Lemma keeps_file_load_data : keeps_file load_data.
Proof. unfold load_data. frame. Qed.

Lemma keeps_file_get_day_data d : keeps_file (get_day_data d).
Proof. unfold get_day_data. pose proof keeps_file_load_data. frame. Qed.

Lemma keeps_file_get_date_range_data a b : keeps_file (get_date_range_data a b).
Proof. unfold get_date_range_data. pose proof keeps_file_load_data. frame. Qed.

Lemma keeps_file_get_recent_data n : keeps_file (get_recent_data n).
Proof.
  unfold get_recent_data. pose proof keeps_file_get_date_range_data. frame.
Qed.

Lemma keeps_file_get_summary_stats n : keeps_file (get_summary_stats n).
Proof.
  unfold get_summary_stats. pose proof keeps_file_get_recent_data. frame.
Qed.

Lemma keeps_file_create_weekly_summary_chart n :
  keeps_file (create_weekly_summary_chart n).
Proof.
  unfold create_weekly_summary_chart. pose proof keeps_file_get_recent_data.
  frame.
Qed.

Lemma table_same_file w w' : file w' = file w → table w' = table w.
Proof. intros Hf. by rewrite !table_eq, Hf. Qed.

Lemma table_keeps_file {A} (m : Py A) w : keeps_file m → table (m w).2 = table w.
Proof. intros Hm. apply table_same_file, Hm. Qed.

Lemma returns_call m : returns (call m).
Proof.
  destruct m; unfold call, load_data, save_data, get_all_data, load_data,
    get_day_data, update_day_data, get_date_range_data, get_recent_data,
    delete_day_data, get_summary_stats, backup_data; frame.
Qed.
(** ** Delete, round trip, and the invariant of the dates *)

Lemma delete_day_data_eq date_str w :
  delete_day_data date_str w =
    save_data (select (λ r, bool_decide (Date r ≠ Str date_str)) (table w))
              (load_data w).2.
Proof.
  unfold delete_day_data, try_except, mbind, Py_bind.
  destruct (load_data_world w) as (df & w' & -> & -> & _). simpl.
  rewrite save_data_eq. by destruct (writable w').
Qed.

Lemma well_formed_select mask df : well_formed df → well_formed (select mask df).
Proof.
  intros [Hc Hs]. split; [done|]. simpl.
  apply Forall_forall. intros r [_ Hr]%list_elem_of_filter.
  by apply (proj1 (Forall_forall _ _) Hs).
Qed.

Lemma save_data_unwritable df w :
  writable w = false →
  save_data df w
  = (Return false,
     logged ERROR "Failed to save data: [Errno 13] Permission denied" w).
Proof. intros Hw. by rewrite save_data_eq, Hw. Qed.

Lemma update_day_data_unwritable date_str updates w :
  writable w = false →
  ∃ w', update_day_data date_str updates w = (Return false, w')
        ∧ file w' = file w.
Proof.
  intros Hw. rewrite update_day_data_eq.
  destruct (load_data_world w) as (df & w0 & Hl & _ & Hf & Hw0 & _).
  rewrite Hl. simpl. rewrite save_data_unwritable by congruence.
  by eexists.
Qed.

Lemma delete_day_data_unwritable date_str w :
  writable w = false →
  ∃ w', delete_day_data date_str w = (Return false, w') ∧ file w' = file w.
Proof.
  intros Hw. rewrite delete_day_data_eq.
  destruct (load_data_world w) as (df & w0 & Hl & _ & Hf & Hw0 & _).
  rewrite Hl. simpl. rewrite save_data_unwritable by congruence.
  by eexists.
Qed.

Lemma delete_day_data_writable date_str w :
  writable w = true →
  ∃ w', delete_day_data date_str w = (Return true, w')
        ∧ table w' = select (λ r, bool_decide (Date r ≠ Str date_str)) (table w).
Proof.
  intros Hw.
  destruct (load_data_world w) as (df & w0 & Hl & _ & Hf & Hw0 & _).
  pose proof (table_save_data
    (select (λ r, bool_decide (Date r ≠ Str date_str)) (table w)) w0) as Ht.
  rewrite delete_day_data_eq, Hl. simpl.
  rewrite Hw0 in Ht. specialize (Ht Hw).
  rewrite save_data_eq, Hw0, Hw in *. eexists. split; [done|].
  apply Ht, well_formed_select, well_formed_table.
Qed.

Lemma dates_locate_row date_str df :
  NoDup (dates df) → NoDup (dates (locate_row date_str df).1).
Proof.
  intros Hnd. unfold locate_row.
  destruct (list_find _ (df_rows df)) as [[i r]|] eqn:Hfind; simpl; [done|].
  unfold dates. simpl. rewrite fmap_app. apply NoDup_app. split_and!; [done| |].
  - intros c Hc ->%list_elem_of_singleton.
    apply list_elem_of_fmap in Hc as (r & Hd & Hr).
    apply list_find_None in Hfind.
    by apply (proj1 (Forall_forall _ _) Hfind r).
  - apply NoDup_singleton.
Qed.

Lemma filter_all {A} (P : A → Prop) `{!∀ x, Decision (P x)} (l : list A) :
  Forall P l → filter P l = l.
Proof.
  induction 1 as [|x l Hx _ IH]; [done|].
  by rewrite filter_cons_True, IH.
Qed.

Lemma dates_select mask df : NoDup (dates df) → NoDup (dates (select mask df)).
Proof.
  unfold dates, select. simpl. intros Hnd.
  eapply sublist_NoDup; [done|]. apply fmap_sublist, sublist_filter.
Qed.

Lemma call_world_keeps {A} (op : Py A) (k : A → value) w :
  keeps_file op → table ((x ← op; mret (k x)) w).2 = table w.
Proof.
  intros Hop. apply table_keeps_file. frame.
Qed.

Lemma keeps_file_backup_data name w :
  file (backup_data name w).2 = file w.
Proof.
  unfold backup_data, try_except, mbind, Py_bind, datetime_now_stamp, mret,
    Py_ret, copy2, logger_info, logger_error.
  destruct name; simpl; destruct (file w) eqn:Hf; simpl; rewrite ?Hf;
    try done; destruct (destination_of _); simpl; rewrite ?Hf; done.
Qed.

(** C6.  "At most one record per date" is an invariant of the store's
    methods: if the table has no two rows of one date before an upsert, a
    delete or any reading method, it has none after.  ([save_data] writes
    the table its caller hands it, whatever it holds.) *)
Theorem unique_dates_preserved m w :
  (∀ df, m ≠ Save_data df) → unique_dates w → unique_dates (call m w).2.
Proof.
  intros Hm Hu. unfold unique_dates in *.
  destruct m; unfold call;
    try (rewrite call_world_keeps;
         auto using keeps_file_load_data, keeps_file_get_day_data,
           keeps_file_get_date_range_data, keeps_file_get_recent_data,
           keeps_file_get_summary_stats; fail).
  - by destruct (Hm df).
  - unfold mbind, Py_bind. destruct (writable w) eqn:Hw.
    + destruct (update_day_data_spec date_str updates w Hw)
        as (df1 & i & r & w' & Hloc & _ & -> & Ht & _). simpl.
      rewrite Ht, foldl_apply_update_dates.
      pose proof (dates_locate_row date_str _ Hu) as Hnd.
      by rewrite Hloc in Hnd.
    + destruct (update_day_data_unwritable date_str updates w Hw)
        as (w' & -> & Hf). simpl. by rewrite (table_same_file _ _ Hf).
  - unfold mbind, Py_bind. destruct (writable w) eqn:Hw.
    + destruct (delete_day_data_writable date_str w Hw) as (w' & -> & Ht).
      simpl. rewrite Ht. by apply dates_select.
    + destruct (delete_day_data_unwritable date_str w Hw) as (w' & -> & Hf).
      simpl. by rewrite (table_same_file _ _ Hf).
  - unfold mbind, Py_bind.
    pose proof (keeps_file_backup_data backup_filename w) as Hf.
    destruct (backup_data backup_filename w) as [[p|e] w']; simpl in *;
      by rewrite (table_same_file _ _ Hf).
Qed.

(** C7.  Round trip: saving what [load_data] returned leaves the table
    as the next [load_data] sees it unchanged, and when the file holds a
    table as [save_data] writes it, the file itself is unchanged. *)
Theorem save_load_round_trip w :
  let w' := ((df ← load_data; save_data df) w).2 in
  table w' = table w
  ∧ (∀ df, file w = Sheet df → well_formed df → file w' = file w).
Proof.
  unfold mbind, Py_bind.
  destruct (load_data_world w) as (df & w0 & Hl & -> & Hf & Hw0 & _ & Ht).
  rewrite Hl. simpl. rewrite save_data_eq, Hw0.
  destruct (writable w) eqn:Hw; simpl.
  - pose proof (table_save_data (table w) w0) as Hs.
    rewrite save_data_eq, Hw0 in Hs. simpl in Hs.
    split; [by apply Hs, well_formed_table|].
    intros df Hdf Hwf. rewrite Hdf, table_eq, Hdf.
    pose proof Hwf as [_ Hstr].
    by rewrite (normalize_id df Hwf), (astype_str_Date_id df Hstr).
  - split; [by rewrite table_logged|]. by intros.
Qed.

(** C8.  Deleting a date that the table does not hold returns true and
    leaves the table unchanged (the file being writable). *)
Theorem delete_absent_date date_str w :
  writable w = true → Str date_str ∉ dates (table w) →
  ∃ w', delete_day_data date_str w = (Return true, w') ∧ table w' = table w.
Proof.
  intros Hw Hno.
  destruct (delete_day_data_writable date_str w Hw) as (w' & Hd & Ht).
  exists w'. split; [done|]. rewrite Ht.
  destruct (table w) as [cs rs]. unfold select, dates in *. simpl in *. f_equal.
  apply filter_all, Forall_forall. intros r Hr.
  apply bool_decide_pack. intros Hd'. apply Hno.
  apply list_elem_of_fmap. by exists r.
Qed.
(** ** Range queries *)

Lemma outcome_map_Return {A B} (f : A → outcome B) (l : list A) :
  Forall (λ x, ∃ y, f x = Return y) l →
  ∃ ys, outcome_map f l = Return ys ∧ Forall2 (λ x y, f x = Return y) l ys.
Proof.
  induction 1 as [|x l [y Hy] _ (ys & IH & H2)].
  - by exists [].
  - exists (y :: ys). simpl. rewrite Hy, IH. simpl. by split; [|constructor].
Qed.

Lemma sort_values_Date_Return df :
  Forall (λ r, ∃ s, Date r = Str s) (df_rows df) →
  sort_values_Date df
  = Return (Frame (df_columns df) (merge_sort Date_le (df_rows df))).
Proof.
  intros Hs. unfold sort_values_Date.
  destruct (outcome_map_Return str_of_cell (Date <$> df_rows df)) as (ss & -> & _);
    [|done].
  apply Forall_forall. intros c (r & -> & Hr)%list_elem_of_fmap.
  destruct (proj1 (Forall_forall _ _) Hs r Hr) as [s ->]. by exists s.
Qed.

Global Instance Date_le_total : Total Date_le.
Proof.
  intros r1 r2. unfold Date_le. destruct (Date r1), (Date r2); auto.
  apply (total String.le).
Qed.

(** A frame of string dates sorted by [Date_le] has its date strings in
    ascending order of strings. *)
Lemma Sorted_Date_le_strings (rs : list row) :
  Forall (λ r, ∃ s, Date r = Str s) rs → Sorted Date_le rs →
  ∃ strs, Date <$> rs = Str <$> strs ∧ Sorted String.le strs.
Proof.
  induction 1 as [|r rs [s Hs] Hall IH]; intros Hsorted.
  - by exists [].
  - apply Sorted_inv in Hsorted as [Hsorted Hhd].
    destruct (IH Hsorted) as (strs & Hd & Hss).
    exists (s :: strs). split; [by rewrite !fmap_cons, Hs, Hd|].
    constructor; [done|].
    destruct rs as [|r' rs']; destruct strs as [|s' strs'];
      try discriminate Hd; constructor.
    apply HdRel_inv in Hhd. rewrite !fmap_cons in Hd.
    injection Hd as Hr' _. unfold Date_le in Hhd. by rewrite Hs, Hr' in Hhd.
Qed.

Lemma filter_zip_in_range start_date end_date s e (rs : list row) dts :
  to_datetime (Str start_date) = Return s →
  to_datetime (Str end_date) = Return e →
  Forall2 (λ c t, to_datetime c = Return t) (Date <$> rs) dts →
  (filter (λ rd : row * option Z, timestamp_le s rd.2 && timestamp_le rd.2 e)
          (zip rs dts)).*1
  = filter (λ r, in_range start_date end_date r) rs.
Proof.
  intros Hs He. revert dts.
  induction rs as [|r rs IH]; intros dts H2; [done|].
  rewrite fmap_cons in H2. apply Forall2_cons_inv_l in H2 as (t & dts' & Ht & H2 & ->).
  assert (Hin : in_range start_date end_date r
                = timestamp_le s t && timestamp_le t e).
  { unfold in_range. by rewrite Hs, He, Ht. }
  cbn [zip zip_with]. rewrite !filter_cons. cbn [snd].
  destruct (timestamp_le s t && timestamp_le t e) eqn:Hb.
  - rewrite decide_True by exact I.
    rewrite (decide_True (P := Is_true (in_range _ _ _))) by (by rewrite Hin).
    by rewrite fmap_cons, IH.
  - rewrite decide_False by (intros []).
    rewrite (decide_False (P := Is_true (in_range _ _ _)))
      by (rewrite Hin; intros []).
    by rewrite IH.
Qed.

Lemma empty_well_formed df : well_formed df → empty df = true → df_rows df = [].
Proof.
  intros [Hc _]. unfold empty. destruct (df_rows df); [done|].
  destruct (df_columns df) eqn:Hcols; [|done].
  assert (Hin : "Date" ∈ columns) by apply Date_in_columns.
  apply Hc in Hin. by apply elem_of_nil in Hin.
Qed.

(** The rows of a range query, when every date read parses. *)
Lemma get_date_range_data_rows start_date end_date w :
  Forall (λ c, ∃ t, to_datetime c = Return t) (dates (table w)) →
  (∃ s, to_datetime (Str start_date) = Return s) →
  (∃ e, to_datetime (Str end_date) = Return e) →
  ∃ df w', get_date_range_data start_date end_date w = (Return df, w')
    ∧ df_rows df
      = merge_sort Date_le
          (drop_Date_dt <$> filter (λ r, in_range start_date end_date r)
                                   (df_rows (table w))).
Proof.
  intros Hall [s Hs] [e He].
  unfold get_date_range_data, try_except, mbind, Py_bind.
  destruct (load_data_world w) as (df & w0 & -> & -> & _). simpl.
  destruct (empty (table w)) eqn:Hempty.
  { eexists _, _. split; [reflexivity|].
    by rewrite (empty_well_formed _ (well_formed_table w) Hempty). }
  destruct (outcome_map_Return to_datetime _ Hall) as (dts & Hmap & H2).
  unfold dates in Hmap. unfold lift. rewrite Hmap, Hs, He. simpl.
  rewrite filter_zip_in_range with (start_date := start_date)
    (end_date := end_date) by done.
  rewrite sort_values_Date_Return.
  - by eexists _, _.
  - simpl. apply Forall_forall. intros r' (r & -> & Hr)%list_elem_of_fmap.
    apply list_elem_of_filter in Hr as [_ Hr].
    destruct (well_formed_table w) as [_ Hstr]. simpl.
    by apply (proj1 (Forall_forall _ _) Hstr r).
Qed.
Lemma get_date_range_data_shape start_date end_date w :
  ∃ df w', get_date_range_data start_date end_date w = (Return df, w')
           ∧ range_shape df.
Proof.
  unfold get_date_range_data, try_except, mbind, Py_bind, lift.
  destruct (load_data_world w) as (df & w0 & -> & -> & _). simpl.
  destruct (empty (table w)) eqn:Hempty.
  { eexists _, _. split; [reflexivity|]. by left. }
  destruct (outcome_map to_datetime _) as [dts|?];
    [|eexists _, _; split; [reflexivity|by left]].
  destruct (to_datetime (Str start_date)) as [s|?];
    [|eexists _, _; split; [reflexivity|by left]].
  destruct (to_datetime (Str end_date)) as [e|?];
    [|eexists _, _; split; [reflexivity|by left]].
  simpl. rewrite sort_values_Date_Return.
  - eexists _, _. split; [reflexivity|]. right. simpl. split.
    + apply list_elem_of_filter. split; [done|].
      destruct (well_formed_table w) as [Hc _].
      case_bool_decide; [|apply elem_of_app; left];
        apply Hc, Date_in_columns.
    + eexists. split; [reflexivity|].
      apply Forall_forall. intros r' (r & -> & Hr)%list_elem_of_fmap.
      apply list_elem_of_fmap in Hr as ([r0 t] & -> & Hr).
      apply list_elem_of_filter in Hr as [_ Hr].
      apply elem_of_zip_l in Hr.
      destruct (well_formed_table w) as [_ Hstr]. simpl.
      by apply (proj1 (Forall_forall _ _) Hstr r0).
  - simpl. apply Forall_forall. intros r' (r & -> & Hr)%list_elem_of_fmap.
    apply list_elem_of_fmap in Hr as ([r0 t] & -> & Hr).
    apply list_elem_of_filter in Hr as [_ Hr].
    apply elem_of_zip_l in Hr.
    destruct (well_formed_table w) as [_ Hstr]. simpl.
    by apply (proj1 (Forall_forall _ _) Hstr r0).
Qed.

Lemma get_recent_data_shape days w :
  ∃ df w', get_recent_data days w = (Return df, w') ∧ range_shape df.
Proof.
  unfold get_recent_data, try_except, mbind, Py_bind, lift, datetime_now_date.
  destruct (Calendar.date_minus_days (today w) (days - 1)) as [start|?]; simpl;
    [|eexists _, _; split; [reflexivity|by left]].
  destruct (get_date_range_data_shape (strftime_ymd start)
              (strftime_ymd (today w)) w) as (df & w' & -> & Hshape).
  by eexists _, _.
Qed.

Lemma range_shape_empty df : range_shape df → empty df = true ↔ df_rows df = [].
Proof.
  intros [->|[Hin _]]; [done|]. unfold empty.
  destruct (df_rows df); [done|].
  destruct (df_columns df); [by apply elem_of_nil in Hin|]. done.
Qed.

Lemma range_shape_sorted df :
  range_shape df →
  ∃ strs, Date <$> df_rows df = Str <$> strs ∧ Sorted String.le strs.
Proof.
  intros [->|[_ (rs & Hrs & Hstr)]]; [by exists []|].
  apply Sorted_Date_le_strings.
  - rewrite Hrs. apply Forall_forall. intros r Hr. rewrite merge_sort_Permutation in Hr.
    by apply (proj1 (Forall_forall _ _) Hstr).
  - rewrite Hrs. apply (Sorted_merge_sort _).
Qed.

Lemma filter_none {A} (P : A → Prop) `{!∀ x, Decision (P x)} (l : list A) :
  Forall (λ x, ¬ P x) l → filter P l = [].
Proof.
  induction 1 as [|x l Hx _ IH]; [done|]. by rewrite filter_cons_False.
Qed.

(** C4 (as amended).  When the dates of the table and the two bounds
    parse, a range query returns exactly the rows whose date falls in
    [[start_date, end_date]] by calendar value (less its working column
    [Date_dt]), and returns them in ascending order of the [Date]
    strings; it is empty when no row falls in the range. *)
Theorem get_date_range_data_spec start_date end_date w :
  Forall (λ c, ∃ t, to_datetime c = Return t) (dates (table w)) →
  (∃ s, to_datetime (Str start_date) = Return s) →
  (∃ e, to_datetime (Str end_date) = Return e) →
  ∃ df w', get_date_range_data start_date end_date w = (Return df, w')
    ∧ df_rows df ≡ₚ drop_Date_dt <$> filter (λ r, in_range start_date end_date r)
                                           (df_rows (table w))
    ∧ (∃ strs, Date <$> df_rows df = Str <$> strs ∧ Sorted String.le strs)
    ∧ (Forall (λ r, in_range start_date end_date r = false) (df_rows (table w))
       → df_rows df = []).
Proof.
  intros Hall Hs He.
  destruct (get_date_range_data_rows start_date end_date w Hall Hs He)
    as (df & w' & Hget & Hrows).
  destruct (get_date_range_data_shape start_date end_date w)
    as (df' & w'' & Hget' & Hshape).
  rewrite Hget in Hget'. simplify_eq.
  exists df', w''. split_and!; [done| | |].
  - rewrite Hrows. apply merge_sort_Permutation.
  - by apply range_shape_sorted.
  - intros Hnone. rewrite Hrows, filter_none; [done|].
    eapply Forall_impl; [exact Hnone|]. intros r Hr. simpl in Hr.
    rewrite Hr. intros [].
Qed.
(** ** Summary statistics *)

Lemma get_summary_stats_eq days w df w1 :
  get_recent_data days w = (Return df, w1) →
  get_summary_stats days w
  = (Return (if empty df then None else Some (summary_of df)), w1).
Proof.
  intros Hget. unfold get_summary_stats, try_except, mbind, Py_bind.
  rewrite Hget. by destruct (empty df).
Qed.

Lemma dropna_Weight_weights df :
  (λ r, nums r !! "Weight") <$> df_rows (dropna ["Weight"] df)
  = Some <$> weights df.
Proof.
  unfold dropna, select, weights. simpl.
  induction (df_rows df) as [|r rs IH]; [done|].
  rewrite filter_cons. cbn [forallb omap list_omap].
  destruct (decide _) as [Hd|Hd].
  - rewrite andb_true_r in Hd. apply bool_decide_unpack in Hd as [v Hv].
    by rewrite fmap_cons, Hv, IH.
  - rewrite andb_true_r in Hd.
    destruct (nums r !! "Weight") as [v|] eqn:Hv; [|done].
    destruct Hd. apply bool_decide_pack. by exists v.
Qed.

Lemma head_bind_fmap {A B} (f : A → option B) (l : list A) (ys : list B) :
  f <$> l = Some <$> ys →
  head l ≫= f = head ys ∧ last l ≫= f = last ys ∧ length l = length ys.
Proof.
  intros Hl. split_and!.
  - destruct l, ys; simplify_eq/=; done.
  - transitivity (last (f <$> l) ≫= id).
    + rewrite fmap_last. by destruct (last l).
    + rewrite Hl, fmap_last. by destruct (last ys).
  - by rewrite <-(length_fmap f l), Hl, length_fmap.
Qed.

Lemma weight_change_summary_of df :
  weight_change (summary_of df)
  = match weights df with
    | first :: _ :: _ => Some (default first (last (weights df)) - first)%Qc
    | _ => None
    end.
Proof.
  unfold summary_of. cbn [weight_change].
  destruct (head_bind_fmap _ _ _ (dropna_Weight_weights df))
    as (Hhead & Hlast & Hlen).
  unfold len. rewrite Hhead, Hlast, Hlen.
  destruct (weights df) as [|first [|second rest]]; [done..|].
  rewrite bool_decide_eq_true_2 by (simpl; lia).
  cbn [head].
  destruct (last (first :: second :: rest)) eqn:Hl; [done|].
  by apply last_None in Hl.
Qed.



(** ** Failures *)

Lemma outcome_map_Raise {A B} (f : A → outcome B) (l : list A) x e :
  x ∈ l → f x = Raise e → ∃ e', outcome_map f l = Raise e'.
Proof.
  induction 1 as [x l|x y l _ IH]; intros Hx; simpl.
  - rewrite Hx. by eexists.
  - destruct (f y); simpl; [|by eexists].
    destruct (IH Hx) as [e' ->]. by eexists.
Qed.

Lemma get_date_range_data_parse_failure start_date end_date w c e :
  c ∈ dates (table w) → to_datetime c = Raise e →
  ∃ e', get_date_range_data start_date end_date w
        = (Return DataFrame_empty,
           logged ERROR ("Failed to get date range data: " +:+ e')
                  (load_data w).2).
Proof.
  intros Hc He. unfold get_date_range_data, try_except, mbind, Py_bind, lift.
  destruct (load_data_world w) as (df & w0 & -> & -> & _). simpl.
  destruct (empty (table w)) eqn:Hempty.
  { apply (empty_well_formed _ (well_formed_table w)) in Hempty.
    unfold dates in Hc. rewrite Hempty in Hc. by apply elem_of_nil in Hc. }
  destruct (outcome_map_Raise to_datetime _ c e Hc He) as [e' He'].
  unfold dates in He'. rewrite He'. simpl. by exists e'.
Qed.

Lemma ensure_data_file_exists_unwritable w :
  file w = Absent → writable w = false →
  ensure_data_file_exists w
  = (Raise "[Errno 13] Permission denied",
     logged ERROR "Failed to create data file: [Errno 13] Permission denied" w).
Proof.
  intros Hf Hw.
  unfold ensure_data_file_exists, try_except, mbind, Py_bind, os_path_exists,
    to_excel, logger_error, raise.
  rewrite Hf. simpl. by rewrite Hw.
Qed.

(** C3 (as amended).  No method of the store lets an exception out: each
    returns a value in every world.  A file that cannot be read makes
    [load_data] log the error and return the empty table; a file that
    cannot be written makes [save_data], an upsert and a delete log it and
    return false; a date that does not parse makes a range query log it
    and return the empty frame.  The constructor's
    [ensure_data_file_exists] is the exception: it logs the error and
    raises it again. *)
Theorem store_methods_swallow_errors m w :
  (∃ v w', call m w = (Return v, w'))
  ∧ (∀ e, file w = Corrupt e →
       load_data w = (Return (DataFrame_of_columns columns),
                      logged ERROR ("Failed to load data: " +:+ e) w))
  ∧ (writable w = false →
       (∀ df, save_data df w
              = (Return false,
                 logged ERROR "Failed to save data: [Errno 13] Permission denied" w))
       ∧ (∀ d u, (update_day_data d u w).1 = Return false)
       ∧ (∀ d, (delete_day_data d w).1 = Return false))
  ∧ (∀ a b c e, c ∈ dates (table w) → to_datetime c = Raise e →
       ∃ e', get_date_range_data a b w
             = (Return DataFrame_empty,
                logged ERROR ("Failed to get date range data: " +:+ e')
                       (load_data w).2))
  ∧ (file w = Absent → writable w = false →
       ensure_data_file_exists w
       = (Raise "[Errno 13] Permission denied",
          logged ERROR "Failed to create data file: [Errno 13] Permission denied" w)).
Proof.
  split_and!.
  - apply returns_call.
  - intros e He. by rewrite load_data_eq, He.
  - intros Hw. split_and!.
    + intros df. by apply save_data_unwritable.
    + intros d u. by destruct (update_day_data_unwritable d u w Hw) as (w' & -> & _).
    + intros d. by destruct (delete_day_data_unwritable d w Hw) as (w' & -> & _).
  - intros a b c e. apply get_date_range_data_parse_failure.
  - apply ensure_data_file_exists_unwritable.
Qed.

(** The row that an upsert creates for a new date holds 0 in every numeric
    column that the updates do not set, the weight and the calorie goal
    included. *)
Lemma new_record_zero_initialised date_str updates w col :
  writable w = true →
  record date_str (table w) = None →
  col ∈ ["Calories"; "Protein"; "Carbs"; "Fat"; "Weight"; "Calorie_Goal"] →
  (∀ f v a, (f, v) ∈ updates → field_policy f ≠ Some (col, a)) →
  stored (update_day_data date_str updates w).2 date_str col = Some 0%Qc.
Proof.
  intros Hw Hnone Hcol Hno.
  destruct (update_day_data_spec date_str updates w Hw)
    as (df1 & i & r & w' & Hloc & Hfind & Hupd & Htab & Hst & Hat).
  rewrite Hupd. cbn [snd]. rewrite Hst.
  rewrite foldl_apply_update_untouched by done.
  rewrite Hat, Hnone, new_row_nums. by rewrite bool_decide_eq_true_2.
Qed.

(** ** The window of the summary *)











(** ** Point lookup, and how upsert, delete and lookup compose *)

Lemma head_filter_list_find {A} (P : A → Prop) `{!∀ x, Decision (P x)} (l : list A) :
  head (filter P l) = snd <$> list_find P l.
Proof.
  induction l as [|x l IH]; [done|].
  rewrite filter_cons. cbn [list_find]. destruct (decide (P x)); [done|].
  rewrite IH. by destruct (list_find P l).
Qed.

Lemma record_None date_str df :
  record date_str df = None ↔ Str date_str ∉ dates df.
Proof.
  unfold record, dates. split.
  - intros Hnone%fmap_None (r & Hd & Hr)%list_elem_of_fmap.
    apply list_find_None in Hnone.
    by apply (proj1 (Forall_forall _ _) Hnone r).
  - intros Hno. apply fmap_None, list_find_None, Forall_forall.
    intros r Hr Hd. apply Hno, list_elem_of_fmap. by exists r.
Qed.

Lemma record_Some date_str df r :
  record date_str df = Some r → Date r = Str date_str ∧ r ∈ df_rows df.
Proof.
  unfold record. intros ([i r'] & Hfind & ->)%fmap_Some.
  apply list_find_Some in Hfind as (Hi & HP & _).
  split; [done|]. by eapply list_elem_of_lookup_2.
Qed.

Lemma get_day_data_eq date_str w :
  get_day_data date_str w = (Return (record date_str (table w)), (load_data w).2).
Proof.
  unfold get_day_data, try_except, mbind, Py_bind.
  destruct (load_data_world w) as (df & w0 & -> & -> & _). cbn [fst snd].
  destruct (empty (table w)) eqn:Hempty.
  { apply (empty_well_formed _ (well_formed_table w)) in Hempty.
    unfold record. by rewrite Hempty. }
  assert (Hrec : record date_str (table w)
                 = head (df_rows (select (λ r, bool_decide (Date r = Str date_str))
                                         (table w)))).
  { unfold record, select. cbn [df_rows].
    rewrite head_filter_list_find. f_equal. apply list_find_ext.
    intros r. split; [apply bool_decide_pack | apply bool_decide_unpack]. }
  rewrite Hrec.
  destruct (empty (select _ (table w))) eqn:Hsel; [|done].
  assert (Hwf : well_formed (select (λ r, bool_decide (Date r = Str date_str))
                                    (table w)))
    by apply well_formed_select, well_formed_table.
  by rewrite (empty_well_formed _ Hwf Hsel).
Qed.

(** X1.  [get_day_data] is an exact-match lookup: it returns the first row
    of the table whose date is [date_str], it returns None exactly when no
    row has that date, and it leaves the data file as it is. *)
Theorem get_day_data_lookup date_str w :
  ∃ o w', get_day_data date_str w = (Return o, w')
    ∧ o = record date_str (table w)
    ∧ (o = None ↔ Str date_str ∉ dates (table w))
    ∧ (∀ r, o = Some r → Date r = Str date_str ∧ r ∈ df_rows (table w))
    ∧ file w' = file w.
Proof.
  rewrite get_day_data_eq. eexists _, _. split; [reflexivity|].
  split_and!; [done|apply record_None|apply record_Some|].
  destruct (load_data_world w) as (df & w0 & Hl & _ & Hf & _).
  by rewrite Hl.
Qed.


(** The rows of a frame after the updates: only row [i] is touched, and
    its date is kept. *)
Lemma foldl_apply_update_rows i u df :
  ∃ f, (∀ r, Date (f r) = Date r)
       ∧ df_rows (foldl (apply_update i) df u) = alter f i (df_rows df).
Proof.
  revert df. induction u as [|[field v] u IH]; intros df; cbn [foldl].
  - exists id. split; [done|]. by rewrite list_alter_id.
  - destruct (IH (apply_update i df (field, v))) as (f & Hf & ->).
    rewrite apply_update_policy.
    destruct (field_policy field) as [[col []]|]; [| |by exists f];
      cbn [at_set df_rows]; rewrite list_alter_alter_eq;
      (eexists; split; [|reflexivity]); intros r; cbn; by rewrite Hf.
Qed.

Lemma list_find_alter_other {A} (P : A → Prop) `{!∀ x, Decision (P x)}
    (f : A → A) i (l : list A) :
  (∀ x, l !! i = Some x → ¬ P x ∧ ¬ P (f x)) →
  list_find P (alter f i l) = list_find P l.
Proof.
  revert i. induction l as [|x l IH]; intros i Hi; [done|].
  destruct i as [|i]; cbn [alter list_alter list_find].
  - destruct (Hi x eq_refl) as [Hx Hfx].
    by rewrite !decide_False by done.
  - destruct (decide (P x)); [done|]. by rewrite IH.
Qed.

Lemma list_find_filter_implied {A} (P Q : A → Prop)
    `{!∀ x, Decision (P x)} `{!∀ x, Decision (Q x)} (l : list A) :
  (∀ x, P x → Q x) →
  snd <$> list_find P (filter Q l) = snd <$> list_find P l.
Proof.
  intros HPQ. induction l as [|x l IH]; [done|].
  rewrite filter_cons. cbn [list_find].
  destruct (decide (Q x)) as [HQ|HQ]; cbn [list_find].
  - destruct (decide (P x)); [done|].
    destruct (list_find P (filter Q l)) as [[??]|], (list_find P l) as [[??]|];
      simplify_eq/=; done.
  - rewrite decide_False by auto. rewrite IH.
    by destruct (list_find P l) as [[??]|].
Qed.

Lemma list_find_snoc_not {A} (P : A → Prop) `{!∀ x, Decision (P x)}
    (l : list A) x :
  ¬ P x → list_find P (l ++ [x]) = list_find P l.
Proof.
  intros Hx. destruct (list_find P l) as [[i y]|] eqn:Hl.
  - by apply list_find_app_l.
  - rewrite list_find_app_r by done. cbn [list_find].
    by rewrite decide_False.
Qed.

(** The table after an upsert, be the file writable or not. *)
Lemma update_day_data_table date_str updates w :
  table (update_day_data date_str updates w).2
  = if writable w
    then foldl (apply_update (locate_row date_str (table w)).2)
               (locate_row date_str (table w)).1 updates
    else table w.
Proof.
  destruct (writable w) eqn:Hw.
  - destruct (update_day_data_spec date_str updates w Hw)
      as (df1 & i & r & w' & Hloc & _ & -> & Ht & _).
    rewrite Hloc. exact Ht.
  - destruct (update_day_data_unwritable date_str updates w Hw) as (w' & -> & Hf).
    by apply table_same_file.
Qed.

Lemma delete_day_data_table date_str w :
  table (delete_day_data date_str w).2
  = if writable w
    then select (λ r, bool_decide (Date r ≠ Str date_str)) (table w)
    else table w.
Proof.
  destruct (writable w) eqn:Hw.
  - destruct (delete_day_data_writable date_str w Hw) as (w' & -> & Ht).
    exact Ht.
  - destruct (delete_day_data_unwritable date_str w Hw) as (w' & -> & Hf).
    by apply table_same_file.
Qed.

(** X2.  An upsert then a lookup: after an upsert on a writable file the
    date has a record, [get_day_data] returns it, and it holds what the
    policy of each field of the updates gives. *)
Theorem get_day_data_after_update date_str updates w :
  writable w = true → NoDup updates.*1 →
  ∃ w1 r w2,
    update_day_data date_str updates w = (Return true, w1)
    ∧ get_day_data date_str w1 = (Return (Some r), w2)
    ∧ Date r = Str date_str
    ∧ ∀ field col add value,
        field_policy field = Some (col, add) → (field, value) ∈ updates →
        nums r !! col
        = Some (if add then default 0%Qc (stored w date_str col) + value
                else value)%Qc.
Proof.
  intros Hw Hnd.
  destruct (update_day_data_step date_str updates w Hw Hnd)
    as (w1 & Hupd & Hw1 & Hpol).
  destruct (update_day_data_spec date_str updates w Hw)
    as (df1 & i & r0 & w1' & Hloc & Hfind & Hupd' & Htab & Hst & _).
  rewrite Hupd in Hupd'. simplify_eq.
  destruct (list_find_dates date_str (df_rows df1)
              (df_rows (foldl (apply_update i) df1 updates)) i r0)
    as (r & Hfind2 & Hi2); [|done|].
  { symmetry. apply foldl_apply_update_dates. }
  assert (Hrec : record date_str (table w1') = Some r).
  { unfold record. by rewrite Htab, Hfind2. }
  exists w1', r, (load_data w1').2. split; [done|].
  split; [by rewrite get_day_data_eq, Hrec|].
  split; [by apply list_find_Some in Hfind2 as (_ & ? & _)|].
  intros field col add value Hfp Hin.
  rewrite <-(Hpol field col add value Hfp Hin). unfold stored. by rewrite Hrec.
Qed.

(** X3.  A delete then a lookup: after a delete on a writable file no row
    of the date is left, however many the table held, and [get_day_data]
    returns None. *)
Theorem get_day_data_after_delete date_str w :
  writable w = true →
  ∃ w1 w2, delete_day_data date_str w = (Return true, w1)
    ∧ (Str date_str ∉ dates (table w1))
    ∧ get_day_data date_str w1 = (Return None, w2).
Proof.
  intros Hw. destruct (delete_day_data_writable date_str w Hw) as (w1 & Hdel & Ht).
  assert (Hno : Str date_str ∉ dates (table w1)).
  { rewrite Ht. unfold dates, select. cbn [df_rows].
    intros (r & Hd & Hr)%list_elem_of_fmap.
    apply list_elem_of_filter in Hr as [Hne%bool_decide_unpack _]. done. }
  exists w1, (load_data w1).2. split; [done|]. split; [done|].
  rewrite get_day_data_eq. by rewrite (proj2 (record_None _ _) Hno).
Qed.

(** X4.  An upsert or a delete on one date leaves the record of every
    other date as it is. *)
Theorem other_dates_untouched date_str other updates w :
  other ≠ date_str →
  record other (table (update_day_data date_str updates w).2)
  = record other (table w)
  ∧ record other (table (delete_day_data date_str w).2)
    = record other (table w).
Proof.
  intros Hne. split.
  - rewrite update_day_data_table. destruct (writable w); [|done].
    unfold record.
    destruct (foldl_apply_update_rows (locate_row date_str (table w)).2 updates
                (locate_row date_str (table w)).1) as (f & Hf & ->).
    destruct (locate_row_spec date_str (table w) (well_formed_table w))
      as (df1 & i & r & Hloc & _ & Hfind & Hrec).
    rewrite Hloc. cbn [fst snd].
    apply list_find_Some in Hfind as (Hi & Hd & _).
    rewrite list_find_alter_other.
    + destruct (record date_str (table w)); destruct Hrec as [-> Hrows];
        [by subst|].
      rewrite Hrows, list_find_snoc_not; [done|].
      rewrite new_row_eq. cbn [Date]. intros [=]. done.
    + intros x Hx. rewrite Hi in Hx. injection Hx as <-.
      rewrite Hf, Hd. split; intros [=]; done.
  - rewrite delete_day_data_table. destruct (writable w); [|done].
    unfold record, select. cbn [df_rows].
    apply list_find_filter_implied. intros r Hr.
    apply bool_decide_pack. rewrite Hr. intros [=]. done.
Qed.


Lemma foldl_apply_update_unknown i u df :
  (∀ f v, (f, v) ∈ u → field_policy f = None) →
  foldl (apply_update i) df u = df.
Proof.
  revert df. induction u as [|[f v] u IH]; intros df Hno; cbn [foldl]; [done|].
  rewrite apply_update_policy, (Hno f v) by left.
  apply IH. intros f' v' Hin. apply (Hno f' v'). by right.
Qed.

Lemma len_foldl_apply_update i u df : len (foldl (apply_update i) df u) = len df.
Proof.
  revert df. induction u as [|x u IH]; intros df; cbn [foldl]; [done|].
  by rewrite IH, len_apply_update.
Qed.

(** X5.  An upsert on a writable file changes the number of rows by
    nothing when the date has a record and by one when it has none, and the
    dates of the old rows stay in their order; when every field of the
    updates is unknown to the store (or there is none), an upsert on a date
    that has a record leaves the table as it is and still returns true. *)
Theorem update_day_data_rows date_str updates w :
  writable w = true →
  ∃ w', update_day_data date_str updates w = (Return true, w')
    ∧ dates (table w')
      = (dates (table w)
         ++ if bool_decide (Str date_str ∈ dates (table w)) then []
            else [Str date_str])%list
    ∧ len (table w')
      = (len (table w)
         + if bool_decide (Str date_str ∈ dates (table w)) then 0 else 1)%nat
    ∧ ((∀ f v, (f, v) ∈ updates → field_policy f = None) →
       Str date_str ∈ dates (table w) → table w' = table w).
Proof.
  intros Hw.
  destruct (update_day_data_spec date_str updates w Hw)
    as (df1 & i & r & w' & Hloc & Hfind & Hupd & Htab & _).
  destruct (locate_row_spec date_str (table w) (well_formed_table w))
    as (df1' & i' & r' & Hloc' & _ & _ & Hrec).
  rewrite Hloc in Hloc'. simplify_eq.
  assert (Hdates : dates df1'
                   = (dates (table w)
                      ++ if bool_decide (Str date_str ∈ dates (table w)) then []
                         else [Str date_str])%list).
  { destruct (record date_str (table w)) as [r0|] eqn:Hr.
    - destruct Hrec as [-> ->]. rewrite bool_decide_eq_true_2, app_nil_r; [done|].
      destruct (decide (Str date_str ∈ dates (table w))) as [|Hno]; [done|].
      apply record_None in Hno. congruence.
    - destruct Hrec as [-> Hrows]. apply record_None in Hr.
      rewrite bool_decide_eq_false_2 by done.
      unfold dates. by rewrite Hrows, fmap_app, new_row_eq. }
  exists w'. split; [done|]. rewrite Htab. split_and!.
  - by rewrite foldl_apply_update_dates.
  - rewrite len_foldl_apply_update. unfold len.
    rewrite <-(length_fmap Date (df_rows df1')), <-(length_fmap Date (df_rows (table w))).
    fold (dates df1') (dates (table w)). rewrite Hdates, length_app.
    by case_bool_decide.
  - intros Hno Hin. rewrite foldl_apply_update_unknown by done.
    destruct (record date_str (table w)) as [r0|] eqn:Hr.
    + by destruct Hrec as [_ ->].
    + apply record_None in Hr. done.
Qed.

Lemma select_select mask df : select mask (select mask df) = select mask df.
Proof.
  unfold select. cbn [df_rows df_columns]. f_equal.
  apply filter_all, Forall_forall. by intros r [? _]%list_elem_of_filter.
Qed.

(** X6.  Delete is idempotent: on a writable file a second delete of the
    same date returns true again and leaves the table as the first left
    it. *)
Theorem delete_day_data_idempotent date_str w :
  writable w = true →
  ∃ w1 w2, delete_day_data date_str w = (Return true, w1)
    ∧ delete_day_data date_str w1 = (Return true, w2)
    ∧ table w2 = table w1.
Proof.
  intros Hw. destruct (delete_day_data_writable date_str w Hw) as (w1 & Hd1 & Ht1).
  assert (Hw1 : writable w1 = true).
  { rewrite delete_day_data_eq, save_data_eq in Hd1.
    destruct (load_data_world w) as (? & w0 & Hl & _ & _ & Hw0 & _).
    rewrite Hl in Hd1. cbn [snd] in Hd1. rewrite Hw0, Hw in Hd1.
    by simplify_eq. }
  destruct (delete_day_data_writable date_str w1 Hw1) as (w2 & Hd2 & Ht2).
  exists w1, w2. split; [done|]. split; [done|].
  by rewrite Ht2, Ht1, select_select.
Qed.

(** X7.  [ensure_data_file_exists] never touches a data file that is
    there; when there is none and the directory can be written it creates
    one with the seven columns and no row, and logs it; either way the
    table that [load_data] sees is the same before and after. *)
Theorem ensure_data_file_exists_spec w :
  table (ensure_data_file_exists w).2 = table w
  ∧ (file w ≠ Absent → ensure_data_file_exists w = (Return (), w))
  ∧ (file w = Absent → writable w = true →
     ensure_data_file_exists w
     = (Return (),
        logged INFO ("Created new data file: " +:+ filepath)
          (World (Sheet (DataFrame_of_columns columns)) true (today w) (stamp w)
                 (copies w) (log w)))).
Proof.
  assert (Hex : file w ≠ Absent → ensure_data_file_exists w = (Return (), w)).
  { intros Hne. unfold ensure_data_file_exists, mbind, Py_bind, os_path_exists.
    by rewrite bool_decide_eq_true_2. }
  destruct (decide (file w = Absent)) as [Hf|Hf].
  - assert (Hrun : ensure_data_file_exists w
                   = if writable w then
                       (Return (),
                        logged INFO ("Created new data file: " +:+ filepath)
                          (World (Sheet (DataFrame_of_columns columns)) true
                                 (today w) (stamp w) (copies w) (log w)))
                     else (Raise "[Errno 13] Permission denied",
                           logged ERROR
                             "Failed to create data file: [Errno 13] Permission denied"
                             w)).
    { unfold ensure_data_file_exists, try_except, mbind, Py_bind, os_path_exists,
        to_excel, logger_error, logger_info, raise.
      rewrite bool_decide_eq_false_2 by auto. cbn [negb].
      by destruct (writable w). }
    rewrite Hrun. split_and!; [|done|by intros _ ->].
    destruct (writable w); cbn [snd]; rewrite table_logged; [|done].
    rewrite !table_eq, Hf. cbn [file].
    by rewrite (normalize_id _ well_formed_empty).
  - rewrite (Hex Hf). by split_and!.
Qed.

Lemma len_astype_str_Date df : len (astype_str_Date df) = len df.
Proof.
  unfold len, astype_str_Date. case_bool_decide; [|done].
  cbn [df_rows]. by rewrite length_fmap.
Qed.

Lemma len_ensure_columns df : len (ensure_columns df) = len df.
Proof.
  unfold ensure_columns. generalize columns. intros cs. revert df.
  induction cs as [|c cs IH]; intros df; cbn [foldl]; [done|].
  rewrite IH. case_bool_decide; [|done].
  unfold len, set_column_None. cbn [df_rows]. by rewrite length_fmap.
Qed.

(** X8.  Whatever the data file holds, [load_data] returns a frame that has
    the seven columns and whose dates are strings, with one row for each
    row of the sheet, and it leaves the file as it is. *)
Theorem load_data_well_formed w :
  ∃ df w', load_data w = (Return df, w')
    ∧ columns ⊆ df_columns df
    ∧ Forall (λ r, ∃ s, Date r = Str s) (df_rows df)
    ∧ file w' = file w
    ∧ (∀ sheet, file w = Sheet sheet → len df = len sheet).
Proof.
  destruct (load_data_world w) as (df & w' & Hl & -> & Hf & _).
  exists (table w), w'. split; [done|].
  destruct (well_formed_table w) as [Hc Hs]. split_and!; [done..|].
  intros sheet Hsheet. rewrite table_eq, Hsheet.
  by rewrite len_astype_str_Date, len_ensure_columns.
Qed.


Lemma returns_get_date_range_data a b : returns (get_date_range_data a b).
Proof.
  intros w. destruct (get_date_range_data_shape a b w) as (df & w' & -> & _).
  by eexists _, _.
Qed.

(** X11.  The reading methods do not write: every method of the store but
    [save_data], [update_day_data], [delete_day_data] and [backup_data]
    leaves the data file, its permissions and the clock as they are, so the
    table is the same after as before, and only adds lines to the log. *)
Theorem reading_methods_keep_file m w :
  (∀ df, m ≠ Save_data df) → (∀ d u, m ≠ Update_day_data d u) →
  (∀ d, m ≠ Delete_day_data d) → (∀ name, m ≠ Backup_data name) →
  file (call m w).2 = file w ∧ writable (call m w).2 = writable w
  ∧ today (call m w).2 = today w ∧ table (call m w).2 = table w
  ∧ ∃ lines, log (call m w).2 = (log w ++ lines)%list.
Proof.
  intros Hsave Hupd Hdel Hback.
  assert (Hk : keeps_file (call m)).
  { pose proof keeps_file_load_data. pose proof keeps_file_get_day_data.
    pose proof keeps_file_get_date_range_data.
    pose proof keeps_file_get_recent_data.
    pose proof keeps_file_get_summary_stats.
    destruct m; unfold call, get_all_data;
      try (by frame);
      [by destruct (Hsave df)|by destruct (Hupd date_str updates)
      |by destruct (Hdel date_str)|by destruct (Hback backup_filename)]. }
  destruct (Hk w) as (Hf & Hw & Ht & Hl). split_and!; [done..| |done].
  by apply table_same_file.
Qed.

Lemma outcome_map_Return_inv {A B} (f : A → outcome B) (l : list A) ys :
  outcome_map f l = Return ys → Forall2 (λ x y, f x = Return y) l ys.
Proof.
  revert ys. induction l as [|x l IH]; intros ys; cbn [outcome_map].
  - intros [= <-]. constructor.
  - destruct (f x) as [y|e] eqn:Hx; cbn [outcome_bind]; [|done].
    destruct (outcome_map f l) as [ys'|e]; cbn [outcome_bind]; [|done].
    intros [= <-]. constructor; [done|]. by apply IH.
Qed.

(** The rows of a range query, in every world: nothing, or the rows in
    range sorted. *)
Lemma get_date_range_data_rows_cases start_date end_date w :
  ∃ df w', get_date_range_data start_date end_date w = (Return df, w')
    ∧ (df = DataFrame_empty
       ∨ (df_rows df
          = merge_sort Date_le
              (drop_Date_dt <$> filter (λ r, in_range start_date end_date r)
                                       (df_rows (table w)))
          ∧ df_columns df
            = filter (λ c, c ≠ "Date_dt")
                (if bool_decide ("Date_dt" ∈ df_columns (table w))
                 then df_columns (table w)
                 else (df_columns (table w) ++ ["Date_dt"])%list))).
Proof.
  unfold get_date_range_data, try_except, mbind, Py_bind, lift.
  destruct (load_data_world w) as (df & w0 & -> & -> & _). cbn [fst snd].
  destruct (empty (table w)) eqn:Hempty.
  { eexists _, _. split; [reflexivity|]. by left. }
  destruct (outcome_map to_datetime _) as [dts|?] eqn:Hmap;
    [|eexists _, _; split; [reflexivity|by left]].
  destruct (to_datetime (Str start_date)) as [s|?] eqn:Hs;
    [|eexists _, _; split; [reflexivity|by left]].
  destruct (to_datetime (Str end_date)) as [e|?] eqn:He;
    [|eexists _, _; split; [reflexivity|by left]].
  apply outcome_map_Return_inv in Hmap.
  cbn [df_rows df_columns].
  rewrite (filter_zip_in_range start_date end_date s e _ dts Hs He Hmap).
  rewrite sort_values_Date_Return.
  - eexists _, _. split; [reflexivity|]. by right.
  - cbn [drop_column df_rows].
    apply Forall_forall. intros r' (r & -> & Hr)%list_elem_of_fmap.
    apply list_elem_of_filter in Hr as [_ Hr].
    destruct (well_formed_table w) as [_ Hstr]. cbn [Date].
    by apply (proj1 (Forall_forall _ _) Hstr r).
Qed.

(** X13.  In every world a range query returns only rows of the table
    whose date falls in the range by calendar value (less the working
    column), never more rows than the table has, and never a column named
    Date_dt. *)
Theorem get_date_range_data_sound start_date end_date w :
  ∃ df w', get_date_range_data start_date end_date w = (Return df, w')
    ∧ (∀ r, r ∈ df_rows df →
         ∃ r0, r0 ∈ df_rows (table w) ∧ r = drop_Date_dt r0
               ∧ in_range start_date end_date r0 = true)
    ∧ (len df ≤ len (table w))%nat
    ∧ "Date_dt" ∉ df_columns df.
Proof.
  destruct (get_date_range_data_rows_cases start_date end_date w)
    as (df & w' & Hget & [->|[Hrows Hcols]]).
  { exists DataFrame_empty, w'. split; [done|]. split_and!.
    - by intros r ?%elem_of_nil.
    - unfold len. cbn. lia.
    - by intros ?%elem_of_nil. }
  exists df, w'. split; [done|]. split_and!.
  - intros r Hr. rewrite Hrows, merge_sort_Permutation in Hr.
    apply list_elem_of_fmap in Hr as (r0 & -> & Hr0).
    apply list_elem_of_filter in Hr0 as [Hin Hr0].
    exists r0. split_and!; [done..|]. by apply Is_true_true.
  - unfold len. rewrite Hrows, merge_sort_Permutation, length_fmap.
    apply length_filter.
  - rewrite Hcols. intros [Hne _]%list_elem_of_filter. done.
Qed.

(** X14.  A range whose start is after its end, or one of whose bounds is
    NaT, gives no row, whatever the table holds. *)
Theorem get_date_range_data_empty_range start_date end_date w s e :
  to_datetime (Str start_date) = Return s →
  to_datetime (Str end_date) = Return e →
  timestamp_le s e = false →
  ∃ df w', get_date_range_data start_date end_date w = (Return df, w')
           ∧ df_rows df = [].
Proof.
  intros Hs He Hle.
  destruct (get_date_range_data_rows_cases start_date end_date w)
    as (df & w' & Hget & [->|[Hrows _]]); [by eexists _, _|].
  exists df, w'. split; [done|].
  destruct (df_rows df) as [|r rs]; [done|].
  assert (Hr : r ∈ r :: rs) by left.
  rewrite Hrows, merge_sort_Permutation in Hr.
  apply list_elem_of_fmap in Hr as (r0 & _ & Hr0).
  apply list_elem_of_filter in Hr0 as [Hr0 _]. apply Is_true_true in Hr0.
  unfold in_range in Hr0. rewrite Hs, He in Hr0.
  destruct (to_datetime (Date r0)) as [t|]; [|done].
  apply andb_true_iff in Hr0 as [H1 H2].
  unfold timestamp_le in *. destruct s, t, e; try done.
  apply Z.leb_le in H1, H2. apply Z.leb_gt in Hle. lia.
Qed.


(** ** The other statistics of the summary *)

Lemma Qc_of_Z_pos z : 0 < z → (0 < Qc_of_Z z)%Qc.
Proof.
  intros Hz. unfold Qclt, Qc_of_Z, Qlt. cbn.
  change (Qred 0) with 0%Q. cbn. lia.
Qed.

Lemma Qc_of_Z_le a b : a ≤ b → (Qc_of_Z a ≤ Qc_of_Z b)%Qc.
Proof. intros Hz. unfold Qcle, Qc_of_Z, Qle. cbn. lia. Qed.

Lemma Qc_of_nat_S n : Qc_of_nat (S n) = (Qc_of_nat n + 1)%Qc.
Proof.
  unfold Qc_of_nat. rewrite Nat2Z.inj_succ, <-Z.add_1_r, <-Qc_of_Z_plus.
  f_equal.
Qed.

Lemma Qc_of_nat_0 : Qc_of_nat 0 = 0%Qc.
Proof. by apply Qc_is_canon. Qed.

Lemma Qc_sum_bounds (lo hi : Qc) (vs : list Qc) :
  Forall (λ v, lo ≤ v ∧ v ≤ hi)%Qc vs →
  (lo * Qc_of_nat (length vs) ≤ Qc_sum vs
   ∧ Qc_sum vs ≤ hi * Qc_of_nat (length vs))%Qc.
Proof.
  induction 1 as [|v vs [Hlo Hhi] _ [IHlo IHhi]]; cbn [length Qc_sum foldr].
  - rewrite Qc_of_nat_0, !Qcmult_0_r. split; apply Qcle_refl.
  - rewrite Qc_of_nat_S. split.
    + replace (lo * (Qc_of_nat (length vs) + 1))%Qc
        with (lo + lo * Qc_of_nat (length vs))%Qc by ring.
      by apply Qcplus_le_compat.
    + replace (hi * (Qc_of_nat (length vs) + 1))%Qc
        with (hi + hi * Qc_of_nat (length vs))%Qc by ring.
      by apply Qcplus_le_compat.
Qed.

Lemma Qc_mean_bounds (lo hi : Qc) (vs : list Qc) :
  vs ≠ [] → Forall (λ v, lo ≤ v ∧ v ≤ hi)%Qc vs →
  (lo ≤ Qc_sum vs / Qc_of_nat (length vs)
   ∧ Qc_sum vs / Qc_of_nat (length vs) ≤ hi)%Qc.
Proof.
  intros Hne Hall. destruct (Qc_sum_bounds lo hi vs Hall) as [Hlo Hhi].
  assert (Hpos : (0 < Qc_of_nat (length vs))%Qc).
  { apply Qc_of_Z_pos. destruct vs; [done|]. cbn [length]. lia. }
  assert (Hnz : Qc_of_nat (length vs) ≠ 0%Qc).
  { intros Hz. rewrite Hz in Hpos. by apply Qclt_not_eq in Hpos. }
  assert (Hmul : (Qc_sum vs / Qc_of_nat (length vs) * Qc_of_nat (length vs))%Qc
                 = Qc_sum vs) by (by field).
  split; apply (Qcmult_lt_0_le_reg_r _ _ _ Hpos); by rewrite Hmul.
Qed.

Lemma mean_or_0_eq col df :
  mean_or_0 col df
  = match omap (λ r, nums r !! col) (df_rows df) with
    | [] => 0%Qc
    | vs => (Qc_sum vs / Qc_of_nat (length vs))%Qc
    end.
Proof.
  unfold mean_or_0, mean, column, isna_all.
  assert (Hmap : omap id ((λ r, nums r !! col) <$> df_rows df)
                 = omap (λ r, nums r !! col) (df_rows df)).
  { induction (df_rows df) as [|r rs IH]; [done|].
    rewrite fmap_cons. cbn [omap list_omap]. unfold id at 1.
    destruct (nums r !! col); by rewrite IH. }
  rewrite Hmap. clear Hmap.
  assert (Hall : forallb (λ r, bool_decide (nums r !! col = None)) (df_rows df)
                 = bool_decide (omap (λ r, nums r !! col) (df_rows df) = [])).
  { induction (df_rows df) as [|r rs IH]; [done|].
    cbn [forallb omap list_omap]. rewrite IH.
    destruct (nums r !! col) eqn:Hv.
    + rewrite (bool_decide_eq_false_2 (Some _ = None)) by done.
      by rewrite (bool_decide_eq_false_2 (_ :: _ = [])).
    + by rewrite (bool_decide_eq_true_2 (None = None)). }
  rewrite Hall. case_bool_decide as Hnil; cbn [negb].
  - by rewrite Hnil.
  - by destruct (omap _ (df_rows df)).
Qed.

(** X15.  Each average of the summary is the sum of the defined values of
    its column over their number, and 0 when the column has no defined
    value in the window; it lies between any two bounds of those values. *)
Theorem summary_averages df col (avg : stats → Qc) :
  (col, avg) ∈ [("Calories", avg_calories); ("Protein", avg_protein);
                ("Carbs", avg_carbs); ("Fat", avg_fat); ("Weight", avg_weight)] →
  let vs := omap (λ r, nums r !! col) (df_rows df) in
  avg (summary_of df)
  = match vs with
    | [] => 0%Qc
    | _ => (Qc_sum vs / Qc_of_nat (length vs))%Qc
    end
  ∧ ∀ lo hi, vs ≠ [] → Forall (λ v, lo ≤ v ∧ v ≤ hi)%Qc vs →
      (lo ≤ avg (summary_of df) ∧ avg (summary_of df) ≤ hi)%Qc.
Proof.
  intros Hin vs.
  assert (Havg : avg (summary_of df) = mean_or_0 col df).
  { repeat (apply elem_of_cons in Hin as [Hin|Hin]; [by simplify_eq|]).
    by apply elem_of_nil in Hin. }
  rewrite Havg, mean_or_0_eq. subst vs.
  destruct (omap _ (df_rows df)) as [|v vs']; (split; [done|]).
  - by intros.
  - intros lo hi _ Hall. by apply (Qc_mean_bounds lo hi (v :: vs')).
Qed.

Lemma Qc_of_nat_le n m : (n ≤ m)%nat → (Qc_of_nat n ≤ Qc_of_nat m)%Qc.
Proof. intros Hle. apply Qc_of_Z_le. lia. Qed.

(** X16.  The goal achievement rate of the summary is a percentage: it
    lies between 0 and 100, and it is 0 when no row of the window has both
    its calories and its calorie goal defined; the days with data are at
    most the rows of the window. *)
Theorem summary_rate_and_days df :
  (0 ≤ goal_achievement_rate (summary_of df)
   ∧ goal_achievement_rate (summary_of df) ≤ Qc_of_Z 100)%Qc
  ∧ (Forall (λ r, nums r !! "Calories" = None ∨ nums r !! "Calorie_Goal" = None)
            (df_rows df) →
     goal_achievement_rate (summary_of df) = 0%Qc)
  ∧ (days_with_data (summary_of df) ≤ len df)%nat.
Proof.
  unfold summary_of. cbn [goal_achievement_rate days_with_data].
  set (goal_data := dropna ["Calories"; "Calorie_Goal"] df).
  set (met := len (select _ goal_data)).
  assert (Hmet : (met ≤ len goal_data)%nat).
  { unfold met, len, select. cbn [df_rows]. apply length_filter. }
  split; [|split].
  - destruct (empty goal_data) eqn:Hempty; cbn [negb].
    { split; [apply Qcle_refl|]. by apply (Qc_of_Z_le 0 100). }
    assert (Hpos : (0 < Qc_of_nat (len goal_data))%Qc).
    { apply Qc_of_Z_pos. unfold empty, len in *.
      destruct (df_rows goal_data); [done|]. cbn [length]. lia. }
    assert (Hnz : Qc_of_nat (len goal_data) ≠ 0%Qc).
    { intros Hz. rewrite Hz in Hpos. by apply Qclt_not_eq in Hpos. }
    assert (H100 : (0 ≤ Qc_of_Z 100)%Qc) by (by apply (Qc_of_Z_le 0 100)).
    assert (Hq : (0 ≤ Qc_of_nat met / Qc_of_nat (len goal_data)
                  ∧ Qc_of_nat met / Qc_of_nat (len goal_data) ≤ 1)%Qc).
    { assert (Hmul : (Qc_of_nat met / Qc_of_nat (len goal_data)
                      * Qc_of_nat (len goal_data))%Qc = Qc_of_nat met)
        by (by field).
      split; apply (Qcmult_lt_0_le_reg_r _ _ _ Hpos); rewrite Hmul.
      - rewrite Qcmult_0_l. apply (Qc_of_nat_le 0). lia.
      - rewrite Qcmult_1_l. by apply Qc_of_nat_le. }
    destruct Hq as [Hq0 Hq1]. split.
    + rewrite <-(Qcmult_0_l (Qc_of_Z 100)). by apply Qcmult_le_compat_r.
    + rewrite <-(Qcmult_1_l (Qc_of_Z 100)) at 2. by apply Qcmult_le_compat_r.
  - intros Hnone.
    assert (Hrows : df_rows goal_data = []).
    { unfold goal_data, dropna, select. cbn [df_rows].
      apply filter_none. eapply Forall_impl; [exact Hnone|].
      intros r Hr Hall. cbn [forallb] in Hall.
      apply andb_prop_elim in Hall as [H1 Hall].
      apply andb_prop_elim in Hall as [H2 _].
      apply bool_decide_unpack in H1 as [c H1].
      apply bool_decide_unpack in H2 as [g H2].
      destruct Hr; congruence. }
    unfold empty. by rewrite Hrows.
  - unfold len, select. cbn [df_rows]. apply length_filter.
Qed.


(** ** The charts *)

Lemma nan_ltb_0_has_positive col r :
  Is_true (nan_ltb (Some 0%Qc) (nums r !! col)) ↔ has_positive col r.
Proof.
  unfold has_positive, nan_ltb, Qc_ltb. destruct (nums r !! col) as [v|].
  - rewrite bool_decide_spec. split; [by exists v|]. by intros (? & [= <-] & ?).
  - split; [done|]. by intros (? & [=] & _).
Qed.

Lemma filter_nan_ltb_0 col (rs : list row) :
  filter (λ r, nan_ltb (Some 0%Qc) (nums r !! col)) rs
  = filter (has_positive col) rs.
Proof. apply list_filter_iff. intros. apply nan_ltb_0_has_positive. Qed.

(** The window of a chart: [get_recent_data] returns, its frame has the
    shape of a range query, and every date in it is a Timestamp. *)
Lemma get_recent_data_window days w :
  ∃ df w1, get_recent_data days w = (Return df, w1)
    ∧ range_shape df
    ∧ Forall (λ r, ∃ t, to_datetime (Date r) = Return (Some t)) (df_rows df).
Proof.
  destruct (get_recent_data_shape days w) as (df & w1 & Hget & Hshape).
  exists df, w1. split; [done|]. split; [done|].
  revert Hget.
  unfold get_recent_data, try_except, mbind, Py_bind, lift, datetime_now_date.
  destruct (Calendar.date_minus_days (today w) (days - 1)) as [start|e];
    cbn [fst snd]; [|intros [= <- <-]; constructor].
  destruct (get_date_range_data_rows_cases (strftime_ymd start)
              (strftime_ymd (today w)) w)
    as (df' & w' & -> & Hcases).
  intros [= <- <-]. destruct Hcases as [->|[Hrows _]]; [constructor|].
  apply Forall_forall. intros r Hr.
  rewrite Hrows, merge_sort_Permutation in Hr.
  apply list_elem_of_fmap in Hr as (r0 & -> & Hr0).
  apply list_elem_of_filter in Hr0 as [Hin _].
  apply Is_true_true in Hin. unfold in_range in Hin. cbn [drop_Date_dt Date].
  destruct (to_datetime (Str _)) as [s|]; [|done].
  destruct (to_datetime (Date r0)) as [[t|]|]; [by exists t| |done].
  destruct (to_datetime (Str _)); [|done]. by destruct s.
Qed.

Lemma empty_select mask df :
  empty df = false →
  empty (select mask df) = bool_decide (filter (λ r, mask r) (df_rows df) = []).
Proof.
  unfold empty, select. cbn [df_rows df_columns].
  destruct (df_rows df) as [|r rs]; [done|].
  destruct (df_columns df); [done|]. intros _.
  by destruct (filter _ (r :: rs)).
Qed.

(** The dates of rows of the window parse, none to NaT. *)
Lemma outcome_map_window_dates (rs : list row) :
  Forall (λ r, ∃ t, to_datetime (Date r) = Return (Some t)) rs →
  ∃ ts, outcome_map to_datetime (Date <$> rs) = Return (Some <$> ts)
        ∧ Forall2 (λ r t, to_datetime (Date r) = Return (Some t)) rs ts.
Proof.
  induction 1 as [|r rs [t Ht] _ (ts & IH & IH2)].
  - by exists [].
  - exists (t :: ts). cbn [fmap list_fmap outcome_map].
    split; [|by constructor].
    change (list_fmap row cell Date rs) with (Date <$> rs).
    rewrite Ht, IH. done.
Qed.

Lemma Forall_filter_window {A} (P : A → Prop) (Q : A → Prop)
    `{!∀ x, Decision (Q x)} (l : list A) :
  Forall P l → Forall P (filter Q l).
Proof.
  intros Hall. apply Forall_forall. intros x [_ Hx]%list_elem_of_filter.
  by apply (proj1 (Forall_forall _ _) Hall).
Qed.

(** The values of a column among the rows where it is positive. *)
Lemma column_has_positive col (rs : list row) :
  (λ r, nums r !! col) <$> filter (has_positive col) rs
  = Some <$> values_of col (filter (has_positive col) rs).
Proof.
  unfold values_of. induction rs as [|r rs IH]; [done|].
  rewrite filter_cons. destruct (decide (has_positive col r)) as [(v & Hv & _)|]; [|done].
  cbn [fmap list_fmap omap list_omap]. rewrite Hv. cbn. f_equal. apply IH.
Qed.

Lemma values_of_has_positive col (rs : list row) :
  Forall (λ v, 0 < v)%Qc (values_of col (filter (has_positive col) rs))
  ∧ length (values_of col (filter (has_positive col) rs))
    = length (filter (has_positive col) rs).
Proof.
  unfold values_of. induction rs as [|r rs [IH1 IH2]]; [by split|].
  rewrite filter_cons. destruct (decide (has_positive col r)) as [(v & Hv & Hpos)|]; [|done].
  cbn [omap list_omap]. rewrite Hv. cbn. split; [by constructor|]. by rewrite IH2.
Qed.

Lemma mean_Some (vs : list Qc) :
  vs ≠ [] → mean (Some <$> vs) = Some (Qc_sum vs / Qc_of_nat (length vs))%Qc.
Proof.
  intros Hne. unfold mean.
  assert (Hid : omap id (Some <$> vs) = vs).
  { clear Hne. induction vs as [|v vs IH]; [done|]. cbn. by rewrite IH. }
  rewrite Hid. by destruct vs.
Qed.

Lemma Qc_sum_nonneg (vs : list Qc) :
  Forall (λ v, 0 ≤ v)%Qc vs → (0 ≤ Qc_sum vs)%Qc.
Proof.
  induction 1 as [|v vs Hv _ IH]; [done|]. cbn [Qc_sum foldr].
  rewrite <-(Qcplus_0_l 0). by apply Qcplus_le_compat.
Qed.

Lemma Qc_sum_pos (vs : list Qc) :
  vs ≠ [] → Forall (λ v, 0 < v)%Qc vs → (0 < Qc_sum vs)%Qc.
Proof.
  intros Hne Hall. destruct Hall as [|v vs Hv Hall]; [done|].
  cbn [Qc_sum foldr]. apply (Qclt_le_trans _ (v + 0)%Qc).
  - by rewrite Qcplus_0_r.
  - apply Qcplus_le_compat; [apply Qcle_refl|]. apply Qc_sum_nonneg.
    eapply Forall_impl; [exact Hall|]. intros. by apply Qclt_le_weak.
Qed.

Lemma Qc_mean_pos (vs : list Qc) :
  vs ≠ [] → Forall (λ v, 0 < v)%Qc vs →
  (0 < Qc_sum vs / Qc_of_nat (length vs))%Qc.
Proof.
  intros Hne Hall. pose proof (Qc_sum_pos vs Hne Hall) as Hsum.
  assert (Hpos : (0 < Qc_of_nat (length vs))%Qc).
  { apply Qc_of_Z_pos. destruct vs; [done|]. cbn [length]. lia. }
  assert (Hnz : Qc_of_nat (length vs) ≠ 0%Qc).
  { intros Hz. rewrite Hz in Hpos. by apply Qclt_not_eq in Hpos. }
  assert (Hmul : (Qc_sum vs / Qc_of_nat (length vs) * Qc_of_nat (length vs))%Qc
                 = Qc_sum vs) by (by field).
  apply Qcnot_le_lt. intros Hle.
  apply (Qcmult_le_compat_r _ _ (Qc_of_nat (length vs))) in Hle;
    [|by apply Qclt_le_weak].
  rewrite Hmul, Qcmult_0_l in Hle. by apply Qcle_not_lt in Hle.
Qed.

Lemma Qclt_asym (x y : Qc) : (x < y)%Qc → (y < x)%Qc → False.
Proof.
  intros H1 H2. by apply (Qclt_not_eq x x); [apply (Qclt_trans _ y)|].
Qed.

Lemma calorie_colour_spec (v : Qc) :
  (calorie_colour (Some v) = Red ↔ (v < Qc_of_Z 1200)%Qc)
  ∧ (calorie_colour (Some v) = Orange ↔ (Qc_of_Z 2500 < v)%Qc)
  ∧ (calorie_colour (Some v) = Green
     ↔ (Qc_of_Z 1200 ≤ v ∧ v ≤ Qc_of_Z 2500)%Qc).
Proof.
  assert (H12 : (Qc_of_Z 1200 < Qc_of_Z 2500)%Qc) by done.
  unfold calorie_colour, nan_ltb, Qc_ltb.
  destruct (decide (v < Qc_of_Z 1200)%Qc) as [Hlo|Hlo].
  - rewrite bool_decide_eq_true_2 by done. split_and!; split; try done.
    + intros Hhi. exfalso. apply (Qclt_asym v (Qc_of_Z 2500)); [|done].
      by apply (Qclt_trans _ (Qc_of_Z 1200)).
    + intros [Hge _]. exfalso. by apply Qcle_not_lt in Hge.
  - rewrite bool_decide_eq_false_2 by done.
    apply Qcnot_lt_le in Hlo.
    destruct (decide (Qc_of_Z 2500 < v)%Qc) as [Hhi|Hhi].
    + rewrite bool_decide_eq_true_2 by done. split_and!; split; try done.
      * intros Hlt. exfalso. by apply Qcle_not_lt in Hlo.
      * intros [_ Hle]. exfalso. by apply Qcle_not_lt in Hle.
    + rewrite bool_decide_eq_false_2 by done.
      apply Qcnot_lt_le in Hhi. split_and!; split; try done.
      * intros Hlt. exfalso. by apply Qcle_not_lt in Hlo.
      * intros Hlt. exfalso. by apply Qcle_not_lt in Hhi.
Qed.

(** X17.  The calorie chart: it is absent exactly when no row of the
    window has positive calories, and making it never fails.  Otherwise
    it has one bar for each row with positive calories, in the order of
    the window, at the Timestamp of the row's date; a bar is red below
    1200, orange above 2500 and green from 1200 to 2500; the average line
    is at the sum of the bars over their number, which is positive and
    lies between any two bounds of the bars. *)
Theorem create_calorie_chart_spec days w :
  ∃ df w1 chart,
    get_recent_data days w = (Return df, w1)
    ∧ create_calorie_chart days w = (Return chart, w1)
    ∧ let rs := filter (has_positive "Calories") (df_rows df) in
      let vs := values_of "Calories" rs in
      (chart = None ↔ rs = [])
      ∧ ∀ c, chart = Some c →
          Forall2 (λ r t, to_datetime (Date r) = Return t) rs (calorie_dates c)
          ∧ Forall is_Some (calorie_dates c)
          ∧ calorie_values c = Some <$> vs
          ∧ length vs = length rs
          ∧ Forall2 (λ v col,
                (col = Red ↔ v < Qc_of_Z 1200)
                ∧ (col = Orange ↔ Qc_of_Z 2500 < v)
                ∧ (col = Green ↔ Qc_of_Z 1200 ≤ v ∧ v ≤ Qc_of_Z 2500))%Qc
              vs (calorie_colours c)
          ∧ ∃ avg, calorie_average c = Some avg
              ∧ (avg * Qc_of_nat (length vs) = Qc_sum vs)%Qc
              ∧ (0 < avg)%Qc
              ∧ ∀ lo hi, Forall (λ v, lo ≤ v ∧ v ≤ hi)%Qc vs →
                  (lo ≤ avg ∧ avg ≤ hi)%Qc.
Proof.
  destruct (get_recent_data_window days w) as (df & w1 & Hget & Hshape & Hparse).
  exists df, w1.
  unfold create_calorie_chart, try_except, mbind, Py_bind. rewrite Hget.
  destruct (empty df) eqn:Hempty.
  { apply (range_shape_empty df Hshape) in Hempty. rewrite Hempty.
    exists None. by split_and!. }
  rewrite (empty_select _ df Hempty).
  unfold select, column, lift. cbn [df_rows]. rewrite !filter_nan_ltb_0.
  set (rs := filter (has_positive "Calories") (df_rows df)).
  case_bool_decide as Hrs.
  { exists None. by split_and!. }
  destruct (outcome_map_window_dates rs) as (ts & -> & Hts).
  { by apply Forall_filter_window. }
  eexists. split; [reflexivity|]. split; [reflexivity|]. cbv zeta.
  split; [done|].
  intros c [= <-]. cbn [calorie_dates calorie_values calorie_colours calorie_average].
  destruct (values_of_has_positive "Calories" (df_rows df)) as [Hpos Hlen].
  fold rs in Hpos, Hlen.
  assert (Hcol : (λ r, nums r !! "Calories") <$> rs
                 = Some <$> values_of "Calories" rs)
    by apply column_has_positive.
  rewrite Hcol.
  assert (Hvs : values_of "Calories" rs ≠ []).
  { intros Hnil. rewrite Hnil in Hlen. by destruct rs. }
  split_and!.
  - apply Forall2_fmap_r. by eapply Forall2_impl; [exact Hts|].
  - apply Forall_fmap, Forall_true. by eexists.
  - done.
  - done.
  - rewrite <-list_fmap_compose. apply Forall2_fmap_r, Forall_Forall2_diag.
    apply Forall_true. intros v. apply calorie_colour_spec.
  - rewrite mean_Some by done. eexists. split; [reflexivity|].
    assert (Hn : (0 < Qc_of_nat (length (values_of "Calories" rs)))%Qc).
    { apply Qc_of_Z_pos. destruct (values_of "Calories" rs); [done|]. cbn. lia. }
    assert (Hnz : Qc_of_nat (length (values_of "Calories" rs)) ≠ 0%Qc).
    { intros Hz. rewrite Hz in Hn. by apply Qclt_not_eq in Hn. }
    split_and!.
    + by field.
    + by apply Qc_mean_pos.
    + intros lo hi Hall. by apply Qc_mean_bounds.
Qed.

Lemma Qc_percentage_bounds (met n : nat) :
  (met ≤ n)%nat → (0 < n)%nat →
  (0 ≤ Qc_of_nat met / Qc_of_nat n * Qc_of_Z 100
   ∧ Qc_of_nat met / Qc_of_nat n * Qc_of_Z 100 ≤ Qc_of_Z 100)%Qc.
Proof.
  intros Hmet Hn.
  assert (Hpos : (0 < Qc_of_nat n)%Qc) by (apply Qc_of_Z_pos; lia).
  assert (Hnz : Qc_of_nat n ≠ 0%Qc).
  { intros Hz. rewrite Hz in Hpos. by apply Qclt_not_eq in Hpos. }
  assert (H100 : (0 ≤ Qc_of_Z 100)%Qc) by (by apply (Qc_of_Z_le 0 100)).
  assert (Hmul : (Qc_of_nat met / Qc_of_nat n * Qc_of_nat n)%Qc = Qc_of_nat met)
    by (by field).
  assert (Hq0 : (0 ≤ Qc_of_nat met / Qc_of_nat n)%Qc).
  { apply (Qcmult_lt_0_le_reg_r _ _ _ Hpos). rewrite Hmul, Qcmult_0_l.
    apply (Qc_of_nat_le 0). lia. }
  assert (Hq1 : (Qc_of_nat met / Qc_of_nat n ≤ 1)%Qc).
  { apply (Qcmult_lt_0_le_reg_r _ _ _ Hpos). rewrite Hmul, Qcmult_1_l.
    by apply Qc_of_nat_le. }
  split.
  - rewrite <-(Qcmult_0_l (Qc_of_Z 100)). by apply Qcmult_le_compat_r.
  - rewrite <-(Qcmult_1_l (Qc_of_Z 100)) at 2. by apply Qcmult_le_compat_r.
Qed.

(** The mean of a Series of booleans: the share of True. *)
Lemma mean_indicator (bs : list bool) :
  bs ≠ [] →
  mean ((λ b : bool, Some (if b then 1 else 0)%Qc) <$> bs)
  = Some (Qc_of_nat (length (filter Is_true bs)) / Qc_of_nat (length bs))%Qc.
Proof.
  intros Hne. unfold mean.
  assert (Hid : omap id ((λ b : bool, Some (if b then 1 else 0)%Qc) <$> bs)
                = (λ b : bool, if b then 1 else 0)%Qc <$> bs).
  { clear Hne. induction bs as [|b bs IH]; [done|]. cbn. by rewrite <-IH. }
  rewrite Hid. clear Hid.
  assert (Hsum : Qc_sum ((λ b : bool, if b then 1 else 0)%Qc <$> bs)
                 = Qc_of_nat (length (filter Is_true bs))).
  { clear Hne. induction bs as [|b bs IH]; [exact (eq_sym Qc_of_nat_0)|].
    rewrite fmap_cons, filter_cons. cbn [Qc_sum foldr].
    fold (Qc_sum ((λ b : bool, if b then 1 else 0)%Qc <$> bs)). rewrite IH.
    destruct b; cbn [decide_rel].
    - destruct (decide (Is_true true)) as [_|[]]; [|done].
      cbn [length]. rewrite Qc_of_nat_S. ring.
    - destruct (decide (Is_true false)) as [[]|_]. ring. }
  assert (Hlen : length ((λ b : bool, if b then 1 else 0)%Qc <$> bs) = length bs)
    by apply length_fmap.
  revert Hsum Hlen. generalize ((λ b : bool, if b then 1 else 0)%Qc <$> bs).
  intros l Hsum Hlen. destruct l as [|x l]; [by destruct bs|].
  by rewrite <-Hsum, <-Hlen.
Qed.

Lemma goal_chart_rows df :
  filter (λ r, nan_ltb (Some 0%Qc) (nums r !! "Calories")
               && nan_ltb (Some 0%Qc) (nums r !! "Calorie_Goal"))
         (df_rows (dropna ["Calories"; "Calorie_Goal"] df))
  = filter (λ r, has_positive "Calories" r ∧ has_positive "Calorie_Goal" r)
           (df_rows df).
Proof.
  unfold dropna, select. cbn [df_rows]. rewrite list_filter_filter.
  apply list_filter_iff. intros r.
  rewrite andb_True, !nan_ltb_0_has_positive. split; [by intros [? _]|].
  intros [H1 H2]. split; [done|]. cbn [forallb].
  destruct H1 as (a & Ha & _), H2 as (g & Hg & _).
  rewrite !bool_decide_eq_true_2 by eauto. done.
Qed.

Lemma count_green (bs : list bool) :
  length (filter (λ cc : colour * colour, cc.1 = Green)
            ((λ b : bool, (if b then Green else Red, Blue)) <$> bs))
  = length (filter Is_true bs).
Proof.
  induction bs as [|b bs IH]; [done|].
  rewrite fmap_cons, !filter_cons. destruct b; cbn [fst].
  - destruct (decide (Green = Green)); [|done].
    destruct (decide (Is_true true)) as [_|[]]; [|done]. cbn [length].
    by rewrite IH.
  - destruct (decide (Red = Green)); [done|].
    by destruct (decide (Is_true false)) as [[]|_].
Qed.

(** X18.  The goal comparison chart: it is absent exactly when no row of
    the window has both positive calories and a positive calorie goal, and
    making it never fails.  Otherwise it has one pair of bars for each
    such row, labelled with month/day of the row's date; the goal bar is
    blue, the actual bar is green when the calories reach the goal and red
    when they do not; the rate written is the percentage of green bars,
    between 0 and 100. *)
Theorem create_goal_comparison_chart_spec days w :
  ∃ df w1 chart,
    get_recent_data days w = (Return df, w1)
    ∧ create_goal_comparison_chart days w = (Return chart, w1)
    ∧ let rs := filter (λ r, has_positive "Calories" r
                             ∧ has_positive "Calorie_Goal" r) (df_rows df) in
      (chart = None ↔ rs = [])
      ∧ ∀ c, chart = Some c →
          Forall2 (λ r label, ∃ t, to_datetime (Date r) = Return (Some t)
                                   ∧ label = Calendar.strftime_md t)
                  rs (goal_labels c)
          ∧ goal_actual c = (λ r, nums r !! "Calories") <$> rs
          ∧ goal_goals c = (λ r, nums r !! "Calorie_Goal") <$> rs
          ∧ Forall2 (λ r cc, ∃ a g,
                nums r !! "Calories" = Some a
                ∧ nums r !! "Calorie_Goal" = Some g
                ∧ (cc.1 = Green ↔ g ≤ a)%Qc
                ∧ (cc.1 = Red ↔ a < g)%Qc
                ∧ cc.2 = Blue)
              rs (goal_colours c)
          ∧ ∃ rate, goal_success_rate c = Some rate
              ∧ (rate * Qc_of_nat (length rs)
                 = Qc_of_Z 100
                   * Qc_of_nat (length (filter (λ cc, cc.1 = Green)
                                               (goal_colours c))))%Qc
              ∧ (0 ≤ rate ∧ rate ≤ Qc_of_Z 100)%Qc.
Proof.
  destruct (get_recent_data_window days w) as (df & w1 & Hget & Hshape & Hparse).
  exists df, w1.
  unfold create_goal_comparison_chart, try_except, mbind, Py_bind. rewrite Hget.
  destruct (empty df) eqn:Hempty.
  { apply (range_shape_empty df Hshape) in Hempty. rewrite Hempty.
    exists None. by split_and!. }
  assert (Hempty' : empty (dropna ["Calories"; "Calorie_Goal"] df) = false
                    ∨ df_rows (dropna ["Calories"; "Calorie_Goal"] df) = []).
  { unfold empty, dropna, select in *. cbn [df_rows df_columns].
    destruct (filter _ (df_rows df)); [by right|]. left.
    destruct (df_rows df); [done|]. by destruct (df_columns df). }
  set (rs := filter (λ r, has_positive "Calories" r
                          ∧ has_positive "Calorie_Goal" r) (df_rows df)).
  assert (Hsel : df_rows (select (λ r, nan_ltb (Some 0%Qc) (nums r !! "Calories")
                    && nan_ltb (Some 0%Qc) (nums r !! "Calorie_Goal"))
                    (dropna ["Calories"; "Calorie_Goal"] df)) = rs).
  { apply goal_chart_rows. }
  assert (He : empty (select (λ r, nan_ltb (Some 0%Qc) (nums r !! "Calories")
                    && nan_ltb (Some 0%Qc) (nums r !! "Calorie_Goal"))
                    (dropna ["Calories"; "Calorie_Goal"] df))
               = bool_decide (rs = [])).
  { destruct Hempty' as [Hne|Hnil].
    - rewrite (empty_select _ _ Hne). by rewrite <-Hsel.
    - unfold empty at 1. rewrite Hsel. unfold rs at 1.
      rewrite <-goal_chart_rows, Hnil. cbn.
      rewrite <-Hsel. unfold select. cbn [df_rows]. by rewrite Hnil. }
  rewrite He. unfold column, lift. rewrite Hsel.
  case_bool_decide as Hrs.
  { exists None. by split_and!. }
  destruct (outcome_map_window_dates rs) as (ts & -> & Hts).
  { by apply Forall_filter_window. }
  assert (Hlabels : outcome_map strftime_label (Some <$> ts)
                    = Return (Calendar.strftime_md <$> ts)).
  { clear. induction ts as [|t ts IH]; [done|].
    cbn [fmap list_fmap outcome_map strftime_label outcome_bind].
    change (list_fmap Z (option Z) Some ts) with (Some <$> ts). by rewrite IH. }
  rewrite Hlabels.
  rewrite zip_with_fmap_l, zip_with_fmap_r, zip_with_diag.
  set (met := (λ r, nan_leb (nums r !! "Calorie_Goal") (nums r !! "Calories")) <$> rs).
  eexists. split; [reflexivity|]. split; [reflexivity|]. cbv zeta.
  split; [done|].
  intros c [= <-].
  cbn [goal_labels goal_actual goal_goals goal_colours goal_success_rate].
  split_and!; [| done | done | |].
  - apply Forall2_fmap_r. eapply Forall2_impl; [exact Hts|].
    intros r t Ht. by exists t.
  - unfold met. rewrite <-list_fmap_compose.
    apply Forall2_fmap_r, Forall_Forall2_diag, Forall_forall.
    intros r [[(a & Ha & _) (g & Hg & _)] _]%list_elem_of_filter.
    exists a, g. cbn. rewrite Ha, Hg. unfold nan_leb, Qc_leb.
    destruct (decide (g ≤ a)%Qc) as [Hle|Hle];
      [rewrite bool_decide_eq_true_2 by done
      |rewrite bool_decide_eq_false_2 by done];
      (split_and!; [done..| | |done]); split; try done.
    + intros Hlt. by apply Qcle_not_lt in Hle.
    + intros _. by apply Qcnot_le_lt.
  - assert (Hmet : met ≠ []).
    { unfold met. by destruct rs. }
    rewrite (mean_indicator met Hmet). cbn [fmap option_fmap option_map].
    eexists. split; [reflexivity|].
    rewrite count_green.
    assert (Hlen : length met = length rs) by apply length_fmap.
    rewrite Hlen.
    assert (Hn : (0 < length rs)%nat).
    { destruct rs; [done|]. cbn. lia. }
    assert (Hpos : (0 < Qc_of_nat (length rs))%Qc) by (apply Qc_of_Z_pos; lia).
    assert (Hnz : Qc_of_nat (length rs) ≠ 0%Qc).
    { intros Hz. rewrite Hz in Hpos. by apply Qclt_not_eq in Hpos. }
    split; [by field|].
    apply Qc_percentage_bounds; [|done].
    rewrite <-Hlen. apply length_filter.
Qed.

Lemma series_sum_column col df :
  series_sum (column col df) = Qc_sum (values_of col (df_rows df)).
Proof.
  unfold series_sum, column, values_of. f_equal.
  induction (df_rows df) as [|r rs IH]; [done|].
  rewrite fmap_cons. cbn [omap list_omap]. unfold id at 1.
  destruct (nums r !! col); by rewrite IH.
Qed.

Lemma ax_pie_spec (p c f : Qc) :
  (ax_pie [p; c; f] = Return () ∧ (0 ≤ p ∧ 0 ≤ c ∧ 0 ≤ f)%Qc)
  ∨ (ax_pie [p; c; f] = Raise "Wedge sizes 'x' must be non negative values"
     ∧ (p < 0 ∨ c < 0 ∨ f < 0)%Qc).
Proof.
  unfold ax_pie, Qc_ltb. cbn [existsb].
  destruct (decide (p < 0)%Qc) as [Hp|Hp];
    [rewrite (bool_decide_eq_true_2 _ Hp); right; by eauto|].
  rewrite (bool_decide_eq_false_2 _ Hp).
  destruct (decide (c < 0)%Qc) as [Hc|Hc];
    [rewrite (bool_decide_eq_true_2 _ Hc); right; by eauto|].
  rewrite (bool_decide_eq_false_2 _ Hc).
  destruct (decide (f < 0)%Qc) as [Hf|Hf];
    [rewrite (bool_decide_eq_true_2 _ Hf); right; by eauto|].
  rewrite (bool_decide_eq_false_2 _ Hf).
  left. split; [done|]. by split_and!; apply Qcnot_lt_le.
Qed.

Lemma Qc_sum_zero (vs : list Qc) : Forall (λ v, v = 0%Qc) vs → Qc_sum vs = 0%Qc.
Proof.
  induction 1 as [|v vs -> _ IH]; [done|]. cbn [Qc_sum foldr].
  fold (Qc_sum vs). rewrite IH. ring.
Qed.

(** X19.  The macro pie chart is absent exactly when the window has no
    row, or the totals of protein, carbohydrates and fat sum to zero, or
    one of the three totals is negative; in the last case, when the sum is
    not zero, drawing the pie fails and the error is logged.  When a
    figure is returned its wedges are the three totals, none negative,
    with a positive sum, and nothing is logged.  A window where every
    macro of every row is zero or missing gives no figure. *)
Theorem create_macro_pie_chart_spec days w :
  ∃ df w1 chart w2,
    get_recent_data days w = (Return df, w1)
    ∧ create_macro_pie_chart days w = (Return chart, w2)
    ∧ let p := Qc_sum (values_of "Protein" (df_rows df)) in
      let c := Qc_sum (values_of "Carbs" (df_rows df)) in
      let f := Qc_sum (values_of "Fat" (df_rows df)) in
      (chart = None
       ↔ df_rows df = [] ∨ (p + c + f)%Qc = 0%Qc ∨ (p < 0 ∨ c < 0 ∨ f < 0)%Qc)
      ∧ (∀ sizes, chart = Some sizes →
           sizes = [p; c; f] ∧ Forall (λ x, 0 ≤ x)%Qc sizes
           ∧ (0 < Qc_sum sizes)%Qc ∧ w2 = w1)
      ∧ (df_rows df ≠ [] → (p + c + f)%Qc ≠ 0%Qc →
         (p < 0 ∨ c < 0 ∨ f < 0)%Qc →
         w2 = logged ERROR
                ("Failed to create macro pie chart: "
                 +:+ "Wedge sizes 'x' must be non negative values") w1)
      ∧ (Forall (λ r, ∀ col v, col ∈ ["Protein"; "Carbs"; "Fat"] →
                      nums r !! col = Some v → v = 0%Qc) (df_rows df) →
         chart = None ∧ w2 = w1).
Proof.
  destruct (get_recent_data_window days w) as (df & w1 & Hget & Hshape & _).
  exists df, w1.
  unfold create_macro_pie_chart, try_except, mbind, Py_bind. rewrite Hget.
  rewrite !series_sum_column.
  set (p := Qc_sum (values_of "Protein" (df_rows df))).
  set (c := Qc_sum (values_of "Carbs" (df_rows df))).
  set (f := Qc_sum (values_of "Fat" (df_rows df))).
  assert (Hzero : Forall (λ r, ∀ col v, col ∈ ["Protein"; "Carbs"; "Fat"] →
                      nums r !! col = Some v → v = 0%Qc) (df_rows df) →
                  (p + c + f)%Qc = 0%Qc).
  { intros Hall.
    assert (Hcol : ∀ col, col ∈ ["Protein"; "Carbs"; "Fat"] →
                     Qc_sum (values_of col (df_rows df)) = 0%Qc).
    { intros col Hcol. apply Qc_sum_zero, Forall_forall. intros v Hv.
      apply list_elem_of_omap in Hv as (r & Hr & Hv).
      by apply (proj1 (Forall_forall _ _) Hall r Hr col v). }
    unfold p, c, f. rewrite !Hcol by (repeat constructor). ring. }
  destruct (empty df) eqn:Hempty.
  { apply (range_shape_empty df Hshape) in Hempty.
    exists None, w1. split; [done|]. split; [done|]. cbv zeta.
    split_and!; [split; [by left|done]|done|done|done]. }
  assert (Hrows : df_rows df ≠ []).
  { intros Hnil. apply (range_shape_empty df Hshape) in Hnil. congruence. }
  case_bool_decide as Hsum.
  { exists None, w1. split; [done|]. split; [done|]. cbv zeta.
    split_and!; [split; [by right; left|done]|done|done|done]. }
  unfold lift. destruct (ax_pie_spec p c f) as [[-> (Hp & Hc & Hf)]|[-> Hneg]].
  - exists (Some [p; c; f]), w1. split; [done|]. split; [done|]. cbv zeta.
    split_and!.
    + split; [done|]. intros [?|[?|[H|[H|H]]]]; [done|done| | |].
      * by apply Qcle_not_lt in Hp.
      * by apply Qcle_not_lt in Hc.
      * by apply Qcle_not_lt in Hf.
    + intros sizes [= <-]. split_and!; [done|by repeat constructor| |done].
      cbn [Qc_sum foldr]. rewrite Qcplus_0_r, Qcplus_assoc.
      destruct (Qcle_lt_or_eq 0 (p + c + f))%Qc as [Hlt|Heq]; [|done|].
      * rewrite <-(Qcplus_0_l 0). apply Qcplus_le_compat; [|done].
        rewrite <-(Qcplus_0_l 0). by apply Qcplus_le_compat.
      * by destruct Hsum.
    + intros _ _ [H|[H|H]].
      * by apply Qcle_not_lt in Hp.
      * by apply Qcle_not_lt in Hc.
      * by apply Qcle_not_lt in Hf.
    + intros Hall. by destruct Hsum; apply Hzero.
  - eexists None, _. split; [reflexivity|]. split; [reflexivity|]. cbv zeta.
    split_and!.
    + split; [by right; right|done].
    + done.
    + done.
    + intros Hall. by destruct Hsum; apply Hzero.
Qed.

Lemma Qc_of_nat_pos n : (0 < n)%nat → (0 < Qc_of_nat n)%Qc.
Proof. intros Hn. apply Qc_of_Z_pos. lia. Qed.

Lemma Qc_of_nat_nonzero n : (0 < n)%nat → Qc_of_nat n ≠ 0%Qc.
Proof.
  intros Hn Hz. pose proof (Qc_of_nat_pos n Hn) as Hpos.
  rewrite Hz in Hpos. by apply Qclt_not_eq in Hpos.
Qed.

Lemma Qc_sum_poly1d (z : Qc * Qc) (x : list Qc) :
  Qc_sum (poly1d z <$> x) = (z.1 * Qc_sum x + Qc_of_nat (length x) * z.2)%Qc.
Proof.
  induction x as [|x0 x IH].
  - cbn. rewrite Qc_of_nat_0. ring.
  - rewrite fmap_cons. cbn [Qc_sum foldr length].
    fold (Qc_sum (poly1d z <$> x)). fold (Qc_sum x).
    rewrite IH, Qc_of_nat_S. unfold poly1d. ring.
Qed.

Lemma Qc_sum_zip_with_const (v : Qc) (x y : list Qc) :
  length x = length y → Forall (λ y0, y0 = v) y →
  Qc_sum (zip_with Qcmult x y) = (v * Qc_sum x)%Qc
  ∧ Qc_sum y = (Qc_of_nat (length x) * v)%Qc.
Proof.
  intros Hlen Hall. revert x Hlen.
  induction Hall as [|y0 y -> _ IH]; intros [|x0 x] Hlen; try done.
  - cbn. rewrite Qc_of_nat_0. split; ring.
  - injection Hlen as Hlen. destruct (IH x Hlen) as [IH1 IH2].
    cbn [zip_with Qc_sum foldr length].
    fold (Qc_sum (zip_with Qcmult x y)). fold (Qc_sum x). fold (Qc_sum y).
    rewrite IH1, IH2, Qc_of_nat_S. split; ring.
Qed.

Lemma dropna_Weight_rows df :
  df_rows (dropna ["Weight"] df)
  = filter (λ r, is_Some (nums r !! "Weight")) (df_rows df).
Proof.
  unfold dropna, select. cbn [df_rows forallb]. apply list_filter_iff.
  intros r. rewrite andb_true_r. apply bool_decide_spec.
Qed.

Lemma length_weights df :
  length (weights df)
  = length (filter (λ r, is_Some (nums r !! "Weight")) (df_rows df)).
Proof.
  rewrite <-dropna_Weight_rows.
  rewrite <-(length_fmap Some (weights df)), <-dropna_Weight_weights.
  apply length_fmap.
Qed.

(** X20.  The weight chart: it is absent exactly when no row of the
    window has a weight, and making it never fails.  Otherwise its line
    has one point for each row with a weight, in the order of the window,
    at the Timestamp of the row's date.  The trend line is drawn exactly
    when there are at least three points; it has one value per point, its
    values are those of the line that [np.polyfit] fits over the positions
    0, 1, 2, ..., they sum to the sum of the weights, and when all the
    weights are equal the trend is that constant. *)
Theorem create_weight_chart_spec days w :
  ∃ df w1 chart,
    get_recent_data days w = (Return df, w1)
    ∧ create_weight_chart days w = (Return chart, w1)
    ∧ let rs := filter (λ r, is_Some (nums r !! "Weight")) (df_rows df) in
      let vs := weights df in
      (chart = None ↔ vs = [])
      ∧ ∀ c, chart = Some c →
          Forall2 (λ r t, to_datetime (Date r) = Return t) rs (weight_dates c)
          ∧ Forall is_Some (weight_dates c)
          ∧ weight_values c = Some <$> vs
          ∧ (weight_trend c = None ↔ (length vs < 3)%nat)
          ∧ ∀ trend, weight_trend c = Some trend →
              length trend = length vs
              ∧ (∃ z, polyfit_1 (arange (length vs)) (Some <$> vs) = Return z
                      ∧ ∀ i y, trend !! i = Some y →
                               y = (z.1 * Qc_of_nat i + z.2)%Qc)
              ∧ Qc_sum trend = Qc_sum vs
              ∧ ∀ v, Forall (λ x, x = v) vs → Forall (λ y, y = v) trend.
Proof.
  destruct (get_recent_data_window days w) as (df & w1 & Hget & Hshape & Hparse).
  exists df, w1. cbv zeta.
  pose proof (length_weights df) as Hlen. revert Hlen.
  rewrite <-dropna_Weight_rows. intros Hlen.
  unfold create_weight_chart, try_except, mbind, Py_bind. rewrite Hget.
  destruct (empty df) eqn:Hempty.
  { apply (range_shape_empty df Hshape) in Hempty.
    exists None. split; [done|]. split; [done|].
    unfold weights. rewrite Hempty. by split. }
  unfold dropna at 1. rewrite (empty_select _ df Hempty).
  fold (dropna ["Weight"] df).
  change (filter _ (df_rows df)) with (df_rows (dropna ["Weight"] df)) at 1.
  unfold column, lift, len. rewrite dropna_Weight_weights.
  assert (Hparse' : Forall (λ r, ∃ t, to_datetime (Date r) = Return (Some t))
                      (df_rows (dropna ["Weight"] df))).
  { rewrite dropna_Weight_rows. by apply Forall_filter_window. }
  set (rs := df_rows (dropna ["Weight"] df)) in *.
  set (vs := weights df) in *.
  case_bool_decide as Hrs.
  { exists None. split; [done|]. split; [done|]. 
    rewrite Hrs in Hlen. split; [|done]. split; [|done]. intros _.
    by destruct vs. }
  assert (Hvs : vs ≠ []).
  { intros Hnil. rewrite Hnil in Hlen. by destruct rs. }
  destruct (outcome_map_window_dates rs Hparse') as (ts & -> & Hts).
  assert (Hlts : length ts = length vs).
  { rewrite Hlen. symmetry. by eapply Forall2_length. }
  rewrite length_fmap, Hlts, <-Hlen.
  unfold polyfit_1. rewrite (mapM_fmap_Some id Some vs) by done.
  set (x := arange (length vs)).
  assert (Hx : length x = length vs).
  { unfold x, arange. by rewrite length_fmap, length_seq. }
  set (slope := (_ / (_ - _))%Qc).
  set (z := (_, _) : Qc * Qc).
  assert (Hdates : Forall2 (λ r t, to_datetime (Date r) = Return t) rs (Some <$> ts)
                   ∧ Forall is_Some (Some <$> ts)).
  { split.
    - apply Forall2_fmap_r. by eapply Forall2_impl; [exact Hts|].
    - apply Forall_fmap, Forall_true. by eexists. }
  destruct Hdates as [Hd1 Hd2].
  case_bool_decide as H3.
  - eexists. split; [reflexivity|]. split; [reflexivity|].
    split; [done|]. intros c [= <-].
    cbn [weight_dates weight_values weight_trend].
    split_and!; [done..| |].
    { split; [done|lia]. }
    intros trend [= <-].
    assert (Hn : Qc_of_nat (length x) ≠ 0%Qc).
    { apply Qc_of_nat_nonzero. rewrite Hx. lia. }
    split_and!.
    + by rewrite length_fmap.
    + exists z. split.
      { done. }
      intros i y Hy.
      apply list_lookup_fmap_Some in Hy as (xi & -> & Hxi).
      unfold x, arange in Hxi.
      apply list_lookup_fmap_Some in Hxi as (k & -> & Hk).
      apply lookup_seq in Hk as [-> _]. done.
    + rewrite Qc_sum_poly1d. unfold z. cbn [fst snd]. by field.
    + intros v Hall.
      destruct (Qc_sum_zip_with_const v x vs Hx Hall) as [Hxy Hy].
      assert (Hslope : slope = 0%Qc).
      { unfold slope. rewrite Hxy, Hy. unfold Qcdiv.
        replace (Qc_of_nat (length x) * (v * Qc_sum x)
                 - Qc_sum x * (Qc_of_nat (length x) * v))%Qc
          with 0%Qc by ring.
        ring. }
      apply Forall_fmap, Forall_true. intros xi.
      unfold poly1d, z. cbn [fst snd compose]. rewrite Hslope, Hy. by field.
  - eexists. split; [reflexivity|]. split; [reflexivity|].
    split; [done|]. intros c [= <-].
    cbn [weight_dates weight_values weight_trend].
    split_and!; [done..| |done].
    split; [lia|done].
Qed.

Lemma macro_chart_rows df :
  filter (λ r, nan_ltb (Some 0%Qc) (nums r !! "Protein")
               || nan_ltb (Some 0%Qc) (nums r !! "Carbs")
               || nan_ltb (Some 0%Qc) (nums r !! "Fat"))
         (df_rows (dropna_all ["Protein"; "Carbs"; "Fat"] df))
  = filter (λ r, has_positive "Protein" r ∨ has_positive "Carbs" r
                 ∨ has_positive "Fat" r)
           (df_rows df).
Proof.
  unfold dropna_all, select. cbn [df_rows]. rewrite list_filter_filter.
  apply list_filter_iff. intros r.
  rewrite !orb_True, !nan_ltb_0_has_positive.
  split; [intros [[[?|?]|?] _]; auto|].
  intros H. split; [destruct H as [?|[?|?]]; auto|]. cbn [existsb].
  destruct H as [(v & Hv & _)|[(v & Hv & _)|(v & Hv & _)]];
    rewrite !orb_True; [left|right; left|right; right; left];
    apply bool_decide_pack; eauto.
Qed.

Lemma empty_rows df :
  df_columns df ≠ [] → empty df = bool_decide (df_rows df = []).
Proof. unfold empty. by destruct (df_rows df), (df_columns df). Qed.

Lemma empty_false_columns df : empty df = false → df_columns df ≠ [].
Proof. unfold empty. by destruct (df_rows df), (df_columns df). Qed.

(** X21.  The macro chart: it is absent exactly when no row of the
    window has a positive protein, carbohydrate or fat value, and making
    it never fails.  Otherwise it has one point for each such row, at the
    Timestamp of the row's date; the bands are stacked, their upper
    edges being protein, protein + carbs and protein + carbs + fat, and
    a missing value leaves a gap (NaN) in its band and in the bands
    above it. *)
Theorem create_macro_chart_spec days w :
  ∃ df w1 chart,
    get_recent_data days w = (Return df, w1)
    ∧ create_macro_chart days w = (Return chart, w1)
    ∧ let rs := filter (λ r, has_positive "Protein" r ∨ has_positive "Carbs" r
                             ∨ has_positive "Fat" r) (df_rows df) in
      (chart = None ↔ rs = [])
      ∧ ∀ c, chart = Some c →
          Forall2 (λ r t, to_datetime (Date r) = Return t) rs (macro_dates c)
          ∧ Forall is_Some (macro_dates c)
          ∧ macro_protein c = (λ r, nums r !! "Protein") <$> rs
          ∧ length (macro_protein_carbs c) = length rs
          ∧ length (macro_protein_carbs_fat c) = length rs
          ∧ ∀ i r, rs !! i = Some r →
              (∀ p cb f, nums r !! "Protein" = Some p →
                         nums r !! "Carbs" = Some cb →
                         nums r !! "Fat" = Some f →
                 macro_protein_carbs c !! i = Some (Some (p + cb)%Qc)
                 ∧ macro_protein_carbs_fat c !! i = Some (Some (p + cb + f)%Qc))
              ∧ (nums r !! "Protein" = None ∨ nums r !! "Carbs" = None →
                 macro_protein_carbs c !! i = Some None
                 ∧ macro_protein_carbs_fat c !! i = Some None)
              ∧ (nums r !! "Fat" = None →
                 macro_protein_carbs_fat c !! i = Some None).
Proof.
  destruct (get_recent_data_window days w) as (df & w1 & Hget & Hshape & Hparse).
  exists df, w1.
  unfold create_macro_chart, try_except, mbind, Py_bind. rewrite Hget.
  destruct (empty df) eqn:Hempty.
  { apply (range_shape_empty df Hshape) in Hempty. rewrite Hempty.
    exists None. by split_and!. }
  set (rs := filter (λ r, has_positive "Protein" r ∨ has_positive "Carbs" r
                          ∨ has_positive "Fat" r) (df_rows df)).
  set (macro_data := select _ (dropna_all _ df)).
  assert (Hsel : df_rows macro_data = rs) by apply macro_chart_rows.
  assert (He : empty macro_data = bool_decide (rs = [])).
  { rewrite <-Hsel. apply empty_rows. change (df_columns df ≠ []).
    by apply empty_false_columns. }
  rewrite He. unfold column, lift. rewrite Hsel.
  case_bool_decide as Hrs.
  { exists None. by split_and!. }
  destruct (outcome_map_window_dates rs) as (ts & -> & Hts).
  { by apply Forall_filter_window. }
  rewrite zip_with_fmap_l, zip_with_fmap_r, zip_with_diag.
  rewrite zip_with_fmap_l, zip_with_fmap_r, zip_with_diag.
  eexists. split; [reflexivity|]. split; [reflexivity|]. cbv zeta.
  split; [done|]. intros c [= <-].
  cbn [macro_dates macro_protein macro_protein_carbs macro_protein_carbs_fat].
  split_and!.
  - apply Forall2_fmap_r. by eapply Forall2_impl; [exact Hts|].
  - apply Forall_fmap, Forall_true. by eexists.
  - done.
  - by rewrite length_fmap.
  - by rewrite length_fmap.
  - intros i r Hr. rewrite !list_lookup_fmap, Hr. cbn [fmap option_fmap option_map].
    split_and!.
    + by intros p cb f -> -> ->.
    + intros [-> | ->]; [done|]. by destruct (nums r !! "Protein").
    + intros ->.
      by destruct (nan_add (nums r !! "Protein") (nums r !! "Carbs")).
Qed.

Lemma keeps_file_figure k n : keeps_file (figure k n).
Proof.
  pose proof keeps_file_get_recent_data.
  destruct k; unfold figure, create_weight_chart, create_calorie_chart,
    create_macro_chart, create_goal_comparison_chart,
    create_weekly_summary_chart, create_macro_pie_chart; frame.
Qed.

Lemma returns_figure k n : returns (figure k n).
Proof.
  destruct k; unfold figure, create_weight_chart, create_calorie_chart,
    create_macro_chart, create_goal_comparison_chart,
    create_weekly_summary_chart, create_macro_pie_chart; frame.
Qed.

(** X22.  No chart raises and no chart writes: each of the six charts
    returns, a figure or none, in every world, and leaves the data file,
    its permissions and the clock as they are, so the table is the same
    after as before; it only adds lines to the log.  When the window of
    the chart has no row, there is no figure and the chart logs nothing
    of its own. *)
Theorem charts_never_raise_nor_write k n w :
  ∃ fig w', figure k n w = (Return fig, w')
    ∧ file w' = file w ∧ writable w' = writable w ∧ today w' = today w
    ∧ table w' = table w
    ∧ (∃ lines, log w' = (log w ++ lines)%list)
    ∧ ∃ df w1, get_recent_data (window_days k n) w = (Return df, w1)
        ∧ (df_rows df = [] → fig = false ∧ w' = w1).
Proof.
  destruct (returns_figure k n w) as (fig & w' & Hfig).
  pose proof (keeps_file_figure k n w) as Hkeep. rewrite Hfig in Hkeep.
  cbn [snd] in Hkeep. destruct Hkeep as (Hfile & Hwr & Htoday & Hlog).
  exists fig, w'. split_and!; [done..|by apply table_same_file|done|].
  destruct (get_recent_data_window (window_days k n) w)
    as (df & w1 & Hget & Hshape & _).
  exists df, w1. split; [done|]. intros Hnil.
  apply (range_shape_empty df Hshape) in Hnil.
  revert Hfig.
  destruct k; cbn [window_days] in Hget;
    unfold figure, create_weight_chart, create_calorie_chart,
      create_macro_chart, create_goal_comparison_chart,
      create_weekly_summary_chart, create_macro_pie_chart,
      try_except, mbind, Py_bind;
    rewrite Hget, Hnil; by intros [= <- <-].
Qed.

(** *** The trend line is the least-squares line *)

Lemma Qc_square_nonneg (x : Qc) : (0 ≤ x * x)%Qc.
Proof.
  destruct (Qclt_le_dec x 0) as [Hneg|Hpos].
  - replace (x * x)%Qc with ((- x) * (- x))%Qc by ring.
    assert (0 ≤ - x)%Qc.
    { apply Qclt_le_weak in Hneg. apply Qcopp_le_compat in Hneg.
      by replace (- 0)%Qc with 0%Qc in Hneg by ring. }
    by apply Qcmult_nonneg_nonneg.
  - by apply Qcmult_nonneg_nonneg.
Qed.

Lemma Qc_sum_cons (v : Qc) (l : list Qc) :
  Qc_sum (v :: l) = (v + Qc_sum l)%Qc.
Proof. done. Qed.

Lemma Qc_sum_app (l1 l2 : list Qc) :
  Qc_sum (l1 ++ l2)%list = (Qc_sum l1 + Qc_sum l2)%Qc.
Proof.
  induction l1 as [|v l1 IH].
  - symmetry. apply Qcplus_0_l.
  - change (v + Qc_sum (l1 ++ l2) = v + Qc_sum l1 + Qc_sum l2)%Qc.
    rewrite IH. ring.
Qed.

Lemma arange_S n : arange (S n) = (arange n ++ [Qc_of_nat n])%list.
Proof. unfold arange. by rewrite seq_S, fmap_app. Qed.

(** The sums of the positions 0 .. n-1 and of their squares. *)
Lemma Qc_sum_arange n :
  (Qc_of_Z 2 * Qc_sum (arange n) = Qc_of_nat n * (Qc_of_nat n - 1))%Qc
  ∧ (Qc_of_Z 6 * Qc_sum (zip_with Qcmult (arange n) (arange n))
     = Qc_of_nat n * (Qc_of_nat n - 1) * (Qc_of_Z 2 * Qc_of_nat n - 1))%Qc.
Proof.
  induction n as [|n [IH1 IH2]].
  - cbn. rewrite Qc_of_nat_0. split; ring.
  - rewrite arange_S, zip_with_diag, fmap_app, !Qc_sum_app.
    rewrite zip_with_diag in IH2. cbn [fmap list_fmap Qc_sum foldr].
    rewrite Qc_of_nat_S.
    assert (H2 : Qc_of_Z 2 = (1 + 1)%Qc) by (by apply Qc_is_canon).
    assert (H6 : Qc_of_Z 6 = (1 + 1 + 1 + 1 + 1 + 1)%Qc) by (by apply Qc_is_canon).
    split.
    + rewrite Qcmult_plus_distr_r, IH1, H2. ring.
    + rewrite Qcmult_plus_distr_r, IH2, H2, H6. ring.
Qed.

(** The positions 0 .. n-1 are not all equal when n is at least 2: the
    denominator of the slope is not zero. *)
Lemma arange_denominator n :
  (2 ≤ n)%nat →
  (Qc_of_nat n * Qc_sum (zip_with Qcmult (arange n) (arange n))
   - Qc_sum (arange n) * Qc_sum (arange n))%Qc ≠ 0%Qc.
Proof.
  intros Hn. destruct (Qc_sum_arange n) as [H1 H2].
  set (N := Qc_of_nat n) in *. set (s1 := Qc_sum (arange n)) in *.
  set (s2 := Qc_sum (zip_with Qcmult (arange n) (arange n))) in *.
  assert (H2' : Qc_of_Z 2 = (1 + 1)%Qc) by (by apply Qc_is_canon).
  assert (H6' : Qc_of_Z 6 = (1 + 1 + 1 + 1 + 1 + 1)%Qc) by (by apply Qc_is_canon).
  assert (H12 : ((1 + 1 + 1 + 1 + 1 + 1 + 1 + 1 + 1 + 1 + 1 + 1) * (N * s2 - s1 * s1)
                 = N * N * ((N - 1) * (N + 1)))%Qc).
  { transitivity ((1 + 1) * N * (Qc_of_Z 6 * s2)
                  - (1 + 1 + 1) * ((Qc_of_Z 2 * s1) * (Qc_of_Z 2 * s1)))%Qc.
    - rewrite H2', H6'. ring.
    - rewrite H1, H2, H2'. ring. }
  intros HD. rewrite HD, Qcmult_0_r in H12. symmetry in H12.
  assert (HN : (1 < N)%Qc).
  { apply Qclt_minus_iff. unfold N. destruct n as [|m]; [lia|].
    rewrite Qc_of_nat_S.
    replace (Qc_of_nat m + 1 + - 1)%Qc with (Qc_of_nat m) by ring.
    apply Qc_of_nat_pos. lia. }
  assert (HN0 : N ≠ 0%Qc).
  { intros Hz. rewrite Hz in HN. by apply (Qclt_asym 0 1)%Qc. }
  apply Qcmult_integral in H12 as [H12|H12].
  - apply Qcmult_integral in H12 as [?|?]; done.
  - apply Qcmult_integral in H12 as [H12|H12].
    + assert (N = 1)%Qc by (rewrite <-(Qcplus_0_l 1), <-H12; ring).
      subst N. rewrite H in HN. by apply Qclt_not_eq in HN.
    + assert (HN1 : (0 < N + 1)%Qc).
      { unfold N. rewrite <-Qc_of_nat_S. apply Qc_of_nat_pos. lia. }
      rewrite H12 in HN1. by apply Qclt_not_eq in HN1.
Qed.

(** The squared error of any line, from that of the line (a, b): the
    cross term is made of the two sums that the least-squares line puts
    to zero. *)
Lemma squared_error_split (a b a' b' : Qc) (x y : list Qc) :
  length x = length y →
  Qc_sum (zip_with (λ x y, (a' * x + b' - y) * (a' * x + b' - y))%Qc x y)
  = (Qc_sum (zip_with (λ x y, (a * x + b - y) * (a * x + b - y))%Qc x y)
     + (1 + 1) * ((a' - a) * (a * Qc_sum (zip_with Qcmult x x) + b * Qc_sum x
                              - Qc_sum (zip_with Qcmult x y))
                  + (b' - b) * (a * Qc_sum x + Qc_of_nat (length x) * b
                                - Qc_sum y))
     + Qc_sum ((λ x, ((a' - a) * x + (b' - b)) * ((a' - a) * x + (b' - b)))%Qc
                 <$> x))%Qc.
Proof.
  revert y. induction x as [|x0 x IH]; intros [|y0 y] Hlen; try done.
  - cbn. rewrite Qc_of_nat_0. ring.
  - injection Hlen as Hlen. specialize (IH y Hlen).
    rewrite fmap_cons. cbn [zip_with length].
    rewrite !Qc_sum_cons, IH, Qc_of_nat_S. ring.
Qed.

(** X23.  The trend line of the weight chart is the least-squares line:
    for at least two weights [np.polyfit] over the positions 0, 1, 2, ...
    returns a line, and no straight line has a smaller sum of squared
    distances to the weights. *)
Theorem weight_trend_least_squares (vs : list Qc) :
  (2 ≤ length vs)%nat →
  ∃ z, polyfit_1 (arange (length vs)) (Some <$> vs) = Return z
    ∧ ∀ a b, (squared_error z.1 z.2 vs ≤ squared_error a b vs)%Qc.
Proof.
  intros Hn. unfold polyfit_1. rewrite (mapM_fmap_Some id Some vs) by done.
  set (x := arange (length vs)).
  assert (Hx : length x = length vs).
  { unfold x, arange. by rewrite length_fmap, length_seq. }
  pose proof (arange_denominator (length vs) Hn) as HD. fold x in HD.
  rewrite Hx.
  assert (HN : Qc_of_nat (length vs) ≠ 0%Qc) by (apply Qc_of_nat_nonzero; lia).
  eexists. split; [reflexivity|]. cbn [fst snd]. intros a b.
  unfold squared_error. fold x.
  set (sx := Qc_sum x) in *. set (sy := Qc_sum vs).
  set (sxx := Qc_sum (zip_with Qcmult x x)) in *.
  set (sxy := Qc_sum (zip_with Qcmult x vs)).
  set (slope := ((Qc_of_nat (length vs) * sxy - sx * sy)
                 / (Qc_of_nat (length vs) * sxx - sx * sx))%Qc).
  set (icpt := ((sy - slope * sx) / Qc_of_nat (length vs))%Qc).
  rewrite (squared_error_split slope icpt a b x vs Hx).
  fold sx sy sxx sxy. rewrite Hx.
  assert (H1 : (slope * sx + Qc_of_nat (length vs) * icpt - sy)%Qc = 0%Qc).
  { unfold icpt. by field. }
  assert (H2 : (slope * sxx + icpt * sx - sxy)%Qc = 0%Qc).
  { unfold icpt, slope. by field. }
  rewrite H1, H2.
  replace ((1 + 1) * ((a - slope) * 0 + (b - icpt) * 0))%Qc with 0%Qc by ring.
  rewrite Qcplus_0_r.
  rewrite <-(Qcplus_0_r (Qc_sum _)) at 1.
  apply Qcplus_le_compat; [apply Qcle_refl|].
  apply Qc_sum_nonneg, Forall_fmap, Forall_true. intros xi.
  apply Qc_square_nonneg.
Qed.

(** *** The weekly summary *)

Global Instance key_le_trans : Transitive key_le.
Proof. intros k1 k2 k3. unfold key_le. lia. Qed.

Global Instance key_le_total : Total key_le.
Proof. intros k1 k2. unfold key_le. lia. Qed.

Lemma length_omap_le {A B} (f : A → option B) (l : list A) :
  (length (omap f l) ≤ length l)%nat.
Proof.
  induction l as [|x l IH]; [done|]. cbn [omap list_omap length].
  destruct (f x); cbn [length]; lia.
Qed.

Lemma weekly_zip (rs : list row) (ts : list Z) :
  Forall2 (λ r t, to_datetime (Date r) = Return (Some t)) rs ts →
  zip rs (zip ((λ t : option Z, Calendar.dt_year <$> t) <$> (Some <$> ts))
              ((λ t : option Z, Calendar.dt_isocalendar_week <$> t)
                 <$> (Some <$> ts)))
  = (λ r, (r, (fst <$> week_key r, snd <$> week_key r))) <$> rs.
Proof.
  induction 1 as [|r t rs ts Hr _ IH]; [done|].
  rewrite !fmap_cons. cbn [zip zip_with]. unfold week_key at 1 2.
  rewrite Hr. cbn [fmap option_fmap option_map fst snd]. f_equal. apply IH.
Qed.

Lemma key_of_week_key (k : option (Z * Z)) :
  (y ← fst <$> k; w ← snd <$> k; Some (y, w)) = k.
Proof. by destruct k as [[y wk]|]. Qed.

Lemma omap_week_key (rs : list row) :
  omap (λ rk : row * (option Z * option Z),
          y ← rk.2.1; w ← rk.2.2; Some (y, w))
       ((λ r, (r, (fst <$> week_key r, snd <$> week_key r))) <$> rs)
  = omap week_key rs.
Proof.
  induction rs as [|r rs IH]; [done|].
  rewrite fmap_cons. cbn [omap list_omap fst snd].
  rewrite key_of_week_key. destruct (week_key r); by rewrite <-IH.
Qed.

Lemma filter_week_key (k : Z * Z) (rs : list row) :
  (filter (λ rk : row * (option Z * option Z),
             (y ← rk.2.1; w ← rk.2.2; Some (y, w)) = Some k)
          ((λ r, (r, (fst <$> week_key r, snd <$> week_key r))) <$> rs)).*1
  = filter (λ r, week_key r = Some k) rs.
Proof.
  induction rs as [|r rs IH]; [done|].
  rewrite fmap_cons, !filter_cons. cbn [fst snd].
  rewrite key_of_week_key.
  destruct (decide (week_key r = Some k)); [rewrite fmap_cons|]; by rewrite IH.
Qed.

Lemma groupby_week_key (rs : list row) :
  groupby_Year_Week_mean
    ((λ r, (r, (fst <$> week_key r, snd <$> week_key r))) <$> rs)
  = (λ k,
       let group := filter (λ r, week_key r = Some k) rs in
       WeeklyRow k.1 k.2
         (mean ((λ r, nums r !! "Calories") <$> group))
         (mean ((λ r, nums r !! "Weight") <$> group))
         (mean ((λ r, nums r !! "Protein") <$> group))
         (mean ((λ r, nums r !! "Carbs") <$> group))
         (mean ((λ r, nums r !! "Fat") <$> group)))
    <$> merge_sort key_le (remove_dups (omap week_key rs)).
Proof.
  unfold groupby_Year_Week_mean. cbv zeta. rewrite omap_week_key.
  apply list_fmap_ext. intros _ k _. unfold column. cbn [df_rows].
  by rewrite filter_week_key.
Qed.

(** X24.  The weekly summary chart: it is absent exactly when the window
    of [weeks * 7] days has no row, and making it never fails.  Otherwise
    it has one row for each pair (calendar year, ISO week number) that a
    date of the window falls in, the pairs in ascending order without
    repeats, and never more rows than the window; the five values of a
    row are the means of calories, weight, protein, carbohydrates and fat
    over the rows of the window with that pair. *)
Theorem create_weekly_summary_chart_spec weeks w :
  ∃ df w1 chart,
    get_recent_data (weeks * 7) w = (Return df, w1)
    ∧ create_weekly_summary_chart weeks w = (Return chart, w1)
    ∧ (chart = None ↔ df_rows df = [])
    ∧ ∀ weekly_data, chart = Some weekly_data →
        let keys := (λ wr, (Year wr, Week wr)) <$> weekly_data in
        StronglySorted key_le keys
        ∧ NoDup keys
        ∧ (∀ k, k ∈ keys ↔ ∃ r, r ∈ df_rows df ∧ week_key r = Some k)
        ∧ (length weekly_data ≤ len df)%nat
        ∧ ∀ wr, wr ∈ weekly_data →
            let group := filter (λ r, week_key r = Some (Year wr, Week wr))
                                (df_rows df) in
            group ≠ []
            ∧ week_Calories wr = mean ((λ r, nums r !! "Calories") <$> group)
            ∧ week_Weight wr = mean ((λ r, nums r !! "Weight") <$> group)
            ∧ week_Protein wr = mean ((λ r, nums r !! "Protein") <$> group)
            ∧ week_Carbs wr = mean ((λ r, nums r !! "Carbs") <$> group)
            ∧ week_Fat wr = mean ((λ r, nums r !! "Fat") <$> group).
Proof.
  destruct (get_recent_data_window (weeks * 7) w)
    as (df & w1 & Hget & Hshape & Hparse).
  exists df, w1.
  unfold create_weekly_summary_chart, try_except, mbind, Py_bind. rewrite Hget.
  destruct (empty df) eqn:Hempty.
  { apply (range_shape_empty df Hshape) in Hempty.
    exists None. by split_and!. }
  assert (Hrows : df_rows df ≠ []).
  { intros Hnil. apply (range_shape_empty df Hshape) in Hnil. congruence. }
  destruct (outcome_map_window_dates (df_rows df) Hparse) as (ts & Hmap & Hts).
  unfold lift. rewrite Hmap, (weekly_zip _ _ Hts), groupby_week_key.
  set (keys := merge_sort key_le (remove_dups (omap week_key (df_rows df)))).
  assert (Hkeys : ∀ k, k ∈ keys ↔ ∃ r, r ∈ df_rows df ∧ week_key r = Some k).
  { intros k. unfold keys.
    rewrite merge_sort_Permutation, elem_of_remove_dups, list_elem_of_omap.
    done. }
  assert (Hne : keys ≠ []).
  { destruct (df_rows df) as [|r rs] eqn:Hrs; [done|].
    apply Forall_cons in Hparse as [[t Ht] _].
    assert (Hin : (Calendar.dt_year t, Calendar.dt_isocalendar_week t) ∈ keys).
    { apply Hkeys. exists r. split; [by left|]. unfold week_key. by rewrite Ht. }
    intros Hnil. rewrite Hnil in Hin. by apply elem_of_nil in Hin. }
  set (weekly_row_of := λ k : Z * Z, WeeklyRow k.1 k.2 _ _ _ _ _).
  assert (Hfmap : (λ wr, (Year wr, Week wr)) <$> (weekly_row_of <$> keys) = keys).
  { rewrite <-list_fmap_compose. rewrite <-(list_fmap_id keys) at 2.
    apply list_fmap_ext. by intros _ [y wk] _. }
  remember (weekly_row_of <$> keys) as data eqn:Hdata.
  exists (Some data). split; [done|]. split.
  { destruct data; [|done]. symmetry in Hdata. by apply fmap_nil_inv in Hdata. }
  split; [done|]. intros weekly_data [= <-]. cbv zeta. subst data.
  rewrite Hfmap.
  split_and!.
  - apply (StronglySorted_merge_sort _).
  - unfold keys. rewrite merge_sort_Permutation. apply NoDup_remove_dups.
  - done.
  - rewrite length_fmap. unfold keys, len.
    rewrite merge_sort_Permutation.
    etrans; [|apply (length_omap_le week_key)].
    apply submseteq_length, NoDup_submseteq; [apply NoDup_remove_dups|].
    intros k. by rewrite elem_of_remove_dups.
  - intros wr (k & -> & Hk)%list_elem_of_fmap. destruct k as [y wk].
    cbn [Year Week week_Calories week_Weight week_Protein week_Carbs week_Fat
         weekly_row_of fst snd].
    split_and!; [|done..].
    apply Hkeys in Hk as (r & Hr & Hkr). intros Hnil.
    assert (Hin : r ∈ filter (λ r, week_key r = Some (y, wk)) (df_rows df)).
    { by apply list_elem_of_filter. }
    rewrite Hnil in Hin. by apply elem_of_nil in Hin.
Qed.

(** *** The summary and the charts of one window *)

(** X25.  The summary and the charts of the same window agree: the
    calorie chart has as many bars as the summary counts days with data,
    and it is absent exactly when that count is 0; the mean of the points
    of the weight chart is the summary's average weight, and a weight
    change in the summary is the last point of the weight chart minus the
    first. *)
Theorem summary_agrees_with_charts days w s :
  (get_summary_stats days w).1 = Return (Some s) →
  (∀ c, (create_calorie_chart days w).1 = Return (Some c) →
        length (calorie_values c) = days_with_data s)
  ∧ ((create_calorie_chart days w).1 = Return None ↔ days_with_data s = 0%nat)
  ∧ ∀ c, (create_weight_chart days w).1 = Return (Some c) →
      mean (weight_values c) = Some (avg_weight s)
      ∧ ∀ change, weight_change s = Some change →
          ∃ first_weight last_weight,
            head (weight_values c) = Some (Some first_weight)
            ∧ last (weight_values c) = Some (Some last_weight)
            ∧ change = (last_weight - first_weight)%Qc.
Proof.
  destruct (get_recent_data_window days w) as (df & w1 & Hget & Hshape & Hparse).
  rewrite (get_summary_stats_eq days w df w1 Hget). cbn [fst].
  destruct (empty df) eqn:Hempty; [done|]. intros [= <-].
  unfold create_calorie_chart, create_weight_chart, try_except, mbind, Py_bind.
  rewrite Hget, Hempty.
  assert (Hdays : days_with_data (summary_of df)
                  = length (filter (has_positive "Calories") (df_rows df))).
  { rewrite <-filter_nan_ltb_0. reflexivity. }
  rewrite Hdays.
  split; [|split].
  - rewrite (empty_select _ df Hempty).
    unfold select, column, lift. cbn [df_rows]. rewrite !filter_nan_ltb_0.
    case_bool_decide as Hrs; [done|].
    destruct (outcome_map_window_dates
                (filter (has_positive "Calories") (df_rows df)))
      as (ts & -> & _).
    { by apply Forall_filter_window. }
    intros c [= <-]. cbn [calorie_values]. by rewrite length_fmap.
  - rewrite (empty_select _ df Hempty).
    unfold select, column, lift. cbn [df_rows]. rewrite !filter_nan_ltb_0.
    case_bool_decide as Hrs.
    + by rewrite Hrs.
    + destruct (outcome_map_window_dates
                  (filter (has_positive "Calories") (df_rows df)))
        as (ts & -> & _).
      { by apply Forall_filter_window. }
      split; [done|]. intros Hlen. by apply nil_length_inv in Hlen.
  - unfold dropna at 1. rewrite (empty_select _ df Hempty).
    fold (dropna ["Weight"] df).
    change (filter _ (df_rows df)) with (df_rows (dropna ["Weight"] df)) at 1.
    unfold column, lift, len. rewrite dropna_Weight_weights.
    case_bool_decide as Hrs; [done|].
    assert (Hparse' : Forall (λ r, ∃ t, to_datetime (Date r) = Return (Some t))
                        (df_rows (dropna ["Weight"] df))).
    { rewrite dropna_Weight_rows. by apply Forall_filter_window. }
    destruct (outcome_map_window_dates _ Hparse') as (ts & -> & _).
    unfold polyfit_1. rewrite (mapM_fmap_Some id Some (weights df)) by done.
    assert (Hvs : weights df ≠ []).
    { intros Hnil. apply Hrs. pose proof (length_weights df) as Hlen.
      rewrite Hnil, <-dropna_Weight_rows in Hlen.
      by destruct (df_rows (dropna ["Weight"] df)). }
    assert (Hmean : mean (Some <$> weights df)
                    = Some (avg_weight (summary_of df))).
    { rewrite (mean_Some _ Hvs). cbn [avg_weight summary_of].
      rewrite mean_or_0_eq. fold (weights df). by destruct (weights df). }
    assert (Hchange : ∀ change, weight_change (summary_of df) = Some change →
              ∃ first_weight last_weight,
                head (Some <$> weights df) = Some (Some first_weight)
                ∧ last (Some <$> weights df) = Some (Some last_weight)
                ∧ change = (last_weight - first_weight)%Qc).
    { intros change. rewrite weight_change_summary_of.
      destruct (weights df) as [|v1 [|v2 vs]] eqn:Hw; [done..|].
      intros [= <-]. rewrite fmap_last.
      destruct (last (v1 :: v2 :: vs)) as [vl|] eqn:Hlast;
        [|by apply last_None in Hlast].
      assert (Hl : last (v2 :: vs) = Some vl) by exact Hlast.
      exists v1, vl. by rewrite Hl. }
    case_bool_decide; cbn; intros c [= <-]; cbn [weight_values]; by split.
Qed.

End DataManager.

(** * Examples, counterexamples and instances *)

Abbreviation upsert :=
  (update_day_data Example.cwd Example.filename Pandas.str_of_num).
Abbreviation get_range :=
  (get_date_range_data Pandas.str_of_num Pandas.to_datetime_ymd).
Abbreviation summary :=
  (get_summary_stats Pandas.str_of_num Pandas.to_datetime_ymd Calendar.strftime_ymd).
Abbreviation weekly_summary :=
  (create_weekly_summary_chart Pandas.str_of_num Pandas.to_datetime_ymd Calendar.strftime_ymd).
Abbreviation stored_in := (stored Pandas.str_of_num).
Abbreviation table_of := (table Pandas.str_of_num).

Example strftime_ymd_2024_12_30 :
  Calendar.strftime_ymd 739250 = "2024-12-30".
Proof. vm_compute. reflexivity. Qed.

Example isocalendar_2024_12_30 :
  Calendar.isocalendar (Calendar.days_from_civil 2024 12 30) = (2025, 1).
Proof. vm_compute. reflexivity. Qed.

Example isocalendar_2021_01_03 :
  Calendar.isocalendar (Calendar.days_from_civil 2021 1 3) = (2020, 53).
Proof. vm_compute. reflexivity. Qed.

Example to_datetime_ymd_padded :
  Pandas.to_datetime_ymd (Str "2024-01-10")
  = Return (Some (19732 * Calendar.ns_per_day)).
Proof. vm_compute. reflexivity. Qed.

Example to_datetime_ymd_unpadded :
  Pandas.to_datetime_ymd (Str "2024-1-5")
  = Return (Some (19727 * Calendar.ns_per_day)).
Proof. vm_compute. reflexivity. Qed.

(** C2 (what the code does instead).  On a date that the table does not
    hold, an upsert of calories alone creates a row in which weight and
    calorie goal are 0 like the accumulators: they are recorded as zero,
    not left absent. *)
Theorem new_row_zero_weight_and_goal :
  let w := (upsert "2024-12-30" [("calories", Qc_of_Z 500)] Example.fresh).2 in
  record "2024-12-30" (table_of Example.fresh) = None
  ∧ stored_in w "2024-12-30" "Weight" = Some 0%Qc
  ∧ stored_in w "2024-12-30" "Calorie_Goal" = Some 0%Qc.
Proof. vm_compute. auto. Qed.

(** C3, counterexample.  [ensure_data_file_exists], which the constructor
    calls, lets the exception out when the data file is absent and cannot be
    created. *)
Lemma ensure_data_file_exists_raises :
  (ensure_data_file_exists Example.cwd Example.filename Example.read_only).1
  = Raise "[Errno 13] Permission denied".
Proof. vm_compute. reflexivity. Qed.

(** C4, counterexample.  After upserts on "2024-1-5" and then on
    "2024-01-10", both of which the GUI lets through, the range query of
    January 2024 returns 10 January before 5 January: the result is sorted
    by the date strings and is not in ascending calendar order. *)
Lemma get_date_range_data_not_calendar_sorted :
  let w := (upsert "2024-01-10" [("calories", Qc_of_Z 1800)]
             (upsert "2024-1-5" [("calories", Qc_of_Z 2000)] Example.fresh).2).2 in
  ∃ df w', get_range "2024-01-01" "2024-01-31" w = (Return df, w')
           ∧ dates df = [Str "2024-01-10"; Str "2024-1-5"]
           ∧ ¬ calendar_sorted Pandas.to_datetime_ymd df.
Proof.
  eexists _, _. split; [vm_compute; reflexivity|]. split; [reflexivity|].
  intros (ts & Hts & Hsorted). vm_compute in Hts. injection Hts as <-.
  apply Sorted_inv in Hsorted as [_ Hhd]. apply HdRel_inv in Hhd.
  vm_compute in Hhd. exact Hhd.
Qed.



(** C9 (what the code does instead).  30 December 2024 and 1 January 2025
    fall in the same ISO week (week 1 of 2025), but the weekly summary keys
    its groups by the calendar year and the ISO week number, and puts the
    two days in two groups, (2024, 1) and (2025, 1). *)
Theorem weekly_summary_splits_iso_week :
  let w := (upsert "2025-01-01" [("calories", Qc_of_Z 1800)]
             (upsert "2024-12-30" [("calories", Qc_of_Z 2000)] Example.fresh).2).2 in
  (∃ t1 t2, Pandas.to_datetime_ymd (Str "2024-12-30") = Return (Some t1)
            ∧ Pandas.to_datetime_ymd (Str "2025-01-01") = Return (Some t2)
            ∧ same_iso_week t1 t2)
  ∧ ∃ weekly_data w', weekly_summary 1 w = (Return (Some weekly_data), w')
      ∧ (λ r, (Year r, Week r, this <$> week_Calories r)) <$> weekly_data
        = [(2024, 1, Some (2000 # 1)); (2025, 1, Some (1800 # 1))].
Proof.
  split.
  - eexists _, _. split; [vm_compute; reflexivity|].
    split; [vm_compute; reflexivity|]. vm_compute. reflexivity.
  - eexists _, _. split; [vm_compute; reflexivity|]. vm_compute. reflexivity.
Qed.

(** Instance of C1: calories=500 and weight=150 on a new date of a new
    store. *)
Lemma update_day_data_policy_witness :
  writable Example.fresh = true
  ∧ NoDup [("calories", Qc_of_Z 500); ("weight", Qc_of_Z 150)].*1
  ∧ ∃ w', upsert "2025-01-01" [("calories", Qc_of_Z 500); ("weight", Qc_of_Z 150)]
            Example.fresh = (Return true, w')
          ∧ stored_in w' "2025-01-01" "Calories" = Some (0 + Qc_of_Z 500)%Qc
          ∧ stored_in w' "2025-01-01" "Weight" = Some (Qc_of_Z 150).
Proof.
  assert (Hw : writable Example.fresh = true) by reflexivity.
  assert (Hnd : NoDup [("calories", Qc_of_Z 500); ("weight", Qc_of_Z 150)].*1).
  { apply (bool_decide_unpack _). vm_compute. exact I. }
  destruct (update_day_data_policy Example.cwd Example.filename Pandas.str_of_num
              "2025-01-01" _ Example.fresh Hw Hnd)
    as (w' & Hup & Hadd & Hrep & _).
  split; [exact Hw|]. split; [exact Hnd|]. exists w'. split; [exact Hup|]. split.
  - apply (Hadd "calories" "Calories" (Qc_of_Z 500)).
    + apply list_elem_of_here.
    + apply list_elem_of_here.
  - apply (Hrep "weight" "Weight" (Qc_of_Z 150)).
    + apply list_elem_of_here.
    + apply list_elem_of_further, list_elem_of_here.
Defined.

(** Instance of C4 (as amended): the range query of January 2024 on the
    table of the counterexample. *)
Lemma get_date_range_data_spec_witness :
  let w := (upsert "2024-01-10" [("calories", Qc_of_Z 1800)]
             (upsert "2024-1-5" [("calories", Qc_of_Z 2000)] Example.fresh).2).2 in
  Forall (λ c, ∃ t, Pandas.to_datetime_ymd c = Return t) (dates (table_of w))
  ∧ (∃ s, Pandas.to_datetime_ymd (Str "2024-01-01") = Return s)
  ∧ (∃ e, Pandas.to_datetime_ymd (Str "2024-01-31") = Return e)
  ∧ ∃ df w', get_range "2024-01-01" "2024-01-31" w = (Return df, w')
      ∧ ∃ strs, Date <$> df_rows df = Str <$> strs ∧ Sorted String.le strs.
Proof.
  intros w.
  assert (Hall : Forall (λ c, ∃ t, Pandas.to_datetime_ymd c = Return t)
                        (dates (table_of w))).
  { replace (dates (table_of w)) with [Str "2024-1-5"; Str "2024-01-10"]
      by (vm_compute; reflexivity).
    repeat constructor; eexists; vm_compute; reflexivity. }
  assert (Hs : ∃ s, Pandas.to_datetime_ymd (Str "2024-01-01") = Return s).
  { eexists. vm_compute. reflexivity. }
  assert (He : ∃ e, Pandas.to_datetime_ymd (Str "2024-01-31") = Return e).
  { eexists. vm_compute. reflexivity. }
  destruct (get_date_range_data_spec Pandas.str_of_num Pandas.to_datetime_ymd
              "2024-01-01" "2024-01-31" w Hall Hs He)
    as (df & w' & Hget & _ & Hsorted & _).
  split; [exact Hall|]. split; [exact Hs|]. split; [exact He|].
  exists df, w'. split; [exact Hget | exact Hsorted].
Defined.

(** Instance of C6: an upsert on a date that the table of two days
    holds. *)
Lemma unique_dates_preserved_witness :
  (∀ df, Update_day_data "2025-01-01" [("calories", Qc_of_Z 500)] ≠ Save_data df)
  ∧ unique_dates Pandas.str_of_num Example.two_weights
  ∧ unique_dates Pandas.str_of_num
      (call Example.cwd Example.filename Pandas.str_of_num Pandas.to_datetime_ymd
            Calendar.strftime_ymd Example.destination_of
            (Update_day_data "2025-01-01" [("calories", Qc_of_Z 500)])
            Example.two_weights).2.
Proof.
  assert (Hm : ∀ df, Update_day_data "2025-01-01" [("calories", Qc_of_Z 500)]
                     ≠ Save_data df) by (intros df; discriminate).
  assert (Hu : unique_dates Pandas.str_of_num Example.two_weights).
  { unfold unique_dates.
    replace (dates (table_of Example.two_weights))
      with [Str "2024-12-28"; Str "2025-01-01"] by (vm_compute; reflexivity).
    apply (bool_decide_unpack _). vm_compute. exact I. }
  split; [exact Hm|]. split; [exact Hu|].
  exact (unique_dates_preserved Example.cwd Example.filename Pandas.str_of_num
           Pandas.to_datetime_ymd Calendar.strftime_ymd Example.destination_of
           _ Example.two_weights Hm Hu).
Defined.

(** Instance of C8: a delete on a store of two days, of a third day. *)
Lemma delete_absent_date_witness :
  writable Example.two_weights = true
  ∧ (Str "2024-12-30" ∉ dates (table_of Example.two_weights))
  ∧ ∃ w', delete_day_data Example.cwd Example.filename Pandas.str_of_num
            "2024-12-30" Example.two_weights = (Return true, w')
          ∧ table_of w' = table_of Example.two_weights.
Proof.
  assert (Hw : writable Example.two_weights = true) by reflexivity.
  assert (Hno : Str "2024-12-30" ∉ dates (table_of Example.two_weights)).
  { apply (bool_decide_unpack _). vm_compute. exact I. }
  split; [exact Hw|]. split; [exact Hno|].
  exact (delete_absent_date Example.cwd Example.filename Pandas.str_of_num
           "2024-12-30" Example.two_weights Hw Hno).
Defined.



(** Instance of C3 (as amended): a data file that is not a spreadsheet. *)
Lemma store_methods_swallow_errors_witness :
  (∃ v w', call Example.cwd Example.filename Pandas.str_of_num
             Pandas.to_datetime_ymd Calendar.strftime_ymd Example.destination_of Load_data Example.corrupt = (Return v, w'))
  ∧ load_data Pandas.str_of_num Example.corrupt
    = (Return (DataFrame_of_columns columns),
       logged ERROR "Failed to load data: File is not a zip file" Example.corrupt).
Proof.
  destruct (store_methods_swallow_errors Example.cwd Example.filename
              Pandas.str_of_num Pandas.to_datetime_ymd Calendar.strftime_ymd Example.destination_of Load_data Example.corrupt)
    as (Hret & Hload & _).
  split; [exact Hret|]. exact (Hload "File is not a zip file" eq_refl).
Defined.

(** Instance of C7: the table of two days. *)
Lemma save_load_round_trip_witness :
  let w' := ((df ← load_data Pandas.str_of_num;
              save_data Example.cwd Example.filename Pandas.str_of_num df)
               Example.two_weights).2 in
  table_of w' = table_of Example.two_weights.
Proof.
  exact (proj1 (save_load_round_trip Example.cwd Example.filename
                  Pandas.str_of_num Example.two_weights)).
Defined.

(** ** Backups and renderings *)

Abbreviation backup :=
  (backup_data Example.cwd Example.destination_of).

(** A backup under a new name in the directory of the data file. *)
Example backup_data_new_name :
  backup (Some "copy.xlsx") Example.two_weights
  = (Return (Some "/home/user/copy.xlsx"),
     logged INFO "Backup created: /home/user/copy.xlsx"
       (World (file Example.two_weights) true Example.new_year
              "20250101_120000"
              [("/home/user/copy.xlsx", file Example.two_weights)] [])).
Proof. vm_compute. reflexivity. Qed.

(** A backup onto the data file itself is refused by [shutil.copy2], and
    [backup_data] returns None. *)
Example backup_data_same_file :
  (backup (Some "calorie_data.xlsx") Example.two_weights).1 = Return None
  ∧ copies (backup (Some "calorie_data.xlsx") Example.two_weights).2 = [].
Proof. split; vm_compute; reflexivity. Qed.

(** An absolute name is the path of the copy, whatever the directory of
    the data file. *)
Example os_path_join_absolute :
  os_path_join "/home/user" "/tmp/b.xlsx" = "/tmp/b.xlsx"
  ∧ os_path_join "/home/user" "b.xlsx" = "/home/user/b.xlsx"
  ∧ os_path_join "/" "b.xlsx" = "/b.xlsx".
Proof. split_and!; vm_compute; reflexivity. Qed.

(** [astype(str)] writes an integer cell without a fraction and a float
    cell with one. *)
Example astype_str_cell_numbers :
  astype_str_cell Pandas.str_of_num (Int 7) = Str "7"
  ∧ astype_str_cell Pandas.str_of_num (Num (Qc_of_Z 7)) = Str "7.0"
  ∧ astype_str_cell Pandas.str_of_num (Num (Q2Qc (145 # 2))) = Str "72.5"
  ∧ astype_str_cell Pandas.str_of_num (Num (Q2Qc (-1 # 8))) = Str "-0.125".
Proof. split_and!; vm_compute; reflexivity. Qed.

(** ** Runs of the charts

    The charts of three days, 2024-12-30 to 2025-01-01, seen on
    2025-01-01. *)

Example calorie_chart_three_days :
  ∃ c w', create_calorie_chart Pandas.str_of_num Pandas.to_datetime_ymd Calendar.strftime_ymd 30
            Example.three_days = (Return (Some c), w')
    ∧ calorie_colours c = [Red; Green; Orange]
    ∧ this <$> calorie_average c = Some (2000 # 1).
Proof.
  eexists _, _. split; [vm_compute; reflexivity|].
  split; vm_compute; reflexivity.
Qed.

Example weight_chart_three_days :
  ∃ c w', create_weight_chart Pandas.str_of_num Pandas.to_datetime_ymd Calendar.strftime_ymd 30
            Example.three_days = (Return (Some c), w')
    ∧ (λ v : option Qc, this <$> v) <$> weight_values c
      = [Some (150 # 1); Some (149 # 1); Some (151 # 1)]
    ∧ (λ trend : list Qc, this <$> trend) <$> weight_trend c
      = Some [299 # 2; 150 # 1; 301 # 2].
Proof.
  eexists _, _. split; [vm_compute; reflexivity|].
  split; vm_compute; reflexivity.
Qed.

Example goal_comparison_chart_three_days :
  ∃ c w', create_goal_comparison_chart Pandas.str_of_num
            Pandas.to_datetime_ymd Calendar.strftime_ymd 30 Example.three_days
          = (Return (Some c), w')
    ∧ goal_labels c = ["12/30"; "12/31"; "01/01"]
    ∧ goal_colours c = [(Red, Blue); (Green, Blue); (Green, Blue)]
    ∧ this <$> goal_success_rate c = Some (200 # 3).
Proof.
  eexists _, _. split; [vm_compute; reflexivity|].
  split_and!; vm_compute; reflexivity.
Qed.

Example macro_chart_three_days :
  ∃ c w', create_macro_chart Pandas.str_of_num Pandas.to_datetime_ymd Calendar.strftime_ymd 30
            Example.three_days = (Return (Some c), w')
    ∧ (λ v : option Qc, this <$> v) <$> macro_protein_carbs_fat c
      = [Some (170 # 1); Some (390 # 1); Some (590 # 1)].
Proof.
  eexists _, _. split; [vm_compute; reflexivity|]. vm_compute. reflexivity.
Qed.

Example macro_pie_chart_three_days :
  ∃ sizes w', create_macro_pie_chart Pandas.str_of_num Pandas.to_datetime_ymd Calendar.strftime_ymd 30
                Example.three_days = (Return (Some sizes), w')
    ∧ this <$> sizes = [230 # 1; 750 # 1; 170 # 1].
Proof.
  eexists _, _. split; [vm_compute; reflexivity|]. vm_compute. reflexivity.
Qed.

(** No macro is recorded in the table of two weights: no pie. *)
Example macro_pie_chart_no_macros :
  (create_macro_pie_chart Pandas.str_of_num Pandas.to_datetime_ymd Calendar.strftime_ymd 30
     Example.two_weights).1 = Return None.
Proof. vm_compute. reflexivity. Qed.

(** ** Instances of the other properties *)

(** Instance of X2: calories and weight of a first entry. *)
Lemma get_day_data_after_update_witness :
  ∃ w1 r w2,
    upsert "2025-01-01" [("calories", Qc_of_Z 500); ("weight", Qc_of_Z 150)]
           Example.fresh = (Return true, w1)
    ∧ get_day_data Pandas.str_of_num "2025-01-01" w1 = (Return (Some r), w2)
    ∧ nums r !! "Calories"
      = Some (default 0%Qc (stored_in Example.fresh "2025-01-01" "Calories")
              + Qc_of_Z 500)%Qc
    ∧ nums r !! "Weight" = Some (Qc_of_Z 150).
Proof.
  destruct (get_day_data_after_update Example.cwd Example.filename
              Pandas.str_of_num "2025-01-01"
              [("calories", Qc_of_Z 500); ("weight", Qc_of_Z 150)]
              Example.fresh eq_refl)
    as (w1 & r & w2 & Hup & Hget & _ & Hpol).
  { cbn [fmap list_fmap fst]. apply NoDup_cons. split; [|apply NoDup_singleton].
    intros Hin. apply elem_of_cons in Hin as [[=]|Hin].
    by apply elem_of_nil in Hin. }
  exists w1, r, w2. split; [exact Hup|]. split; [exact Hget|]. split.
  - apply (Hpol "calories" "Calories" true); [reflexivity|by left].
  - apply (Hpol "weight" "Weight" false); [reflexivity|by right; left].
Defined.

(** Instance of X3: deleting one of two days. *)
Lemma get_day_data_after_delete_witness :
  ∃ w1 w2,
    delete_day_data Example.cwd Example.filename Pandas.str_of_num
      "2025-01-01" Example.two_weights = (Return true, w1)
    ∧ (Str "2025-01-01" ∉ dates (table_of w1))
    ∧ get_day_data Pandas.str_of_num "2025-01-01" w1 = (Return None, w2).
Proof.
  exact (get_day_data_after_delete Example.cwd Example.filename
           Pandas.str_of_num "2025-01-01" Example.two_weights eq_refl).
Defined.

(** Instance of X4: an entry for one day leaves the other day alone. *)
Lemma other_dates_untouched_witness :
  record "2024-12-28"
    (table_of (upsert "2025-01-01" [("weight", Qc_of_Z 144)]
                      Example.two_weights).2)
  = record "2024-12-28" (table_of Example.two_weights).
Proof.
  refine (proj1 (other_dates_untouched Example.cwd Example.filename
                   Pandas.str_of_num "2025-01-01" "2024-12-28"
                   [("weight", Qc_of_Z 144)] Example.two_weights _)).
  discriminate.
Defined.

(** Instance of X5: a third day. *)
Lemma update_day_data_rows_witness :
  ∃ w', upsert "2025-01-02" [("calories", Qc_of_Z 500)] Example.two_weights
        = (Return true, w')
    ∧ len (table_of w')
      = (len (table_of Example.two_weights)
         + if bool_decide (Str "2025-01-02" ∈ dates (table_of Example.two_weights))
           then 0 else 1)%nat.
Proof.
  destruct (update_day_data_rows Example.cwd Example.filename
              Pandas.str_of_num "2025-01-02" [("calories", Qc_of_Z 500)]
              Example.two_weights eq_refl) as (w' & Hup & _ & Hlen & _).
  exists w'. split; [exact Hup|exact Hlen].
Defined.

(** Instance of X6. *)
Lemma delete_day_data_idempotent_witness :
  ∃ w1 w2,
    delete_day_data Example.cwd Example.filename Pandas.str_of_num
      "2025-01-01" Example.two_weights = (Return true, w1)
    ∧ delete_day_data Example.cwd Example.filename Pandas.str_of_num
        "2025-01-01" w1 = (Return true, w2)
    ∧ table_of w2 = table_of w1.
Proof.
  exact (delete_day_data_idempotent Example.cwd Example.filename
           Pandas.str_of_num "2025-01-01" Example.two_weights eq_refl).
Defined.

(** Instance of X11: the summary reads only. *)
Lemma reading_methods_keep_file_witness :
  file (call Example.cwd Example.filename Pandas.str_of_num
          Pandas.to_datetime_ymd Calendar.strftime_ymd Example.destination_of (Get_summary_stats 30) Example.two_weights).2
  = file Example.two_weights.
Proof.
  refine (proj1 (reading_methods_keep_file Example.cwd Example.filename
                   Pandas.str_of_num Pandas.to_datetime_ymd Calendar.strftime_ymd Example.destination_of
                   (Get_summary_stats 30) Example.two_weights _ _ _ _));
    discriminate.
Defined.

(** Instance of X14: a range from the 2nd back to the 1st. *)
Lemma get_date_range_data_empty_range_witness :
  ∃ df w', get_range "2025-01-02" "2025-01-01" Example.two_weights
           = (Return df, w')
           ∧ df_rows df = [].
Proof.
  eapply get_date_range_data_empty_range;
    [vm_compute; reflexivity | vm_compute; reflexivity | vm_compute; reflexivity].
Defined.

(** Instance of X15: the average weight of 150 and 145. *)
Lemma summary_averages_witness :
  avg_weight
    (summary_of (Frame columns [Example.row_of "2024-12-28" [("Weight", 150)];
                                Example.row_of "2025-01-01" [("Weight", 145)]]))
  = (Qc_sum [Qc_of_Z 150; Qc_of_Z 145] / Qc_of_nat 2)%Qc.
Proof.
  refine (proj1 (summary_averages
                   (Frame columns [Example.row_of "2024-12-28" [("Weight", 150)];
                                   Example.row_of "2025-01-01" [("Weight", 145)]])
                   "Weight" avg_weight _)).
  do 4 right. left.
Defined.

(** Instance of X23: the trend of 150, 149, 151. *)
Lemma weight_trend_least_squares_witness :
  ∃ z, polyfit_1 (arange 3)
         (Some <$> [Qc_of_Z 150; Qc_of_Z 149; Qc_of_Z 151]) = Return z
    ∧ ∀ a b, (squared_error z.1 z.2 [Qc_of_Z 150; Qc_of_Z 149; Qc_of_Z 151]
              ≤ squared_error a b [Qc_of_Z 150; Qc_of_Z 149; Qc_of_Z 151])%Qc.
Proof.
  apply (weight_trend_least_squares [Qc_of_Z 150; Qc_of_Z 149; Qc_of_Z 151]).
  cbn [length]. lia.
Defined.

(** Instance of X25: the three days all count, and all have a bar. *)
Lemma summary_agrees_with_charts_witness :
  ∃ s c, (summary 30 Example.three_days).1 = Return (Some s)
    ∧ (create_calorie_chart Pandas.str_of_num Pandas.to_datetime_ymd Calendar.strftime_ymd 30
         Example.three_days).1 = Return (Some c)
    ∧ length (calorie_values c) = days_with_data s.
Proof.
  eexists _, _. split; [vm_compute; reflexivity|].
  split; [vm_compute; reflexivity|].
  apply (summary_agrees_with_charts Pandas.str_of_num Pandas.to_datetime_ymd Calendar.strftime_ymd 30
           Example.three_days); vm_compute; reflexivity.
Defined.
